(** * SPDX to Mermaid converter: a shallow embedding of [spdx_to_mermaid.py]

    The development follows the layout of the script: Python string
    primitives, the insertion-ordered dictionary, the identifier sanitizer
    and the quote escaper, the timestamp pre-patch, the label formatter, the
    extractor, the diagram emitter and the command-line flow. *)

From Stdlib Require Import Strings.String Strings.Ascii.
From Stdlib Require Import Lists.List.
From Stdlib Require Import Arith.PeanoNat Arith.Arith.
From Stdlib Require Import ZArith.ZArith.
From Stdlib Require Import Bool.Bool.
From Stdlib Require Import micromega.Lia.
Import ListNotations.

Local Open Scope list_scope.
Local Open Scope string_scope.

(* ------------------------------------------------------------------ *)
(** ** Python string primitives *)

Module PyString.

(** [len(s)] *)
Definition len (s : string) : nat := String.length s.

(** [s[:n]] for a non-negative [n] *)
Fixpoint take (n : nat) (s : string) : string :=
  match n, s with
  | O, _ => ""
  | S _, EmptyString => ""
  | S k, String c s' => String c (take k s')
  end.

(** [c in s] for a single character *)
Fixpoint occurs (c : ascii) (s : string) : bool :=
  match s with
  | EmptyString => false
  | String a s' => Ascii.eqb a c || occurs c s'
  end.

(** [sub in s]: [sub] starts at some position of [s] *)
Fixpoint contains (sub s : string) : bool :=
  match s with
  | EmptyString => String.prefix sub ""
  | String _ s' => String.prefix sub s || contains sub s'
  end.

(** The scan of [str.replace] for a non-empty pattern: left to right, the
    leftmost occurrence is replaced and the scan resumes behind it.
    [skip] counts the characters of the occurrence still to be dropped. *)
Fixpoint replace_scan (old new : string) (skip : nat) (s : string) : string :=
  match s with
  | EmptyString => ""
  | String c s' =>
      match skip with
      | S k => replace_scan old new k s'
      | O =>
          if String.prefix old s
          then new ++ replace_scan old new (String.length old - 1) s'
          else String c (replace_scan old new 0 s')
      end
  end.

(** With an empty pattern Python puts [new] before every character and at
    the end. *)
Fixpoint intersperse (new s : string) : string :=
  match s with
  | EmptyString => new
  | String c s' => new ++ String c (intersperse new s')
  end.

(** [s.replace(old, new)] *)
Definition replace (old new s : string) : string :=
  match old with
  | EmptyString => intersperse new s
  | String _ _ => replace_scan old new 0 s
  end.

(** [sep.join(l)] *)
Definition join (sep : string) (l : list string) : string := String.concat sep l.

(** The characters of a string, as Python iterates over it. *)
Fixpoint chars (s : string) : list string :=
  match s with
  | EmptyString => []
  | String c s' => String c "" :: chars s'
  end.

(** Character-wise substitution, the effect of replacing a one-character
    pattern by a one-character text. *)
Fixpoint subst_char (a b : ascii) (s : string) : string :=
  match s with
  | EmptyString => ""
  | String c s' => String (if Ascii.eqb c a then b else c) (subst_char a b s')
  end.

End PyString.

(** [str(x)], the protocol behind [str()] and f-string interpolation. *)
Class Str (A : Type) : Type := str : A -> string.

#[export] Instance Str_string : Str string := fun s => s.

(* ------------------------------------------------------------------ *)
(** ** Identifier sanitizer and quote escaper *)

Definition sanitize_node_id {A : Type} `{Str A} (spdx_id : A) : string :=
  let spdx_id_str := str spdx_id in
  PyString.replace "." "_"
    (PyString.replace "-" "_"
       (PyString.replace "SPDXRef-" "" spdx_id_str)).

(** The double-quote character and the one-character string holding it. *)
Definition dquote_char : ascii := "034"%char.
Definition dquote : string := String dquote_char "".

Definition escape_quotes (text : string) : string :=
  PyString.replace dquote "'" text.

(* ------------------------------------------------------------------ *)
(** ** Python values, exceptions and dictionaries *)

(** The exceptions the modelled code can raise or meet. *)
Inductive PyExn : Type :=
| TypeError
| KeyError
| FileNotFoundError
| UnicodeDecodeError
| OSError
| ParseError.

(** A computation that returns a value or raises. *)
Inductive result (A : Type) : Type :=
| Ok (a : A)
| Raise (e : PyExn).
Arguments Ok {A} a.
Arguments Raise {A} e.

Definition bind {A B : Type} (m : result A) (f : A -> result B) : result B :=
  match m with
  | Ok a => f a
  | Raise e => Raise e
  end.

Notation "x <- m ;; k" := (bind m (fun x => k))
  (at level 61, m at next level, right associativity).

(** Run [f] over a list from left to right, stopping at the first raise. *)
Fixpoint mapM {A B : Type} (f : A -> result B) (l : list A) : result (list B) :=
  match l with
  | [] => Ok []
  | a :: l' => b <- f a ;; bs <- mapM f l' ;; Ok (b :: bs)
  end.

(** The insertion-ordered [dict] with string keys: an association list whose
    keys are pairwise distinct, in insertion order. *)
Definition dict (V : Type) : Type := list (string * V).

Module Dict.
Section Ops.
Context {V : Type}.

(** [d.get(k)] *)
Fixpoint get (k : string) (d : dict V) : option V :=
  match d with
  | [] => None
  | (k', v) :: d' => if String.eqb k' k then Some v else get k d'
  end.

(** [k in d] *)
Definition mem (k : string) (d : dict V) : bool :=
  match get k d with Some _ => true | None => false end.

(** [d[k] = v]: an existing key keeps its place and takes the new value,
    a new key goes to the end. *)
Fixpoint set (k : string) (v : V) (d : dict V) : dict V :=
  match d with
  | [] => [(k, v)]
  | (k', v') :: d' =>
      if String.eqb k' k then (k', v) :: d' else (k', v') :: set k v d'
  end.

(** [d.update(other)] *)
Definition update (d other : dict V) : dict V :=
  fold_left (fun acc kv => set (fst kv) (snd kv) acc) other d.

(** [dict(items)] *)
Definition of_items (items : list (string * V)) : dict V := update [] items.

Definition keys (d : dict V) : list string := map fst d.

(** [d.get(k, default)] *)
Definition get_default (k : string) (default : V) (d : dict V) : V :=
  match get k d with Some v => v | None => default end.
End Ops.
End Dict.

(** [l[:n]] for any integer [n]: a negative bound counts from the end. *)
Definition slice_to {A : Type} (n : Z) (l : list A) : list A :=
  if (0 <=? n)%Z then firstn (Z.to_nat n) l
  else firstn (Z.to_nat (Z.of_nat (List.length l) + n)) l.

(** The values the extractor stores in an element dictionary: [None], a
    [bool], a [str], a list of [str] (creators) and a list of dictionaries
    from [str] to [str] (checksums, external references). *)
Inductive PyVal : Type :=
| PyNone
| PyBool (b : bool)
| PyStr (s : string)
| PyStrList (l : list string)
| PyDictList (l : list (dict string)).

(** Truth value of a stored value. *)
Definition truthy (v : PyVal) : bool :=
  match v with
  | PyNone => false
  | PyBool b => b
  | PyStr s => negb (String.eqb s "")
  | PyStrList l => match l with [] => false | _ => true end
  | PyDictList l => match l with [] => false | _ => true end
  end.

Definition newline : string := String "010"%char "".

(* ------------------------------------------------------------------ *)
(** ** The parsed document

    The classes of the parsed document belong to the parsing library; the
    records below hold the attributes the script reads, under the names it
    reads them by.  An attribute the script probes with [hasattr] before use
    is an [option]: [None] stands for an object without the attribute or with
    [None] in it.  An attribute read without a probe is a plain field. *)

(** A library object (actor, license expression, enum member, date, the
    no-assertion and none markers, or a string) as the script observes it:
    by its truth value and by the text [str()] gives. *)
Record PyObject : Type := { truth : bool; text : string }.

#[export] Instance Str_PyObject : Str PyObject := text.

(** The far end of a relationship: an element id or one of the two markers. *)
Inductive ElementRef : Type :=
| ElementId (spdx_id : string)
| SpdxNoAssertion
| SpdxNone.

#[export] Instance Str_ElementRef : Str ElementRef := fun r =>
  match r with
  | ElementId spdx_id => spdx_id
  | SpdxNoAssertion => "NOASSERTION"
  | SpdxNone => "NONE"
  end.

Module Checksum.
Record t : Type := { algorithm : PyObject; value : string }.
End Checksum.

Module PackageVerificationCode.
Record t : Type := { value : string }.
End PackageVerificationCode.

Module ExternalPackageRef.
(** [category] is read without a probe when [reference_type] is missing, so
    it is a plain field; [ref_text] is [str(ref)]. *)
Record t : Type := {
  reference_type : option string;
  category : PyObject;
  locator : option string;
  ref_text : string
}.
End ExternalPackageRef.

Module Package.
Record t : Type := {
  spdx_id : string;
  name : string;
  version : option string;
  download_location : option PyObject;
  files_analyzed : option bool;
  supplier : option PyObject;
  originator : option PyObject;
  homepage : option PyObject;
  license_concluded : option PyObject;
  license_declared : option PyObject;
  license_comment : option string;
  copyright_text : option PyObject;
  comment : option string;
  summary : option string;
  primary_package_purpose : option PyObject;
  checksums : option (list Checksum.t);
  verification_code : option PackageVerificationCode.t;
  file_name : option string;
  external_references : option (list ExternalPackageRef.t)
}.
End Package.

Module File.
Record t : Type := {
  spdx_id : string;
  name : string;
  license_concluded : option PyObject;
  copyright_text : option PyObject;
  comment : option string;
  checksums : option (list Checksum.t)
}.
End File.

Module Snippet.
Record t : Type := {
  spdx_id : string;
  name : option string;
  comment : option string;
  license_concluded : option PyObject;
  copyright_text : option PyObject
}.
End Snippet.

Module RelationshipType.
(** [name] is the short enum name, when the object has one; [type_text] is
    [str()] of the object. *)
Record t : Type := { name : option string; type_text : string }.
End RelationshipType.

Module Relationship.
Record t : Type := {
  spdx_element_id : string;
  related_spdx_element_id : ElementRef;
  relationship_type : RelationshipType.t;
  comment : option string
}.
End Relationship.

Module CreationInfo.
(** [spdx_id] is the document's own identifier; the script never reads it. *)
Record t : Type := {
  spdx_id : string;
  name : option string;
  spdx_version : option string;
  document_namespace : option string;
  created : option PyObject;
  creators : option (list PyObject);
  data_license : option string
}.
End CreationInfo.

Module Document.
Record t : Type := {
  creation_info : CreationInfo.t;
  name : string;
  packages : list Package.t;
  files : list File.t;
  snippets : list Snippet.t;
  relationships : list Relationship.t
}.
End Document.

(* ------------------------------------------------------------------ *)
(** ** Extractor *)

(** [x if hasattr(o, a) else None] for a string attribute *)
Definition raw_or_none (x : option string) : PyVal :=
  match x with Some s => PyStr s | None => PyNone end.

(** [x if hasattr(o, a) and x else None] for a string attribute *)
Definition raw_if_truthy (x : option string) : PyVal :=
  match x with
  | Some s => if String.eqb s "" then PyNone else PyStr s
  | None => PyNone
  end.

(** [str(x) if hasattr(o, a) else None] *)
Definition str_or_none (x : option PyObject) : PyVal :=
  match x with Some o => PyStr (str o) | None => PyNone end.

(** [str(x) if hasattr(o, a) and x else None] *)
Definition str_if_truthy (x : option PyObject) : PyVal :=
  match x with
  | Some o => if truth o then PyStr (str o) else PyNone
  | None => PyNone
  end.

(** [str(x) if hasattr(o, a) and x is not None else None] *)
Definition str_if_not_none (x : option PyObject) : PyVal :=
  match x with Some o => PyStr (str o) | None => PyNone end.

Definition checksum_dict (c : Checksum.t) : dict string :=
  [("algorithm", str (Checksum.algorithm c)); ("checksumValue", Checksum.value c)].

(** The checksum dictionaries, or the empty list for a missing or empty
    attribute. *)
Definition checksum_list (x : option (list Checksum.t)) : PyVal :=
  match x with
  | Some (c :: cs) => PyDictList (map checksum_dict (c :: cs))
  | _ => PyDictList []
  end.

Definition external_ref_dict (ref : ExternalPackageRef.t) : dict string :=
  [("referenceType",
    match ExternalPackageRef.reference_type ref with
    | Some reference_type => reference_type
    | None => str (ExternalPackageRef.category ref)
    end);
   ("referenceLocator",
    match ExternalPackageRef.locator ref with
    | Some locator => locator
    | None => ExternalPackageRef.ref_text ref
    end);
   ("referenceCategory", str (ExternalPackageRef.category ref))].

Definition external_ref_list (x : option (list ExternalPackageRef.t)) : PyVal :=
  match x with
  | Some (r :: rs) => PyDictList (map external_ref_dict (r :: rs))
  | _ => PyDictList []
  end.

Definition document_data (doc : Document.t) : dict PyVal :=
  let info := Document.creation_info doc in
  [("type", PyStr "Document");
   ("name", match CreationInfo.name info with
            | Some name => PyStr name
            | None => PyStr (Document.name doc)
            end);
   ("version", raw_or_none (CreationInfo.spdx_version info));
   ("namespace", raw_or_none (CreationInfo.document_namespace info));
   ("created", str_or_none (CreationInfo.created info));
   ("creators", match CreationInfo.creators info with
                | Some creators => PyStrList (map str creators)
                | None => PyStrList []
                end);
   ("dataLicense", raw_or_none (CreationInfo.data_license info))].

Definition pkg_data (package : Package.t) : dict PyVal :=
  [("type", PyStr "Package");
   ("name", PyStr (Package.name package));
   ("version", raw_if_truthy (Package.version package));
   ("downloadLocation", str_or_none (Package.download_location package));
   ("filesAnalyzed", match Package.files_analyzed package with
                     | Some b => PyBool b
                     | None => PyNone
                     end);
   ("supplier", str_if_truthy (Package.supplier package));
   ("originator", str_if_truthy (Package.originator package));
   ("homepage", str_if_truthy (Package.homepage package));
   ("licenseConcluded", str_if_not_none (Package.license_concluded package));
   ("licenseDeclared", str_if_not_none (Package.license_declared package));
   ("licenseComments", raw_if_truthy (Package.license_comment package));
   ("copyrightText", str_if_truthy (Package.copyright_text package));
   ("comment", raw_if_truthy (Package.comment package));
   ("summary", raw_if_truthy (Package.summary package));
   ("primaryPackagePurpose", str_if_truthy (Package.primary_package_purpose package));
   ("checksums", checksum_list (Package.checksums package));
   ("verificationCode",
    match Package.verification_code package with
    | Some code => PyStr (PackageVerificationCode.value code)
    | None => PyNone
    end);
   ("packageFileName", raw_if_truthy (Package.file_name package));
   ("externalRefs", external_ref_list (Package.external_references package))].

Definition file_data (file : File.t) : dict PyVal :=
  [("type", PyStr "File");
   ("name", PyStr (File.name file));
   ("licenseConcluded", str_if_not_none (File.license_concluded file));
   ("copyrightText", str_if_truthy (File.copyright_text file));
   ("comment", raw_if_truthy (File.comment file));
   ("checksums", checksum_list (File.checksums file))].

Definition snippet_data (snippet : Snippet.t) : dict PyVal :=
  [("type", PyStr "Snippet");
   ("name", match Snippet.name snippet with
            | Some name => if String.eqb name "" then PyStr (Snippet.spdx_id snippet)
                           else PyStr name
            | None => PyStr (Snippet.spdx_id snippet)
            end);
   ("comment", raw_if_truthy (Snippet.comment snippet));
   ("licenseConcluded", str_if_not_none (Snippet.license_concluded snippet));
   ("copyrightText", str_if_truthy (Snippet.copyright_text snippet))].

(** [for x in xs: elements[key(x)] = data(x)] *)
Definition add_all {A : Type} (key : A -> string) (data : A -> dict PyVal)
           (xs : list A) (elements : dict (dict PyVal)) : dict (dict PyVal) :=
  fold_left (fun acc x => Dict.set (key x) (data x) acc) xs elements.

Definition extract_elements_from_document (doc : Document.t) : dict (dict PyVal) :=
  let elements := Dict.set "SPDXRef-DOCUMENT" (document_data doc) [] in
  let elements := add_all Package.spdx_id pkg_data (Document.packages doc) elements in
  let elements := add_all File.spdx_id file_data (Document.files doc) elements in
  let elements := add_all Snippet.spdx_id snippet_data (Document.snippets doc) elements in
  elements.

Section Emitter.

(** [repr] of a [str], Python's builtin; the code reaches it only through
    [str()] of a list. *)
Variable py_repr : string -> string.

Definition repr_dict (d : dict string) : string :=
  "{" ++ PyString.join ", "
           (map (fun kv => py_repr (fst kv) ++ ": " ++ py_repr (snd kv)) d) ++ "}".

(** [str(v)] for a stored value *)
Definition py_str (v : PyVal) : string :=
  match v with
  | PyNone => "None"
  | PyBool true => "True"
  | PyBool false => "False"
  | PyStr s => s
  | PyStrList l => "[" ++ PyString.join ", " (map py_repr l) ++ "]"
  | PyDictList l => "[" ++ PyString.join ", " (map repr_dict l) ++ "]"
  end.

#[local] Instance Str_PyVal : Str PyVal := py_str.

(* ---------------------------------------------------------------- *)
(** ** Label formatter *)

(** [key in element_data and element_data[key]] *)
Definition present (element_data : dict PyVal) (key : string) : option PyVal :=
  match Dict.get key element_data with
  | Some v => if truthy v then Some v else None
  | None => None
  end.

(** [if len(text) > limit:] keep the first [keep] characters and append
    three dots. *)
Definition shorten (limit keep : nat) (text : string) : string :=
  if Nat.ltb limit (PyString.len text) then PyString.take keep text ++ "..." else text.

(** The recurring block: one line for a field that is present. *)
Definition field_line (element_data : dict PyVal) (key label : string)
           (render : PyVal -> string) : list string :=
  match present element_data key with
  | Some v => [label ++ render v]
  | None => []
  end.

(** Type header, with the purpose when there is one. *)
Definition header_line (element_data : dict PyVal) (element_type : string) : string :=
  match present element_data "primaryPackagePurpose" with
  | Some purpose => "[" ++ element_type ++ " - " ++ str purpose ++ "]"
  | None => "[" ++ element_type ++ "]"
  end.

(** Name, or the raw id. *)
Definition name_line (element_id : string) (element_data : dict PyVal) : string :=
  match present element_data "name" with
  | Some name => "Name: " ++ escape_quotes (str name)
  | None => "ID: " ++ escape_quotes element_id
  end.

Definition summary_lines (element_data : dict PyVal) : list string :=
  field_line element_data "summary" "Summary: "
    (fun v => shorten 60 57 (escape_quotes (str v))).

Definition version_lines (element_data : dict PyVal) : list string :=
  field_line element_data "version" "Version: " (fun v => escape_quotes (str v)).

Definition license_lines (element_data : dict PyVal) : list string :=
  field_line element_data "licenseConcluded" "License: "
    (fun v => escape_quotes (str v)).

Definition license_note_lines (element_data : dict PyVal) : list string :=
  field_line element_data "licenseComments" "License Note: "
    (fun v => shorten 60 57 (escape_quotes (str v))).

Definition download_lines (element_data : dict PyVal) : list string :=
  field_line element_data "downloadLocation" "Download: "
    (fun v => shorten 50 47 (escape_quotes (str v))).

Definition supplier_lines (element_data : dict PyVal) : list string :=
  field_line element_data "supplier" "Supplier: " (fun v => escape_quotes (str v)).

Definition originator_lines (element_data : dict PyVal) : list string :=
  field_line element_data "originator" "Originator: "
    (fun v => escape_quotes (str v)).

(** Files-analyzed status: the key alone decides. *)
Definition files_analyzed_lines (element_data : dict PyVal) : list string :=
  match Dict.get "filesAnalyzed" element_data with
  | Some v => ["Files Analyzed: " ++ str v]
  | None => []
  end.

Definition verification_lines (element_data : dict PyVal) : list string :=
  field_line element_data "verificationCode" "Verification: " (fun v => str v).

(** One checksum: algorithm and the first twelve characters of the value. *)
Definition checksum_line (checksum : dict string) : string :=
  let algo := Dict.get_default "algorithm" "" checksum in
  let value := PyString.take 12 (Dict.get_default "checksumValue" "" checksum) in
  algo ++ ": " ++ value ++ "...".

(** At most the first two checksums; a list of anything but dictionaries
    gives no line. *)
Definition checksum_lines (element_data : dict PyVal) : list string :=
  match present element_data "checksums" with
  | Some (PyDictList checksums) => map checksum_line (firstn 2 checksums)
  | _ => []
  end.

Definition copyright_lines (element_data : dict PyVal) : list string :=
  field_line element_data "copyrightText" "Copyright: "
    (fun v => shorten 40 37 (escape_quotes (str v))).

Definition comment_lines (element_data : dict PyVal) : list string :=
  field_line element_data "comment" "Comment: "
    (fun v => shorten 50 47 (escape_quotes (str v))).

Definition homepage_lines (element_data : dict PyVal) : list string :=
  field_line element_data "homepage" "Homepage: " (fun v => escape_quotes (str v)).

(** The fields skipped in compact mode. *)
Definition optional_lines (element_data : dict PyVal) : list string :=
  (download_lines element_data ++ supplier_lines element_data
   ++ originator_lines element_data ++ files_analyzed_lines element_data
   ++ verification_lines element_data ++ checksum_lines element_data
   ++ copyright_lines element_data ++ comment_lines element_data
   ++ homepage_lines element_data)%list.

Definition created_lines (element_data : dict PyVal) : list string :=
  field_line element_data "created" "Created: " (fun v => escape_quotes (str v)).

(** [", ".join(creators)]: a list of strings is joined, a string is joined
    character by character, anything else the formatter can meet here is
    not an iterable of strings. *)
Definition join_creators (creators : PyVal) : result string :=
  match creators with
  | PyStrList l => Ok (PyString.join ", " l)
  | PyStr s => Ok (PyString.join ", " (PyString.chars s))
  | _ => Raise TypeError
  end.

Definition creators_lines (element_data : dict PyVal) : result (list string) :=
  match present element_data "creators" with
  | Some creators =>
      creators_str <- join_creators creators ;;
      Ok ["Creators: " ++ escape_quotes (shorten 50 47 creators_str)]
  | None => Ok []
  end.

Definition namespace_lines (element_data : dict PyVal) : list string :=
  field_line element_data "namespace" "Namespace: "
    (fun v => shorten 50 47 (escape_quotes (str v))).

Definition data_license_lines (element_data : dict PyVal) : list string :=
  field_line element_data "dataLicense" "Data License: "
    (fun v => escape_quotes (str v)).

(** Document-specific fields. *)
Definition document_lines (element_data : dict PyVal) : result (list string) :=
  creators <- creators_lines element_data ;;
  Ok (created_lines element_data ++ creators
      ++ namespace_lines element_data ++ data_license_lines element_data)%list.

Definition license_declared_lines (element_data : dict PyVal) : list string :=
  field_line element_data "licenseDeclared" "License Declared: "
    (fun v => escape_quotes (str v)).

Definition package_file_lines (element_data : dict PyVal) : list string :=
  field_line element_data "packageFileName" "Package File: "
    (fun v => shorten 50 47 (escape_quotes (str v))).

(** One external reference: type and shortened locator. *)
Definition external_ref_line (ref : dict string) : string :=
  let ref_type := Dict.get_default "referenceType" "" ref in
  let ref_loc := Dict.get_default "referenceLocator" "" ref in
  ref_type ++ ": " ++ escape_quotes (shorten 40 37 ref_loc).

(** [element_data["externalRefs"][:limit]], one line per dictionary in it;
    a [bool] cannot be sliced. *)
Definition external_ref_lines (element_data : dict PyVal) (compact : bool) :
  result (list string) :=
  match present element_data "externalRefs" with
  | Some refs =>
      let limit := if compact then 1 else 2 in
      match refs with
      | PyDictList l => Ok (map external_ref_line (firstn limit l))
      | PyStrList _ | PyStr _ => Ok []
      | PyBool _ | PyNone => Raise TypeError
      end
  | None => Ok []
  end.

(** Package-specific fields. *)
Definition package_lines (element_data : dict PyVal)
           (compact exclude_external_refs : bool) : result (list string) :=
  refs <- (if negb exclude_external_refs
           then external_ref_lines element_data compact else Ok []) ;;
  Ok ((if negb compact then license_declared_lines element_data else [])
      ++ (if negb compact then package_file_lines element_data else [])
      ++ refs)%list.

(** The lines of a label, in the order the formatter appends them. *)
Definition format_node_lines (element_id : string) (element_data : dict PyVal)
           (element_type : string) (compact exclude_external_refs : bool) :
  result (list string) :=
  let lines :=
    ([header_line element_data element_type; name_line element_id element_data]
     ++ summary_lines element_data ++ version_lines element_data
     ++ license_lines element_data ++ license_note_lines element_data
     ++ (if negb compact then optional_lines element_data else []))%list in
  document <- (if String.eqb element_type "Document" && negb compact
               then document_lines element_data else Ok []) ;;
  package <- (if String.eqb element_type "Package"
              then package_lines element_data compact exclude_external_refs
              else Ok []) ;;
  Ok (lines ++ document ++ package)%list.

Definition format_node_label (element_id : string) (element_data : dict PyVal)
           (element_type : string) (compact exclude_external_refs : bool) :
  result string :=
  lines <- format_node_lines element_id element_data element_type
             compact exclude_external_refs ;;
  Ok (PyString.join newline lines).

(* ---------------------------------------------------------------- *)
(** ** Diagram emitter *)

(** [element_data["type"]] *)
Definition type_of (element_data : dict PyVal) : result PyVal :=
  match Dict.get "type" element_data with
  | Some t => Ok t
  | None => Raise KeyError
  end.

(** [v == text] for a stored value and a string *)
Definition eq_str (v : PyVal) (text : string) : bool :=
  match v with
  | PyStr s => String.eqb s text
  | _ => false
  end.

(** [{k: v for k, v in elements.items() if keep(v["type"])}] *)
Fixpoint select_by_type (keep : PyVal -> bool) (elements : dict (dict PyVal)) :
  result (dict (dict PyVal)) :=
  match elements with
  | [] => Ok []
  | (k, v) :: rest =>
      t <- type_of v ;;
      rest' <- select_by_type keep rest ;;
      Ok (if keep t then (k, v) :: rest' else rest')
  end.

(** Limit packages if requested. *)
Definition limit_packages (max_packages : option Z) (elements : dict (dict PyVal)) :
  result (dict (dict PyVal)) :=
  match max_packages with
  | None => Ok elements
  | Some n =>
      package_elements <- select_by_type (fun t => eq_str t "Package") elements ;;
      if (n <? Z.of_nat (List.length package_elements))%Z then
        let limited_packages := Dict.of_items (slice_to n package_elements) in
        others <- select_by_type (fun t => negb (eq_str t "Package")) elements ;;
        Ok (Dict.update others limited_packages)
      else Ok elements
  end.

Definition node_line (node_id label : string) : string :=
  "    " ++ node_id ++ "[" ++ dquote ++ label ++ dquote ++ "]".

Definition style_line (node_id colours : string) : string :=
  "    style " ++ node_id ++ " " ++ colours.

(** Colours of a package node, by purpose. *)
Definition package_colours (element_data : dict PyVal) : string :=
  match Dict.get "primaryPackagePurpose" element_data with
  | Some purpose =>
      if truthy purpose && PyString.contains "SOURCE" (str purpose)
      then "fill:#fff3e0,stroke:#e65100,stroke-width:2px"
      else if truthy purpose && PyString.contains "APPLICATION" (str purpose)
      then "fill:#f3e5f5,stroke:#4a148c,stroke-width:2px"
      else "fill:#f3e5f5,stroke:#4a148c,stroke-width:2px"
  | None => "fill:#f3e5f5,stroke:#4a148c,stroke-width:2px"
  end.

(** The statements of one element: its node and its style.  The type is
    compared as a string: no stored value other than a string has the text
    of one of the four type names. *)
Definition node_statements (compact exclude_external_refs : bool)
           (element : string * dict PyVal) : result (list string) :=
  let (element_id, element_data) := element in
  let node_id := sanitize_node_id element_id in
  element_type <- type_of element_data ;;
  label <- format_node_label element_id element_data (str element_type)
             compact exclude_external_refs ;;
  if eq_str element_type "Document" then
    Ok [node_line node_id label;
        style_line node_id "fill:#e1f5ff,stroke:#01579b,stroke-width:3px"]
  else if eq_str element_type "Package" then
    Ok [node_line node_id label; style_line node_id (package_colours element_data)]
  else if eq_str element_type "File" then
    Ok [node_line node_id label;
        style_line node_id "fill:#e8f5e9,stroke:#1b5e20,stroke-width:2px"]
  else if eq_str element_type "Snippet" then
    Ok [node_line node_id label;
        style_line node_id "fill:#fff3e0,stroke:#e65100,stroke-width:2px"]
  else Ok [].

(** Label of an edge: the short kind name, then the comment if any. *)
Definition edge_label (relationship : Relationship.t) : string :=
  let relationship_type := Relationship.relationship_type relationship in
  let rel_type :=
    match RelationshipType.name relationship_type with
    | Some name => name
    | None => RelationshipType.type_text relationship_type
    end in
  match Relationship.comment relationship with
  | Some comment =>
      if String.eqb comment "" then rel_type
      else rel_type ++ "<br/>" ++ escape_quotes comment
  | None => rel_type
  end.

Definition edge_statement (relationship : Relationship.t) : string :=
  let source_id := sanitize_node_id (Relationship.spdx_element_id relationship) in
  let target_id :=
    sanitize_node_id (Relationship.related_spdx_element_id relationship) in
  "    " ++ source_id ++ " -->|" ++ dquote ++ edge_label relationship ++ dquote
  ++ "| " ++ target_id.

Definition legend_lines : list string :=
  [""; "    %% Legend";
   "    legend[" ++ dquote
   ++ "Legend:<br/>Blue = Document<br/>Purple = Package (APPLICATION)<br/>Orange = Package (SOURCE)<br/>Green = File<br/>Orange = Snippet"
   ++ dquote ++ "]";
   "    style legend fill:#fafafa,stroke:#666,stroke-width:1px,stroke-dasharray: 5 5"].

(** The elements whose nodes are emitted, in emission order. *)
Definition emitted_elements (doc : Document.t) (max_packages : option Z) :
  result (dict (dict PyVal)) :=
  limit_packages max_packages (extract_elements_from_document doc).

(** The lines of the diagram, before they are joined. *)
Definition generate_mermaid_lines (doc : Document.t) (compact : bool)
           (max_packages : option Z) (exclude_external_refs : bool) :
  result (list string) :=
  elements <- emitted_elements doc max_packages ;;
  nodes <- mapM (node_statements compact exclude_external_refs) elements ;;
  Ok ("graph LR" :: List.concat nodes
      ++ map edge_statement (Document.relationships doc)
      ++ legend_lines)%list.

Definition generate_mermaid_diagram (doc : Document.t) (compact : bool)
           (max_packages : option Z) (exclude_external_refs : bool) :
  result string :=
  lines <- generate_mermaid_lines doc compact max_packages exclude_external_refs ;;
  Ok (PyString.join newline lines).

End Emitter.

(* ------------------------------------------------------------------ *)
(** ** Shapes of element dictionaries *)

(** The element is a package: its type is the string [Package]. *)
Definition is_package (element : string * dict PyVal) : bool :=
  eq_str (Dict.get_default "type" PyNone (snd element)) "Package".

(** The type is one of the four the emitter draws. *)
Definition typed (element_data : dict PyVal) : bool :=
  match Dict.get "type" element_data with
  | Some (PyStr t) =>
      String.eqb t "Document" || String.eqb t "Package"
      || String.eqb t "File" || String.eqb t "Snippet"
  | _ => false
  end.

(** Nothing under [creators] or [externalRefs] makes the formatter raise. *)
Definition label_safe (element_data : dict PyVal) : bool :=
  match Dict.get "creators" element_data with
  | Some (PyBool true) | Some (PyDictList (_ :: _)) => false
  | _ => true
  end
  && match Dict.get "externalRefs" element_data with
     | Some (PyBool true) => false
     | _ => true
     end.

Definition well_shaped (element : string * dict PyVal) : Prop :=
  typed (snd element) = true /\ label_safe (snd element) = true.

(** The entries the extractor makes. *)
Definition document_entry (doc : Document.t) : string * dict PyVal :=
  ("SPDXRef-DOCUMENT", document_data doc).
Definition package_entry (package : Package.t) : string * dict PyVal :=
  (Package.spdx_id package, pkg_data package).
Definition file_entry (file : File.t) : string * dict PyVal :=
  (File.spdx_id file, file_data file).
Definition snippet_entry (snippet : Snippet.t) : string * dict PyVal :=
  (Snippet.spdx_id snippet, snippet_data snippet).

(** The identifiers under which the extractor stores, in the order it stores. *)
Definition element_ids (doc : Document.t) : list string :=
  ("SPDXRef-DOCUMENT" :: map Package.spdx_id (Document.packages doc)
   ++ map File.spdx_id (Document.files doc)
   ++ map Snippet.spdx_id (Document.snippets doc))%list.

(* ------------------------------------------------------------------ *)
(** ** Timestamp pre-patch *)

(** The pattern: a quote, [dddd-dd-ddTdd:dd:dd] (group 1), a quote, and no
    [Z] next.  Characters are 8-bit here, so a digit is one of [0] to [9]. *)
Inductive CharClass : Type :=
| Digit
| Lit (c : ascii).

Definition is_digit (c : ascii) : bool :=
  (48 <=? nat_of_ascii c)%nat && (nat_of_ascii c <=? 57)%nat.

Definition class_matches (k : CharClass) (c : ascii) : bool :=
  match k with
  | Digit => is_digit c
  | Lit a => Ascii.eqb c a
  end.

Definition timestamp_group : list CharClass :=
  [Digit; Digit; Digit; Digit; Lit "-"; Digit; Digit; Lit "-"; Digit; Digit;
   Lit "T"; Digit; Digit; Lit ":"; Digit; Digit; Lit ":"; Digit; Digit].

(** [s] starts with characters of the given classes: the text they match and
    the rest of [s]. *)
Fixpoint match_classes (pattern : list CharClass) (s : string) :
  option (string * string) :=
  match pattern with
  | [] => Some ("", s)
  | k :: pattern' =>
      match s with
      | EmptyString => None
      | String c s' =>
          if class_matches k c then
            match match_classes pattern' s' with
            | Some (matched, rest) => Some (String c matched, rest)
            | None => None
            end
          else None
      end
  end.

(** The pattern matches at the start of [s]: group 1 and the text behind the
    match. *)
Definition timestamp_match (s : string) : option (string * string) :=
  match s with
  | String q s1 =>
      if Ascii.eqb q dquote_char then
        match match_classes timestamp_group s1 with
        | Some (group, String q' rest) =>
            if Ascii.eqb q' dquote_char && negb (String.prefix "Z" rest)
            then Some (group, rest) else None
        | _ => None
        end
      else None
  | EmptyString => None
  end.

(** [re.search(timestamp_pattern, content)] as a truth value *)
Fixpoint timestamp_search (content : string) : bool :=
  match timestamp_match content with
  | Some _ => true
  | None =>
      match content with
      | EmptyString => false
      | String _ content' => timestamp_search content'
      end
  end.

(** The scan of [re.sub]: the leftmost match is rewritten and the scan
    resumes behind it; [skip] counts the characters of the match still to be
    passed over. *)
Fixpoint timestamp_sub_scan (skip : nat) (content : string) : string :=
  match content with
  | EmptyString => ""
  | String c content' =>
      match skip with
      | S k => timestamp_sub_scan k content'
      | O =>
          match timestamp_match content with
          | Some (group, _) =>
              dquote ++ group ++ "Z" ++ dquote ++ timestamp_sub_scan 20 content'
          | None => String c (timestamp_sub_scan 0 content')
          end
      end
  end.

(** [re.sub] with the timestamp pattern; the replacement is a quote, group 1,
    [Z] and a quote. *)
Definition timestamp_sub (content : string) : string := timestamp_sub_scan 0 content.

(** No two occurrences of the timestamp pattern share a quote: where the
    pattern matches, it does not match again at the closing quote. *)
Fixpoint no_shared_quote (content : string) : bool :=
  match content with
  | EmptyString => true
  | String _ content' =>
      match timestamp_match content with
      | Some (_, rest) =>
          match timestamp_match (String dquote_char rest) with
          | Some _ => false
          | None => true
          end
      | None => true
      end
      && no_shared_quote content'
  end.

(** *** Paths and files *)

(** The text behind the last occurrence of [c], if [c] occurs. *)
Fixpoint after_last (c : ascii) (s : string) : option string :=
  match s with
  | EmptyString => None
  | String a s' =>
      match after_last c s' with
      | Some t => Some t
      | None => if Ascii.eqb a c then Some s' else None
      end
  end.

(** [Path.name]: the last component of the path. *)
Definition path_name (file_path : string) : string :=
  match after_last "/" file_path with
  | Some name => name
  | None => file_path
  end.

(** [Path.suffix]: the text from the last dot of the name on, unless that dot
    starts or ends the name. *)
Definition path_suffix (file_path : string) : string :=
  match path_name file_path with
  | EmptyString => ""
  | String _ tail =>
      match after_last "." tail with
      | Some EmptyString => ""
      | Some extension => String "." extension
      | None => ""
      end
  end.

Definition lower_char (c : ascii) : ascii :=
  let n := nat_of_ascii c in
  if (65 <=? n)%nat && (n <=? 90)%nat then ascii_of_nat (n + 32) else c.

(** [s.lower()] on 8-bit characters *)
Fixpoint lower (s : string) : string :=
  match s with
  | EmptyString => ""
  | String c s' => String (lower_char c) (lower s')
  end.

(** The files that exist, by path, with their text. *)
Definition FileSystem : Type := dict string.

(** [Path.unlink()] *)
Fixpoint unlink (file_path : string) (fs : FileSystem) : FileSystem :=
  match fs with
  | [] => []
  | (p, text) :: fs' =>
      if String.eqb p file_path then fs' else (p, text) :: unlink file_path fs'
  end.

(** What the process leaves behind besides files.  [StdoutPart] is the part
    of a text that reached standard output from a [print] that raised. *)
Inductive Output : Type :=
| Stdout (line : string)
| StdoutPart (part : string)
| Stderr (line : string)
| Warning (e : PyExn)
| Error (e : PyExn)
| Traceback (e : PyExn).

Record World : Type := { fs : FileSystem; printed : list Output }.

Definition print (o : Output) (w : World) : World :=
  {| fs := fs w; printed := (printed w ++ [o])%list |}.

(** The world in which a path holds a text. *)
Definition store (file_path content : string) (w : World) : World :=
  {| fs := Dict.set file_path content (fs w); printed := printed w |}.

(** What the operating system refuses to do.  [read_fault] is the exception
    that [read_text] raises on a file that is there (no permission, bytes
    that do not decode).  [write_fault] is the exception that writing a text
    at a path raises (no directory, no permission, no space), with what the
    attempt leaves at the path: nothing new when the file could not be
    opened, the part that was written when it could.  [unlink_fault] is the
    exception that [unlink] raises on a file that is there.  [print_fault] is
    the exception that [print] raises on standard output (a closed pipe, a
    text the stream cannot encode), with the part that went out before.
    Standard error takes every line. *)
Record Faults : Type := {
  read_fault : string -> option PyExn;
  write_fault : string -> string -> option (PyExn * option string);
  unlink_fault : string -> option PyExn;
  print_fault : string -> option (PyExn * option string)
}.

Record Args : Type := {
  spdx_file : string;
  output : option string;
  compact : bool;
  max_packages : option Z;
  exclude_external_refs : bool
}.

Section CommandLine.

Variable py_repr : string -> string.

(** The name [tempfile.NamedTemporaryFile] picks for the new file. *)
Variable temporary_name : FileSystem -> string.

Variable faults : Faults.

(** [parse_file], the parsing library's entry point, from the path and the
    text of the file. *)
Variable parse_file : string -> string -> result Document.t.

(** [Path.read_text()] *)
Definition read_text (file_path : string) (w : World) : result string :=
  match Dict.get file_path (fs w) with
  | Some content =>
      match read_fault faults file_path with
      | Some e => Raise e
      | None => Ok content
      end
  | None => Raise FileNotFoundError
  end.

(** [Path.write_text(content)], and the write into the temporary file: the
    exception raised, if any, and the world the attempt leaves. *)
Definition write_text (file_path content : string) (w : World) :
  option PyExn * World :=
  match write_fault faults file_path content with
  | None => (None, store file_path content w)
  | Some (e, Some part) => (Some e, store file_path part w)
  | Some (e, None) => (Some e, w)
  end.

(** [print(text)] on standard output *)
Definition print_stdout (text : string) (w : World) : option PyExn * World :=
  match print_fault faults text with
  | None => (None, print (Stdout text) w)
  | Some (e, Some part) => (Some e, print (StdoutPart part) w)
  | Some (e, None) => (Some e, w)
  end.

(** [try: path.unlink()  except: pass] *)
Definition try_unlink (file_path : string) (w : World) : World :=
  match unlink_fault faults file_path with
  | Some _ => w
  | None => {| fs := unlink file_path (fs w); printed := printed w |}
  end.

Definition preprocess_spdx_file (file_path : string) (w : World) : string * World :=
  if negb (String.eqb (lower (path_suffix file_path)) ".json") then (file_path, w)
  else
    match read_text file_path w with
    | Ok content =>
        let needs_fix := timestamp_search content in
        if negb needs_fix then (file_path, w)
        else
          let fixed_content := timestamp_sub content in
          let tmp_path := temporary_name (fs w) in
          match write_text tmp_path fixed_content w with
          | (None, w) => (tmp_path, w)
          | (Some e, w) => (file_path, print (Warning e) w)
          end
    | Raise e => (file_path, print (Warning e) w)
    end.

(** The handler of [main]: the message, the trace, and status 1. *)
Definition report (e : PyExn) (w : World) : nat * World :=
  (1, print (Traceback e) (print (Error e) w)).

(** Output to file or stdout. *)
Definition write_output (out : option string) (mermaid : string) (w : World) :
  nat * World :=
  match out with
  | Some out =>
      match write_text out mermaid w with
      | (None, w) =>
          match print_stdout ("Diagram written to " ++ out) w with
          | (None, w) => (0, w)
          | (Some e, w) => report e w
          end
      | (Some e, w) => report e w
      end
  | None =>
      match print_stdout mermaid w with
      | (None, w) => (0, w)
      | (Some e, w) => report e w
      end
  end.

(** [main]: the exit status and the world it leaves. *)
Definition main (args : Args) (w : World) : nat * World :=
  if negb (Dict.mem (spdx_file args) (fs w))
  then (1, print (Stderr ("Error: File not found: " ++ spdx_file args)) w)
  else
    let (processed_file, w) := preprocess_spdx_file (spdx_file args) w in
    let parsed :=
      match Dict.get processed_file (fs w) with
      | Some content => parse_file processed_file content
      | None => Raise FileNotFoundError
      end in
    match parsed with
    | Ok doc =>
        let w :=
          if negb (String.eqb processed_file (spdx_file args))
          then try_unlink processed_file w
          else w in
        match generate_mermaid_diagram py_repr doc (compact args)
                (max_packages args) (exclude_external_refs args) with
        | Ok mermaid => write_output (output args) mermaid w
        | Raise e => report e w
        end
    | Raise e => report e w
    end.

End CommandLine.

(* ------------------------------------------------------------------ *)
(** ** Tables for the statements about labels *)

(** Follows the specification: a string longer than its limit L keeps its
    first L-3 characters and gets three dots; any other is left as it is. *)
Definition uniform_truncation (limit : nat) (text : string) : string :=
  if Nat.ltb limit (PyString.len text)
  then PyString.take (limit - 3) text ++ "..."
  else text.

(** The shortened one-line fields: key, line label, limit and block. *)
Definition truncated_fields (py_repr : string -> string) :
  list (string * string * nat * (dict PyVal -> list string)) :=
  [("summary", "Summary: ", 60, summary_lines py_repr);
   ("licenseComments", "License Note: ", 60, license_note_lines py_repr);
   ("downloadLocation", "Download: ", 50, download_lines py_repr);
   ("copyrightText", "Copyright: ", 40, copyright_lines py_repr);
   ("comment", "Comment: ", 50, comment_lines py_repr);
   ("namespace", "Namespace: ", 50, namespace_lines py_repr);
   ("packageFileName", "Package File: ", 50, package_file_lines py_repr)].

(** Every block that renders one attribute under a presence check, by key. *)
Definition field_blocks (py_repr : string -> string) :
  list (string * (dict PyVal -> list string)) :=
  [("summary", summary_lines py_repr);
   ("version", version_lines py_repr);
   ("licenseConcluded", license_lines py_repr);
   ("licenseComments", license_note_lines py_repr);
   ("downloadLocation", download_lines py_repr);
   ("supplier", supplier_lines py_repr);
   ("originator", originator_lines py_repr);
   ("verificationCode", verification_lines py_repr);
   ("checksums", checksum_lines);
   ("copyrightText", copyright_lines py_repr);
   ("comment", comment_lines py_repr);
   ("homepage", homepage_lines py_repr);
   ("created", created_lines py_repr);
   ("namespace", namespace_lines py_repr);
   ("dataLicense", data_license_lines py_repr);
   ("licenseDeclared", license_declared_lines py_repr);
   ("packageFileName", package_file_lines py_repr)].

(** How the source document holds an optional attribute: not at all, with
    an empty value, or with a value. *)
Inductive Held : Type := Absent | Empty | Filled.

(** A string attribute: empty is the empty string. *)
Definition held_text (x : option string) : Held :=
  match x with
  | Some s => if String.eqb s "" then Empty else Filled
  | None => Absent
  end.

(** An object attribute that the extractor tests: empty is what [if x]
    takes for false. *)
Definition held_object (x : option PyObject) : Held :=
  match x with
  | Some o => if truth o then Filled else Empty
  | None => Absent
  end.

(** An object attribute that the extractor converts untested: empty is an
    object without text. *)
Definition held_str (x : option PyObject) : Held :=
  match x with
  | Some o => if String.eqb (text o) "" then Empty else Filled
  | None => Absent
  end.

(** A list attribute: empty is the empty list. *)
Definition held_items {A : Type} (x : option (list A)) : Held :=
  match x with
  | Some (_ :: _) => Filled
  | Some [] => Empty
  | None => Absent
  end.

(** The verification code: empty is a code without value. *)
Definition held_code (x : option PackageVerificationCode.t) : Held :=
  match x with
  | Some code =>
      if String.eqb (PackageVerificationCode.value code) "" then Empty else Filled
  | None => Absent
  end.

(** The optional attributes of a package, a file, a snippet and the
    document, files-analyzed apart: the key, whether the extractor tests the
    truth of the attribute before it copies it, and how the source holds the
    attribute. *)
Definition package_attributes (package : Package.t) : list (string * bool * Held) :=
  [("version", true, held_text (Package.version package));
   ("downloadLocation", false, held_str (Package.download_location package));
   ("supplier", true, held_object (Package.supplier package));
   ("originator", true, held_object (Package.originator package));
   ("homepage", true, held_object (Package.homepage package));
   ("licenseConcluded", false, held_str (Package.license_concluded package));
   ("licenseDeclared", false, held_str (Package.license_declared package));
   ("licenseComments", true, held_text (Package.license_comment package));
   ("copyrightText", true, held_object (Package.copyright_text package));
   ("comment", true, held_text (Package.comment package));
   ("summary", true, held_text (Package.summary package));
   ("primaryPackagePurpose", true,
    held_object (Package.primary_package_purpose package));
   ("checksums", true, held_items (Package.checksums package));
   ("verificationCode", false, held_code (Package.verification_code package));
   ("packageFileName", true, held_text (Package.file_name package));
   ("externalRefs", true, held_items (Package.external_references package))].

Definition file_attributes (file : File.t) : list (string * bool * Held) :=
  [("licenseConcluded", false, held_str (File.license_concluded file));
   ("copyrightText", true, held_object (File.copyright_text file));
   ("comment", true, held_text (File.comment file));
   ("checksums", true, held_items (File.checksums file))].

Definition snippet_attributes (snippet : Snippet.t) : list (string * bool * Held) :=
  [("comment", true, held_text (Snippet.comment snippet));
   ("licenseConcluded", false, held_str (Snippet.license_concluded snippet));
   ("copyrightText", true, held_object (Snippet.copyright_text snippet))].

Definition document_attributes (doc : Document.t) : list (string * bool * Held) :=
  let info := Document.creation_info doc in
  [("version", false, held_text (CreationInfo.spdx_version info));
   ("namespace", false, held_text (CreationInfo.document_namespace info));
   ("created", false, held_str (CreationInfo.created info));
   ("creators", false, held_items (CreationInfo.creators info));
   ("dataLicense", false, held_text (CreationInfo.data_license info))].

(** The placeholder of a key: the empty list for the three list keys, None
    for every other. *)
Definition null_value (key : string) : PyVal :=
  if String.eqb key "creators" then PyStrList []
  else if String.eqb key "checksums" || String.eqb key "externalRefs"
       then PyDictList []
       else PyNone.

(** The empty value of a key as it is: the empty list, or the empty text. *)
Definition empty_value (key : string) : PyVal :=
  if String.eqb key "creators" then PyStrList [] else PyStr "".

(** What the dictionary holds under the key of an attribute: the placeholder
    for an attribute the source does not hold; for an empty one the
    placeholder where the extractor tests the attribute and the empty value
    where it does not; anything but the placeholder for a value. *)
Definition stored_as (key : string) (tested : bool) (held : Held)
           (element_data : dict PyVal) : Prop :=
  match held with
  | Absent => Dict.get key element_data = Some (null_value key)
  | Empty =>
      Dict.get key element_data
      = Some (if tested then null_value key else empty_value key)
  | Filled => exists v, Dict.get key element_data = Some v /\ v <> null_value key
  end.

(* ------------------------------------------------------------------ *)
(** ** Sample inputs *)

Module Sample.

Definition object (s : string) : PyObject := {| truth := true; text := s |}.

(** A package with a name and nothing else. *)
Definition package (spdx_id name : string) : Package.t :=
  {| Package.spdx_id := spdx_id; Package.name := name;
     Package.version := None; Package.download_location := None;
     Package.files_analyzed := None; Package.supplier := None;
     Package.originator := None; Package.homepage := None;
     Package.license_concluded := None; Package.license_declared := None;
     Package.license_comment := None; Package.copyright_text := None;
     Package.comment := None; Package.summary := None;
     Package.primary_package_purpose := None; Package.checksums := None;
     Package.verification_code := None; Package.file_name := None;
     Package.external_references := None |}.

(** The same with a verification code. *)
Definition package_with_code (spdx_id name code : string) : Package.t :=
  {| Package.spdx_id := spdx_id; Package.name := name;
     Package.version := None; Package.download_location := None;
     Package.files_analyzed := Some true; Package.supplier := None;
     Package.originator := None; Package.homepage := None;
     Package.license_concluded := None; Package.license_declared := None;
     Package.license_comment := None; Package.copyright_text := None;
     Package.comment := None; Package.summary := None;
     Package.primary_package_purpose := None; Package.checksums := None;
     Package.verification_code := Some {| PackageVerificationCode.value := code |};
     Package.file_name := None; Package.external_references := None |}.

Definition file (spdx_id name : string) : File.t :=
  {| File.spdx_id := spdx_id; File.name := name;
     File.license_concluded := None; File.copyright_text := None;
     File.comment := None; File.checksums := None |}.

Definition snippet (spdx_id : string) : Snippet.t :=
  {| Snippet.spdx_id := spdx_id; Snippet.name := None; Snippet.comment := None;
     Snippet.license_concluded := None; Snippet.copyright_text := None |}.

Definition relationship (source : string) (kind : string) (target : ElementRef)
           (comment : option string) : Relationship.t :=
  {| Relationship.spdx_element_id := source;
     Relationship.related_spdx_element_id := target;
     Relationship.relationship_type :=
       {| RelationshipType.name := Some kind;
          RelationshipType.type_text := "RelationshipType." ++ kind |};
     Relationship.comment := comment |}.

Definition creation_info (spdx_id : string) : CreationInfo.t :=
  {| CreationInfo.spdx_id := spdx_id; CreationInfo.name := Some "sample";
     CreationInfo.spdx_version := Some "SPDX-2.3";
     CreationInfo.document_namespace := Some "https://example.org/sample";
     CreationInfo.created := Some (object "2025-11-27 15:17:19");
     CreationInfo.creators := Some [object "Tool: sample"];
     CreationInfo.data_license := Some "CC0-1.0" |}.

(** Two packages, a file and a snippet; the second relationship points at
    an identifier no element has. *)
Definition document : Document.t :=
  {| Document.creation_info := creation_info "SPDXRef-DOCUMENT";
     Document.name := "sample";
     Document.packages := [package "SPDXRef-pkg-a" "a"; package "SPDXRef-pkg.b" "b"];
     Document.files := [file "SPDXRef-file-1" "main.c"];
     Document.snippets := [snippet "SPDXRef-snippet-1"];
     Document.relationships :=
       [relationship "SPDXRef-DOCUMENT" "DESCRIBES" (ElementId "SPDXRef-pkg-a") None;
        relationship "SPDXRef-pkg-a" "CONTAINS" (ElementId "SPDXRef-missing")
          (Some ("see " ++ dquote ++ "main.c" ++ dquote));
        relationship "SPDXRef-pkg.b" "DEPENDS_ON" SpdxNoAssertion (Some "")] |}.

(** A document that names itself [DOCUMENT], without the prefix. *)
Definition self_named_document : Document.t :=
  {| Document.creation_info := creation_info "DOCUMENT";
     Document.name := "sample";
     Document.packages := [package "SPDXRef-pkg-a" "a"];
     Document.files := []; Document.snippets := [];
     Document.relationships :=
       [relationship "DOCUMENT" "DESCRIBES" (ElementId "SPDXRef-pkg-a") None] |}.

(** A document that names itself [SPDXRef-Doc1]. *)
Definition renamed_document : Document.t :=
  {| Document.creation_info := creation_info "SPDXRef-Doc1";
     Document.name := "sample";
     Document.packages := [package "SPDXRef-pkg-a" "a"];
     Document.files := []; Document.snippets := [];
     Document.relationships :=
       [relationship "SPDXRef-Doc1" "DESCRIBES" (ElementId "SPDXRef-pkg-a") None] |}.

(** A package whose verification code holds a double quote. *)
Definition quoted_code : string := "d6a7" ++ dquote ++ "70ba".

Definition quoting_document : Document.t :=
  {| Document.creation_info := creation_info "SPDXRef-DOCUMENT";
     Document.name := "sample";
     Document.packages := [package_with_code "SPDXRef-pkg-a" "a" quoted_code];
     Document.files := []; Document.snippets := [];
     Document.relationships := [] |}.

(** A summary of seventy-five characters. *)
Definition long_summary : string :=
  "A summary that is quite a bit longer than sixty characters, to be cut short".

(** A checksum dictionary with a three-character value. *)
Definition short_checksum : dict string :=
  [("algorithm", "SHA1"); ("checksumValue", "abc")].

(** A name for the temporary file, by the number of files there are. *)
Fixpoint tally (n : nat) : string :=
  match n with
  | O => ""
  | S k => String "x" (tally k)
  end.

Definition temporary_name (fs : FileSystem) : string :=
  "/tmp/spdx_preprocessed_" ++ tally (List.length fs) ++ ".json".

Definition timestamp : string := "2025-11-27T15:17:19".

(** A JSON text with one timestamp that lacks the [Z]. *)
Definition unpatched_json : string :=
  "{" ++ dquote ++ "created" ++ dquote ++ ": " ++ dquote ++ timestamp ++ dquote ++ "}".

Definition patched_json : string :=
  "{" ++ dquote ++ "created" ++ dquote ++ ": " ++ dquote ++ timestamp ++ "Z"
  ++ dquote ++ "}".

(** Two quoted timestamps that share the quote between them. *)
Definition shared_quote_text : string :=
  dquote ++ timestamp ++ dquote ++ timestamp ++ dquote.

Definition world (content : string) : World :=
  {| fs := [("sbom.json", content)]; printed := [] |}.

Definition args : Args :=
  {| spdx_file := "sbom.json"; output := None; compact := false;
     max_packages := None; exclude_external_refs := false |}.

(** An operating system that refuses nothing. *)
Definition no_faults : Faults :=
  {| read_fault := fun _ => None;
     write_fault := fun _ _ => None;
     unlink_fault := fun _ => None;
     print_fault := fun _ => None |}.

(** The bytes of the input file do not decode. *)
Definition undecodable : Faults :=
  {| read_fault := fun file_path =>
       if String.eqb file_path "sbom.json" then Some UnicodeDecodeError else None;
     write_fault := fun _ _ => None;
     unlink_fault := fun _ => None;
     print_fault := fun _ => None |}.

(** No file can be opened for writing outside the directory of temporary
    files. *)
Definition read_only : Faults :=
  {| read_fault := fun _ => None;
     write_fault := fun file_path _ =>
       if String.prefix "/tmp/" file_path then None else Some (OSError, None);
     unlink_fault := fun _ => None;
     print_fault := fun _ => None |}.

(** A parser that accepts no text. *)
Definition rejecting_parser (file_path content : string) : result Document.t :=
  Raise ParseError.

(** A parser that reads the sample document out of every text. *)
Definition accepting_parser (file_path content : string) : result Document.t :=
  Ok document.

(** [repr] cut down to strings that need no escape: single quotes around. *)
Definition repr (s : string) : string := "'" ++ s ++ "'".

End Sample.

(** ** The order of nodes as the specification words it *)

(** Follows the specification: the document first, then the packages (the
    first N of them under a cap of N), then the files, then the snippets. *)
Definition specified_node_order (doc : Document.t) (max_packages : option Z) :
  dict (dict PyVal) :=
  let packages := map package_entry (Document.packages doc) in
  (document_entry doc
   :: match max_packages with
      | Some n => slice_to n packages
      | None => packages
      end
   ++ map file_entry (Document.files doc)
   ++ map snippet_entry (Document.snippets doc))%list.

(** The document with another identifier of its own. *)
Definition with_spdx_id (spdx_id : string) (doc : Document.t) : Document.t :=
  let info := Document.creation_info doc in
  {| Document.creation_info :=
       {| CreationInfo.spdx_id := spdx_id;
          CreationInfo.name := CreationInfo.name info;
          CreationInfo.spdx_version := CreationInfo.spdx_version info;
          CreationInfo.document_namespace := CreationInfo.document_namespace info;
          CreationInfo.created := CreationInfo.created info;
          CreationInfo.creators := CreationInfo.creators info;
          CreationInfo.data_license := CreationInfo.data_license info |};
     Document.name := Document.name doc;
     Document.packages := Document.packages doc;
     Document.files := Document.files doc;
     Document.snippets := Document.snippets doc;
     Document.relationships := Document.relationships doc |}.

(** ** Notions for the further properties *)

(** The last element of a list that is stored under a key: the one whose
    assignment stays in the dictionary. *)
Definition last_with {A : Type} (key : A -> string) (k : string) (xs : list A) :
  option A :=
  find (fun x => String.eqb (key x) k) (rev xs).

(** A text without a double quote. *)
Definition quote_free (s : string) : Prop := PyString.occurs dquote_char s = false.

(** The texts the formatter puts into a label as they are: the purpose, the
    files-analyzed value, the verification code, algorithm and shortened
    value of the first two checksums, the type of the first two external
    references. *)
Definition unescaped_values (py_repr : string -> string) (element_data : dict PyVal) :
  list string :=
  (match present element_data "primaryPackagePurpose" with
   | Some v => [py_str py_repr v]
   | None => []
   end
   ++ match Dict.get "filesAnalyzed" element_data with
      | Some v => [py_str py_repr v]
      | None => []
      end
   ++ match present element_data "verificationCode" with
      | Some v => [py_str py_repr v]
      | None => []
      end
   ++ match present element_data "checksums" with
      | Some (PyDictList checksums) =>
          flat_map (fun c => [Dict.get_default "algorithm" "" c;
                              PyString.take 12 (Dict.get_default "checksumValue" "" c)])
            (firstn 2 checksums)
      | _ => []
      end
   ++ match present element_data "externalRefs" with
      | Some (PyDictList refs) =>
          map (Dict.get_default "referenceType" "") (firstn 2 refs)
      | _ => []
      end)%list.

(** The two colour sets of a package node. *)
Definition source_colours : string := "fill:#fff3e0,stroke:#e65100,stroke-width:2px".
Definition default_colours : string := "fill:#f3e5f5,stroke:#4a148c,stroke-width:2px".

(** What goes to standard output, as against standard error. *)
Definition to_stdout (o : Output) : bool :=
  match o with
  | Stdout _ | StdoutPart _ => true
  | _ => false
  end.

(** ** Proof steps for the attribute tables *)

(** Settle what is stored, once the attribute is split into its cases. *)
Ltac stored_value :=
  cbn; unfold str, Str_PyObject;
  repeat match goal with
         | E : String.eqb _ "" = true |- _ => apply String.eqb_eq in E; rewrite E
         | E : _ = true |- _ => rewrite E
         | E : _ = false |- _ => rewrite E
         end;
  cbn; first [reflexivity | eexists; split; [reflexivity | discriminate]].

(** A string attribute, by its cases. *)
Ltac text_cases attr :=
  let s := fresh "s" in
  destruct attr as [s|]; [destruct (String.eqb s "") eqn:?|]; stored_value.

(** An object attribute that is tested, by its cases. *)
Ltac object_cases attr :=
  let o := fresh "o" in
  destruct attr as [o|]; [destruct (truth o) eqn:?|]; stored_value.

(** An object attribute that is converted untested, by its cases. *)
Ltac str_cases attr :=
  let o := fresh "o" in
  destruct attr as [o|]; [destruct (String.eqb (text o) "") eqn:?|]; stored_value.

(** A list attribute, by its cases. *)
Ltac items_cases attr :=
  destruct attr as [[|? ?]|]; stored_value.

(* ================================================================== *)
(** * Properties *)

(** ** Strings *)

Section StringFacts.
Import PyString.

Lemma length_append (s t : string) :
  String.length (s ++ t) = String.length s + String.length t.
Proof. induction s as [|c s IH]; simpl; [reflexivity | now rewrite IH]. Qed.

Lemma append_empty_r (s : string) : s ++ "" = s.
Proof. induction s as [|c s IH]; simpl; [reflexivity | now rewrite IH]. Qed.

Lemma append_assoc (s t u : string) : (s ++ t) ++ u = s ++ (t ++ u).
Proof. induction s as [|c s IH]; simpl; [reflexivity | now rewrite IH]. Qed.

Lemma take_length (n : nat) (s : string) :
  String.length (take n s) = Nat.min n (String.length s).
Proof.
  revert s; induction n as [|n IH]; intros [|c s]; simpl; try reflexivity.
  now rewrite IH.
Qed.

Lemma take_all (n : nat) (s : string) : String.length s <= n -> take n s = s.
Proof.
  revert s; induction n as [|n IH]; intros [|c s]; simpl; intros Hl;
    try reflexivity; try lia.
  f_equal. apply IH. lia.
Qed.

Lemma take_append (s t : string) : take (String.length s) (s ++ t) = s.
Proof. induction s as [|c s IH]; simpl; [now destruct t | now rewrite IH]. Qed.

(** A pattern is no prefix of a string that lacks one of its characters. *)
Lemma prefix_occurs (c : ascii) (old s : string) :
  occurs c old = true -> occurs c s = false -> String.prefix old s = false.
Proof.
  revert s; induction old as [|a old IH]; intros s Ho Hs; [discriminate|].
  destruct s as [|b s]; [reflexivity|].
  simpl in Ho, Hs |- *. apply orb_false_iff in Hs as [Hb Hs].
  destruct (ascii_dec a b) as [->|Hne]; [|reflexivity].
  apply orb_true_iff in Ho as [Ha|Ho].
  - rewrite Ha in Hb. discriminate.
  - now apply IH.
Qed.

Lemma contains_occurs (c : ascii) (sub s : string) :
  occurs c sub = true -> occurs c s = false -> contains sub s = false.
Proof.
  intros Ho. induction s as [|a s IH]; intros Hs.
  - simpl. destruct sub; [discriminate | reflexivity].
  - cbn [contains]. rewrite (prefix_occurs c), orb_false_l by assumption.
    simpl in Hs. apply orb_false_iff in Hs as [_ Hs]. now apply IH.
Qed.

Lemma contains_char (c : ascii) (s : string) :
  contains (String c "") s = occurs c s.
Proof.
  induction s as [|a s IH]; [reflexivity|].
  cbn [contains occurs String.prefix]. rewrite IH. f_equal.
  destruct (ascii_dec c a) as [->|Hne].
  - rewrite Ascii.eqb_refl. now destruct s.
  - symmetry. apply Ascii.eqb_neq. congruence.
Qed.

(** Replacing a pattern that cannot occur leaves the string alone. *)
Lemma replace_absent (c : ascii) (old new s : string) :
  occurs c old = true -> occurs c s = false -> replace old new s = s.
Proof.
  intros Ho. destruct old as [|a old]; [discriminate|].
  unfold replace. induction s as [|b s IH]; intros Hs; [reflexivity|].
  cbn [replace_scan]. rewrite (prefix_occurs c) by assumption.
  f_equal. apply IH. simpl in Hs. now apply orb_false_iff in Hs as [_ Hs].
Qed.

(** A one-character pattern replaced by one character is a character map. *)
Lemma replace_char (a b : ascii) (s : string) :
  replace (String a "") (String b "") s = subst_char a b s.
Proof.
  unfold replace. induction s as [|c s IH]; [reflexivity|].
  cbn [replace_scan String.prefix subst_char String.length Nat.sub].
  destruct (ascii_dec a c) as [->|Hne].
  - rewrite Ascii.eqb_refl.
    assert (String.prefix "" s = true) as -> by now destruct s.
    simpl. now rewrite IH.
  - assert (Ascii.eqb c a = false) as -> by (apply Ascii.eqb_neq; congruence).
    now rewrite IH.
Qed.

Lemma subst_char_length (a b : ascii) (s : string) :
  String.length (subst_char a b s) = String.length s.
Proof. induction s as [|c s IH]; simpl; [reflexivity | now rewrite IH]. Qed.

Lemma subst_char_removes (a b : ascii) (s : string) :
  a <> b -> occurs a (subst_char a b s) = false.
Proof.
  intros Hab. induction s as [|c s IH]; [reflexivity|].
  simpl. rewrite IH, orb_false_r.
  destruct (Ascii.eqb c a) eqn:E; [|exact E].
  apply Ascii.eqb_neq. congruence.
Qed.

Lemma subst_char_keeps_absent (a b d : ascii) (s : string) :
  d <> b -> occurs d s = false -> occurs d (subst_char a b s) = false.
Proof.
  intros Hdb. induction s as [|c s IH]; [reflexivity|].
  simpl. intros Hs. apply orb_false_iff in Hs as [Hc Hs].
  rewrite (IH Hs), orb_false_r.
  destruct (Ascii.eqb c a); [|exact Hc].
  apply Ascii.eqb_neq. congruence.
Qed.

Lemma subst_char_absent (a b : ascii) (s : string) :
  occurs a s = false -> subst_char a b s = s.
Proof.
  induction s as [|c s IH]; [reflexivity|].
  simpl. intros Hs. apply orb_false_iff in Hs as [Hc Hs].
  now rewrite Hc, IH.
Qed.

Lemma subst_char_take (a b : ascii) (n : nat) (s : string) :
  subst_char a b (take n s) = take n (subst_char a b s).
Proof.
  revert s; induction n as [|n IH]; intros [|c s]; simpl; try reflexivity.
  now rewrite IH.
Qed.

Lemma subst_char_append (a b : ascii) (s t : string) :
  subst_char a b (s ++ t) = subst_char a b s ++ subst_char a b t.
Proof. induction s as [|c s IH]; simpl; [reflexivity | now rewrite IH]. Qed.

End StringFacts.

(** ** Identifier sanitizer *)

Lemma sanitize_node_id_unfold (s : string) :
  sanitize_node_id s =
  PyString.subst_char "." "_"
    (PyString.subst_char "-" "_" (PyString.replace "SPDXRef-" "" s)).
Proof.
  unfold sanitize_node_id, str, Str_string.
  now rewrite <- !replace_char.
Qed.

Lemma sanitize_node_id_no_hyphen (s : string) :
  PyString.occurs "-" (sanitize_node_id s) = false.
Proof.
  rewrite sanitize_node_id_unfold.
  apply subst_char_keeps_absent; [discriminate|].
  apply subst_char_removes. discriminate.
Qed.

Lemma sanitize_node_id_no_dot (s : string) :
  PyString.occurs "." (sanitize_node_id s) = false.
Proof.
  rewrite sanitize_node_id_unfold. apply subst_char_removes. discriminate.
Qed.

(** C2. The sanitizer is idempotent on its own output; its output holds no
    occurrence of the prefix SPDXRef-, no hyphen and no dot; and it maps
    SPDXRef-my-package to my_package and SPDXRef-foo.bar to foo_bar. *)
Theorem sanitize_node_id_idempotent_clean :
  (forall s : string,
      sanitize_node_id (sanitize_node_id s) = sanitize_node_id s
      /\ PyString.contains "SPDXRef-" (sanitize_node_id s) = false
      /\ PyString.contains "-" (sanitize_node_id s) = false
      /\ PyString.contains "." (sanitize_node_id s) = false)
  /\ sanitize_node_id "SPDXRef-my-package" = "my_package"
  /\ sanitize_node_id "SPDXRef-foo.bar" = "foo_bar".
Proof.
  split; [|split; reflexivity].
  intros s.
  pose proof (sanitize_node_id_no_hyphen s) as Hh.
  pose proof (sanitize_node_id_no_dot s) as Hd.
  repeat split.
  - rewrite (sanitize_node_id_unfold (sanitize_node_id s)).
    rewrite (replace_absent "-"%char) by (reflexivity || assumption).
    rewrite (subst_char_absent "-") by assumption.
    now apply subst_char_absent.
  - now apply (contains_occurs "-"%char).
  - now rewrite contains_char.
  - now rewrite contains_char.
Qed.

(** ** Lists and dictionaries *)

Section ListFacts.
Context {A : Type}.

Lemma filter_all (p : A -> bool) (l : list A) :
  Forall (fun x => p x = true) l -> filter p l = l.
Proof.
  induction 1 as [|x l Hx _ IH]; simpl; [reflexivity|]. now rewrite Hx, IH.
Qed.

Lemma filter_none (p : A -> bool) (l : list A) :
  Forall (fun x => p x = false) l -> filter p l = [].
Proof.
  induction 1 as [|x l Hx _ IH]; simpl; [reflexivity|]. now rewrite Hx.
Qed.

Lemma Forall_filter_true (p : A -> bool) (l : list A) :
  Forall (fun x => p x = true) (filter p l).
Proof. apply Forall_forall. intros x Hx. now apply filter_In in Hx. Qed.

Lemma Forall_firstn_incl (P : A -> Prop) (n : nat) (l : list A) :
  Forall P l -> Forall P (firstn n l).
Proof.
  intros H. revert n. induction H as [|x l Hx _ IH]; intros [|n]; simpl;
    constructor; auto.
Qed.

Lemma NoDup_app_disjoint (l1 l2 : list A) (x : A) :
  NoDup (l1 ++ l2) -> In x l1 -> In x l2 -> False.
Proof.
  induction l1 as [|a l1 IH]; simpl; intros Hnd H1 H2; [tauto|].
  apply NoDup_cons_iff in Hnd as [Ha Hnd].
  destruct H1 as [->|H1]; [|now apply IH].
  apply Ha. apply in_or_app. now right.
Qed.

Lemma In_firstn (n : nat) (l : list A) (x : A) : In x (firstn n l) -> In x l.
Proof.
  revert l; induction n as [|n IH]; intros [|y l]; simpl; try tauto.
  intros [->|H]; auto.
Qed.
End ListFacts.

Section DictFacts.
Context {V : Type}.
Implicit Types (d other : dict V) (k : string) (v : V).

Lemma get_None_keys k d : Dict.get k d = None <-> ~ In k (Dict.keys d).
Proof.
  induction d as [|[k' v'] d IH]; simpl; [tauto|].
  destruct (String.eqb_spec k' k) as [->|Hne].
  - split; [discriminate | intros H; exfalso; apply H; now left].
  - rewrite IH. split; intros H; [intros [?|?]; [congruence | tauto] | tauto].
Qed.

Lemma keys_app d other : Dict.keys (d ++ other)%list = (Dict.keys d ++ Dict.keys other)%list.
Proof. apply map_app. Qed.

(** A new key goes to the end. *)
Lemma set_new k v d :
  ~ In k (Dict.keys d) -> Dict.set k v d = (d ++ [(k, v)])%list.
Proof.
  induction d as [|[k' v'] d IH]; simpl; intros Hk; [reflexivity|].
  destruct (String.eqb_spec k' k) as [->|Hne]; [tauto|].
  f_equal. apply IH. tauto.
Qed.

(** Assignment never changes the keys that are there, nor their order. *)
Lemma keys_set k v d :
  Dict.keys (Dict.set k v d)
  = if Dict.mem k d then Dict.keys d else (Dict.keys d ++ [k])%list.
Proof.
  unfold Dict.mem. induction d as [|[k' v'] d IH]; simpl; [reflexivity|].
  destruct (String.eqb_spec k' k) as [->|Hne]; simpl; [reflexivity|].
  rewrite IH. now destruct (Dict.get k d).
Qed.

Lemma NoDup_keys_set k v d :
  NoDup (Dict.keys d) -> NoDup (Dict.keys (Dict.set k v d)).
Proof.
  intros Hd. rewrite keys_set. unfold Dict.mem.
  destruct (Dict.get k d) eqn:E; [assumption|].
  apply get_None_keys in E.
  apply NoDup_app; [assumption | repeat constructor; simpl; tauto |].
  intros a Ha [<-|[]]. tauto.
Qed.

Lemma Forall_set (P : V -> Prop) k v d :
  P v -> Forall (fun kv => P (snd kv)) d ->
  Forall (fun kv => P (snd kv)) (Dict.set k v d).
Proof.
  intros Hv. induction 1 as [|[k' v'] d Hx Hd IH]; simpl.
  - now repeat constructor.
  - destruct (String.eqb k' k); constructor; simpl in *; auto.
Qed.

(** Updating with keys that are new and pairwise distinct appends them. *)
Lemma update_new other : forall d,
  NoDup (Dict.keys other) ->
  (forall k, In k (Dict.keys other) -> ~ In k (Dict.keys d)) ->
  Dict.update d other = (d ++ other)%list.
Proof.
  unfold Dict.update.
  induction other as [|[k v] other IH]; intros d Hnd Hnew; simpl.
  - now rewrite app_nil_r.
  - simpl in Hnd. apply NoDup_cons_iff in Hnd as [Hk Hnd].
    rewrite set_new by (apply Hnew; now left).
    rewrite IH; [now rewrite <- app_assoc | assumption |].
    intros k' Hk'. rewrite keys_app, in_app_iff. simpl.
    intros [H|[<-|[]]]; [|tauto].
    apply (Hnew k'); [now right | assumption].
Qed.

Lemma of_items_distinct (items : list (string * V)) :
  NoDup (Dict.keys items) -> Dict.of_items items = items.
Proof.
  intros H. unfold Dict.of_items. rewrite update_new; auto.
Qed.

Lemma NoDup_keys_filter (p : string * V -> bool) d :
  NoDup (Dict.keys d) -> NoDup (Dict.keys (filter p d)).
Proof.
  unfold Dict.keys. induction d as [|x d IH]; simpl; intros H; [constructor|].
  apply NoDup_cons_iff in H as [Hx H].
  destruct (p x); simpl; auto.
  constructor; auto.
  intros Hin. apply Hx. apply in_map_iff in Hin as (y & Hy & Hin).
  apply in_map_iff. exists y. split; [assumption|].
  now apply filter_In in Hin.
Qed.

Lemma NoDup_keys_firstn (n : nat) d :
  NoDup (Dict.keys d) -> NoDup (Dict.keys (firstn n d)).
Proof.
  unfold Dict.keys. revert d. induction n as [|n IH]; intros [|x d]; simpl;
    intros H; try constructor.
  - apply NoDup_cons_iff in H as [Hx H].
    intros Hin. apply Hx. apply in_map_iff in Hin as (y & Hy & Hin).
    apply in_map_iff. exists y. split; [assumption|]. now apply In_firstn in Hin.
  - apply IH. now apply NoDup_cons_iff in H.
Qed.

(** In a dictionary, the two halves of a partition share no key. *)
Lemma keys_partition_disjoint (p : string * V -> bool) d k :
  NoDup (Dict.keys d) ->
  In k (Dict.keys (filter p d)) ->
  ~ In k (Dict.keys (filter (fun x => negb (p x)) d)).
Proof.
  unfold Dict.keys. induction d as [|x d IH]; simpl; intros Hnd; [tauto|].
  apply NoDup_cons_iff in Hnd as [Hx Hnd].
  assert (Hsub : forall q, In k (map fst (filter q d)) -> In k (map fst d)).
  { intros q H. apply in_map_iff in H as (y & Hy & H).
    apply in_map_iff. exists y. split; [assumption|]. now apply filter_In in H. }
  destruct (p x); simpl.
  - intros [<-|H]; [intros H; apply Hx; eauto | now apply IH].
  - intros H [<-|H']; [apply Hx; eauto | now apply (IH Hnd H)].
Qed.
End DictFacts.

(** ** Extractor *)

Lemma add_all_update {A : Type} (key : A -> string) (data : A -> dict PyVal)
      (xs : list A) (elements : dict (dict PyVal)) :
  add_all key data xs elements
  = Dict.update elements (map (fun x => (key x, data x)) xs).
Proof.
  unfold add_all, Dict.update. revert elements.
  induction xs as [|x xs IH]; intros elements; simpl; [reflexivity | apply IH].
Qed.

Lemma add_all_Forall {A : Type} (P : dict PyVal -> Prop) (key : A -> string)
      (data : A -> dict PyVal) (xs : list A) (elements : dict (dict PyVal)) :
  (forall x, P (data x)) ->
  Forall (fun kv => P (snd kv)) elements ->
  Forall (fun kv => P (snd kv)) (add_all key data xs elements).
Proof.
  intros Hdata. unfold add_all. revert elements.
  induction xs as [|x xs IH]; intros elements H; simpl; [assumption|].
  apply IH. now apply Forall_set.
Qed.

Lemma add_all_NoDup {A : Type} (key : A -> string) (data : A -> dict PyVal)
      (xs : list A) (elements : dict (dict PyVal)) :
  NoDup (Dict.keys elements) -> NoDup (Dict.keys (add_all key data xs elements)).
Proof.
  unfold add_all. revert elements.
  induction xs as [|x xs IH]; intros elements H; simpl; [assumption|].
  apply IH. now apply NoDup_keys_set.
Qed.

Lemma document_data_shape (doc : Document.t) :
  typed (document_data doc) = true /\ label_safe (document_data doc) = true.
Proof.
  split; [reflexivity|]. unfold label_safe. simpl.
  destruct (CreationInfo.creators (Document.creation_info doc)); reflexivity.
Qed.

Lemma pkg_data_shape (package : Package.t) :
  typed (pkg_data package) = true /\ label_safe (pkg_data package) = true.
Proof.
  split; [reflexivity|]. unfold label_safe. simpl.
  destruct (Package.external_references package) as [[|r rs]|]; reflexivity.
Qed.

Lemma file_data_shape (file : File.t) :
  typed (file_data file) = true /\ label_safe (file_data file) = true.
Proof. split; reflexivity. Qed.

Lemma snippet_data_shape (snippet : Snippet.t) :
  typed (snippet_data snippet) = true /\ label_safe (snippet_data snippet) = true.
Proof. split; reflexivity. Qed.

(** Every extracted element has one of the four types and a dictionary the
    formatter accepts. *)
Lemma extract_well_shaped (doc : Document.t) :
  Forall well_shaped (extract_elements_from_document doc).
Proof.
  unfold extract_elements_from_document, well_shaped.
  repeat apply (add_all_Forall (fun d => typed d = true /\ label_safe d = true));
    auto using pkg_data_shape, file_data_shape, snippet_data_shape.
  simpl. repeat constructor; apply document_data_shape.
Qed.

(** The extracted dictionary has pairwise distinct keys. *)
Lemma extract_NoDup (doc : Document.t) :
  NoDup (Dict.keys (extract_elements_from_document doc)).
Proof.
  unfold extract_elements_from_document.
  repeat apply add_all_NoDup. simpl. repeat constructor. simpl. tauto.
Qed.

Lemma add_all_new {A : Type} (key : A -> string) (data : A -> dict PyVal)
      (xs : list A) (elements : dict (dict PyVal)) :
  NoDup (Dict.keys elements ++ map key xs) ->
  add_all key data xs elements
  = (elements ++ map (fun x => (key x, data x)) xs)%list.
Proof.
  intros Hnd. rewrite add_all_update.
  assert (Hkeys : Dict.keys (map (fun x => (key x, data x)) xs) = map key xs).
  { unfold Dict.keys. now rewrite map_map. }
  apply update_new; rewrite Hkeys.
  - now apply NoDup_app_remove_l in Hnd.
  - intros k Hk Hin. exact (NoDup_app_disjoint _ _ _ Hnd Hin Hk).
Qed.

(** With pairwise distinct identifiers the extractor lists the document,
    the packages, the files and the snippets, each group in source order. *)
Lemma extract_distinct (doc : Document.t) :
  NoDup (element_ids doc) ->
  extract_elements_from_document doc
  = (document_entry doc :: map package_entry (Document.packages doc)
     ++ map file_entry (Document.files doc)
     ++ map snippet_entry (Document.snippets doc))%list.
Proof.
  unfold element_ids, extract_elements_from_document. intros Hnd.
  simpl Dict.set.
  assert (Hkeys : forall (A : Type) (key : A -> string) data (xs : list A),
             Dict.keys (map (fun x => (key x, data x)) xs : dict (dict PyVal))
             = map key xs).
  { intros. unfold Dict.keys. now rewrite map_map. }
  change (NoDup (["SPDXRef-DOCUMENT"]
                 ++ map Package.spdx_id (Document.packages doc)
                 ++ map File.spdx_id (Document.files doc)
                 ++ map Snippet.spdx_id (Document.snippets doc))%list) in Hnd.
  rewrite !app_assoc in Hnd.
  pose proof (NoDup_app_remove_r _ _ Hnd) as H1.
  pose proof (NoDup_app_remove_r _ _ H1) as H2.
  rewrite (add_all_new Package.spdx_id) by exact H2.
  rewrite (add_all_new File.spdx_id)
    by (rewrite keys_app, Hkeys; exact H1).
  rewrite (add_all_new Snippet.spdx_id)
    by (rewrite !keys_app, !Hkeys; exact Hnd).
  simpl. now rewrite <- !app_assoc.
Qed.

(** ** Package cap *)

Lemma select_by_type_filter (keep : PyVal -> bool) (elements : dict (dict PyVal)) :
  Forall (fun e => typed (snd e) = true) elements ->
  select_by_type keep elements
  = Ok (filter (fun e => keep (Dict.get_default "type" PyNone (snd e))) elements).
Proof.
  induction 1 as [|[k v] elements Hv _ IH]; simpl; [reflexivity|].
  unfold typed in Hv. unfold type_of, Dict.get_default. simpl in Hv.
  destruct (Dict.get "type" v) as [t|]; [|discriminate].
  simpl. rewrite IH. reflexivity.
Qed.

Lemma slice_to_nonneg {A : Type} (n : Z) (l : list A) :
  (0 <= n)%Z -> slice_to n l = firstn (Z.to_nat n) l.
Proof. intros Hn. unfold slice_to. now apply Z.leb_le in Hn as ->. Qed.

(** What the cap leaves of a dictionary of typed elements: everything when
    the packages are no more than the bound, else the other elements followed
    by the first packages. *)
Lemma limit_packages_spec (n : Z) (elements : dict (dict PyVal)) :
  Forall (fun e => typed (snd e) = true) elements ->
  NoDup (Dict.keys elements) ->
  (0 <= n)%Z ->
  limit_packages (Some n) elements
  = Ok (if (n <? Z.of_nat (List.length (filter is_package elements)))%Z
        then (filter (fun e => negb (is_package e)) elements
              ++ firstn (Z.to_nat n) (filter is_package elements))%list
        else elements).
Proof.
  intros Ht Hnd Hn. unfold limit_packages.
  rewrite !select_by_type_filter by assumption. cbn [bind].
  change (fun e : string * dict PyVal =>
            eq_str (Dict.get_default "type" PyNone (snd e)) "Package")
    with is_package.
  change (fun e : string * dict PyVal =>
            negb (eq_str (Dict.get_default "type" PyNone (snd e)) "Package"))
    with (fun e => negb (is_package e)).
  destruct (n <? Z.of_nat (List.length (filter is_package elements)))%Z;
    [|reflexivity].
  rewrite slice_to_nonneg by assumption.
  rewrite of_items_distinct
    by (apply NoDup_keys_firstn; now apply NoDup_keys_filter).
  rewrite update_new; [reflexivity | |].
  - apply NoDup_keys_firstn. now apply NoDup_keys_filter.
  - intros k Hk. apply keys_partition_disjoint; [assumption|].
    unfold Dict.keys in *. apply in_map_iff in Hk as (y & Hy & Hk).
    apply in_map_iff. exists y. split; [assumption|]. now apply In_firstn in Hk.
Qed.

(** The same for every bound, negative ones included. *)
Lemma limit_packages_spec_any (n : Z) (elements : dict (dict PyVal)) :
  Forall (fun e => typed (snd e) = true) elements ->
  NoDup (Dict.keys elements) ->
  limit_packages (Some n) elements
  = Ok (if (n <? Z.of_nat (List.length (filter is_package elements)))%Z
        then (filter (fun e => negb (is_package e)) elements
              ++ slice_to n (filter is_package elements))%list
        else elements).
Proof.
  intros Ht Hnd. unfold limit_packages.
  rewrite !select_by_type_filter by assumption. cbn [bind].
  change (fun e : string * dict PyVal =>
            eq_str (Dict.get_default "type" PyNone (snd e)) "Package")
    with is_package.
  change (fun e : string * dict PyVal =>
            negb (eq_str (Dict.get_default "type" PyNone (snd e)) "Package"))
    with (fun e => negb (is_package e)).
  destruct (n <? Z.of_nat (List.length (filter is_package elements)))%Z;
    [|reflexivity].
  assert (Hs : exists m, slice_to n (filter is_package elements)
                         = firstn m (filter is_package elements)).
  { unfold slice_to. destruct (0 <=? n)%Z; eauto. }
  destruct Hs as (m & ->).
  rewrite of_items_distinct
    by (apply NoDup_keys_firstn; now apply NoDup_keys_filter).
  rewrite update_new; [reflexivity | |].
  - apply NoDup_keys_firstn. now apply NoDup_keys_filter.
  - intros k Hk. apply keys_partition_disjoint; [assumption|].
    unfold Dict.keys in *. apply in_map_iff in Hk as (y & Hy & Hk).
    apply in_map_iff. exists y. split; [assumption|]. now apply In_firstn in Hk.
Qed.

Lemma extract_typed (doc : Document.t) :
  Forall (fun e => typed (snd e) = true) (extract_elements_from_document doc).
Proof.
  eapply Forall_impl; [|apply extract_well_shaped]. now intros e [H _].
Qed.

(** C5. Capping the packages of an extracted element set to a non-negative
    N keeps every element that is not a package, unchanged and in order, and
    keeps exactly the first min(N, total) packages, in source order. *)
Theorem limit_packages_keeps_first (doc : Document.t) (n : Z) :
  (0 <= n)%Z ->
  let elements := extract_elements_from_document doc in
  let total := List.length (filter is_package elements) in
  exists limited,
    limit_packages (Some n) elements = Ok limited
    /\ filter (fun e => negb (is_package e)) limited
       = filter (fun e => negb (is_package e)) elements
    /\ filter is_package limited
       = firstn (Nat.min (Z.to_nat n) total) (filter is_package elements)
    /\ List.length (filter is_package limited) = Nat.min (Z.to_nat n) total.
Proof.
  intros Hn elements total.
  rewrite (limit_packages_spec n elements (extract_typed doc) (extract_NoDup doc) Hn).
  fold total. destruct (Z.ltb_spec n (Z.of_nat total)) as [Hlt|Hge].
  - eexists. split; [reflexivity|].
    assert (Hmin : Nat.min (Z.to_nat n) total = Z.to_nat n) by lia.
    rewrite Hmin, !filter_app.
    rewrite (filter_all (fun e => negb (is_package e))
               (filter (fun e => negb (is_package e)) elements))
      by apply Forall_filter_true.
    rewrite (filter_none (fun e => negb (is_package e))
               (firstn (Z.to_nat n) (filter is_package elements))).
    2:{ apply Forall_firstn_incl. eapply Forall_impl; [|apply Forall_filter_true].
        intros e He. simpl in He. now rewrite He. }
    rewrite (filter_none is_package
               (filter (fun e => negb (is_package e)) elements)).
    2:{ eapply Forall_impl; [|apply Forall_filter_true].
        intros e He. simpl in He. now apply negb_true_iff in He. }
    rewrite (filter_all is_package
               (firstn (Z.to_nat n) (filter is_package elements)))
      by (apply Forall_firstn_incl, Forall_filter_true).
    rewrite app_nil_r. simpl. repeat split.
    rewrite length_firstn. fold total. lia.
  - eexists. split; [reflexivity|].
    assert (Hmin : Nat.min (Z.to_nat n) total = total) by lia.
    rewrite Hmin. unfold total. rewrite firstn_all. repeat split.
Qed.

(** ** The emitter never raises on extracted elements *)

Lemma mapM_Forall2 {A B : Type} (f : A -> result B) (Q : A -> B -> Prop)
      (l : list A) :
  Forall (fun a => exists b, f a = Ok b /\ Q a b) l ->
  exists bs, mapM f l = Ok bs /\ Forall2 Q l bs.
Proof.
  induction 1 as [|a l (b & Hb & HQ) _ (bs & Hbs & HQs)]; simpl.
  - exists []. split; [reflexivity | constructor].
  - exists (b :: bs). rewrite Hb, Hbs. split; [reflexivity | now constructor].
Qed.

Section EmitterTotal.
Variable py_repr : string -> string.

Lemma creators_lines_ok (element_data : dict PyVal) :
  label_safe element_data = true ->
  exists lines, creators_lines element_data = Ok lines.
Proof.
  unfold label_safe, creators_lines, present. intros H.
  apply andb_true_iff in H as [H _].
  destruct (Dict.get "creators" element_data) as [[|[|]|s|l|[|x l]]|];
    simpl in *; try discriminate; try (eexists; reflexivity).
  - destruct (String.eqb s ""); simpl; eexists; reflexivity.
  - destruct l; simpl; eexists; reflexivity.
Qed.

Lemma external_ref_lines_ok (element_data : dict PyVal) (compact : bool) :
  label_safe element_data = true ->
  exists lines, external_ref_lines element_data compact = Ok lines.
Proof.
  unfold label_safe, external_ref_lines, present. intros H.
  apply andb_true_iff in H as [_ H].
  destruct (Dict.get "externalRefs" element_data) as [[|[|]|s|l|l]|];
    simpl in *; try discriminate; try (eexists; reflexivity).
  - destruct (String.eqb s ""); simpl; eexists; reflexivity.
  - destruct l; simpl; eexists; reflexivity.
  - destruct l; simpl; eexists; reflexivity.
Qed.

(** The formatter returns a label for every dictionary that is safe. *)
Lemma format_node_label_ok (element_id : string) (element_data : dict PyVal)
      (element_type : string) (compact exclude_external_refs : bool) :
  label_safe element_data = true ->
  exists label,
    format_node_label py_repr element_id element_data element_type
      compact exclude_external_refs = Ok label.
Proof.
  intros H. unfold format_node_label, format_node_lines.
  destruct (creators_lines_ok element_data H) as (cl & Hc).
  destruct (external_ref_lines_ok element_data compact H) as (rl & Hr).
  unfold document_lines, package_lines. rewrite Hc.
  destruct (String.eqb element_type "Document" && negb compact);
    destruct (String.eqb element_type "Package");
    destruct (negb exclude_external_refs); rewrite ?Hr; simpl;
      eexists; reflexivity.
Qed.

(** An extracted element gives its node statement and its style statement,
    both under its sanitized identifier. *)
Lemma node_statements_ok (compact exclude_external_refs : bool)
      (element : string * dict PyVal) :
  well_shaped element ->
  exists statements,
    node_statements py_repr compact exclude_external_refs element = Ok statements
    /\ exists label colours,
        statements = [node_line (sanitize_node_id (fst element)) label;
                      style_line (sanitize_node_id (fst element)) colours].
Proof.
  destruct element as [element_id element_data]. intros [Ht Hs]. simpl in *.
  unfold node_statements, type_of. unfold typed in Ht.
  destruct (Dict.get "type" element_data) as [[| |t| |]|]; try discriminate.
  cbn [bind]. unfold str, Str_PyVal. cbn [py_str].
  destruct (format_node_label_ok element_id element_data t
              compact exclude_external_refs Hs) as (label & ->).
  cbn [bind eq_str].
  destruct (String.eqb t "Document"); [eauto|].
  destruct (String.eqb t "Package"); [eauto|].
  destruct (String.eqb t "File"); [eauto|].
  destruct (String.eqb t "Snippet"); [eauto | discriminate].
Qed.

Lemma Forall_update (P : dict PyVal -> Prop) (other d : dict (dict PyVal)) :
  Forall (fun kv => P (snd kv)) d -> Forall (fun kv => P (snd kv)) other ->
  Forall (fun kv => P (snd kv)) (Dict.update d other).
Proof.
  unfold Dict.update. intros Hd Ho. revert d Hd.
  induction Ho as [|[k v] other Hv _ IH]; intros d Hd; simpl; [assumption|].
  apply IH. now apply Forall_set.
Qed.

Lemma Forall_filter_incl {A : Type} (P : A -> Prop) (p : A -> bool) (l : list A) :
  Forall P l -> Forall P (filter p l).
Proof.
  rewrite !Forall_forall. intros H x Hx. apply H. now apply filter_In in Hx.
Qed.

Lemma Forall_slice_to {A : Type} (P : A -> Prop) (n : Z) (l : list A) :
  Forall P l -> Forall P (slice_to n l).
Proof. intros H. unfold slice_to. destruct (0 <=? n)%Z; now apply Forall_firstn_incl. Qed.

(** The cap, whatever the bound, returns well-shaped elements. *)
Lemma limit_packages_ok (max_packages : option Z) (elements : dict (dict PyVal)) :
  Forall well_shaped elements ->
  exists limited,
    limit_packages max_packages elements = Ok limited /\ Forall well_shaped limited.
Proof.
  intros H. unfold limit_packages. destruct max_packages as [n|]; [|eauto].
  assert (Ht : Forall (fun e => typed (snd e) = true) elements).
  { eapply Forall_impl; [|exact H]. now intros e [? _]. }
  rewrite !select_by_type_filter by assumption. cbn [bind].
  match goal with |- context [if ?b then _ else _] => destruct b end; [|eauto].
  eexists. split; [reflexivity|].
  apply (Forall_update (fun v => typed v = true /\ label_safe v = true)).
  - now apply Forall_filter_incl.
  - apply (Forall_update (fun v => typed v = true /\ label_safe v = true));
      [constructor|]. now apply Forall_slice_to, Forall_filter_incl.
Qed.

(** The diagram of every document: the header, the node statements of the
    emitted elements in their order, one edge per relationship, the legend. *)
Lemma generate_mermaid_lines_ok (doc : Document.t) (compact : bool)
      (max_packages : option Z) (exclude_external_refs : bool) :
  exists elements nodes,
    emitted_elements doc max_packages = Ok elements
    /\ mapM (node_statements py_repr compact exclude_external_refs) elements
       = Ok nodes
    /\ Forall2 (fun element statements => exists label colours,
                  statements
                  = [node_line (sanitize_node_id (fst element)) label;
                     style_line (sanitize_node_id (fst element)) colours])
         elements nodes
    /\ generate_mermaid_lines py_repr doc compact max_packages exclude_external_refs
       = Ok ("graph LR" :: List.concat nodes
             ++ map edge_statement (Document.relationships doc)
             ++ legend_lines)%list.
Proof.
  unfold generate_mermaid_lines, emitted_elements.
  destruct (limit_packages_ok max_packages _ (extract_well_shaped doc))
    as (elements & He & Hs).
  destruct (mapM_Forall2 (node_statements py_repr compact exclude_external_refs)
              (fun element statements => exists label colours,
                   statements
                   = [node_line (sanitize_node_id (fst element)) label;
                      style_line (sanitize_node_id (fst element)) colours])
              elements) as (nodes & Hn & HQ).
  { eapply Forall_impl; [|exact Hs]. intros e He'.
    destruct (node_statements_ok compact exclude_external_refs e He')
      as (st & Hst & Hshape). eauto. }
  exists elements, nodes. rewrite He. cbn [bind]. rewrite Hn. cbn [bind].
  repeat split; assumption.
Qed.

End EmitterTotal.

(** ** Edges *)

(** C1. Every relationship of the document gives exactly one edge statement
    of the diagram, in source order, between the header and node statements
    and the legend, whatever the endpoints: the diagram that is returned is
    these lines joined by newlines; the edge runs from the sanitized
    source id to the sanitized target id and is labelled with the short name
    of the kind, followed by the quote-escaped comment when the comment is
    not empty. *)
Theorem one_edge_per_relationship (py_repr : string -> string) (doc : Document.t)
        (compact : bool) (max_packages : option Z) (exclude_external_refs : bool) :
  (exists elements nodes,
      emitted_elements doc max_packages = Ok elements
      /\ mapM (node_statements py_repr compact exclude_external_refs) elements
         = Ok nodes
      /\ Forall2 (fun element statements => exists label colours,
                    statements
                    = [node_line (sanitize_node_id (fst element)) label;
                       style_line (sanitize_node_id (fst element)) colours])
           elements nodes
      /\ generate_mermaid_lines py_repr doc compact max_packages exclude_external_refs
         = Ok ("graph LR" :: List.concat nodes
               ++ map edge_statement (Document.relationships doc)
               ++ legend_lines)%list
      /\ generate_mermaid_diagram py_repr doc compact max_packages
           exclude_external_refs
         = Ok (PyString.join newline
                 ("graph LR" :: List.concat nodes
                  ++ map edge_statement (Document.relationships doc)
                  ++ legend_lines)%list))
  /\ (forall (source kind text : string) (target : ElementRef),
        let edge comment :=
          edge_statement
            {| Relationship.spdx_element_id := source;
               Relationship.related_spdx_element_id := target;
               Relationship.relationship_type :=
                 {| RelationshipType.name := Some kind;
                    RelationshipType.type_text := text |};
               Relationship.comment := comment |} in
        (forall (c : ascii) (comment : string),
            edge (Some (String c comment))
            = "    " ++ sanitize_node_id source ++ " -->|" ++ dquote
              ++ kind ++ "<br/>" ++ escape_quotes (String c comment) ++ dquote
              ++ "| " ++ sanitize_node_id target)
        /\ edge (Some "")
           = "    " ++ sanitize_node_id source ++ " -->|" ++ dquote
             ++ kind ++ dquote ++ "| " ++ sanitize_node_id target
        /\ edge None
           = "    " ++ sanitize_node_id source ++ " -->|" ++ dquote
             ++ kind ++ dquote ++ "| " ++ sanitize_node_id target).
Proof.
  split.
  - destruct (generate_mermaid_lines_ok py_repr doc compact max_packages
                exclude_external_refs) as (elements & nodes & He & Hn & Hs & Hl).
    exists elements, nodes. repeat (split; [assumption|]).
    unfold generate_mermaid_diagram. now rewrite Hl.
  - intros source kind text target edge. subst edge.
    unfold edge_statement, edge_label. cbn.
    repeat split; intros; rewrite ?append_assoc; reflexivity.
Qed.

(** ** Order of the nodes *)

Lemma filter_map_all {A B : Type} (p : B -> bool) (f : A -> B) (l : list A) :
  (forall x, p (f x) = true) -> filter p (map f l) = map f l.
Proof. intros H. induction l as [|x l IH]; simpl; [reflexivity|]. now rewrite H, IH. Qed.

Lemma filter_map_none {A B : Type} (p : B -> bool) (f : A -> B) (l : list A) :
  (forall x, p (f x) = false) -> filter p (map f l) = [].
Proof. intros H. induction l as [|x l IH]; simpl; [reflexivity|]. now rewrite H, IH. Qed.

(** The packages and the other elements of a document with distinct ids. *)
Lemma partition_distinct (doc : Document.t) :
  let all := (document_entry doc :: map package_entry (Document.packages doc)
              ++ map file_entry (Document.files doc)
              ++ map snippet_entry (Document.snippets doc))%list in
  filter is_package all = map package_entry (Document.packages doc)
  /\ filter (fun e => negb (is_package e)) all
     = (document_entry doc :: map file_entry (Document.files doc)
        ++ map snippet_entry (Document.snippets doc))%list.
Proof.
  cbn zeta. split.
  - cbn [filter]. change (is_package (document_entry doc)) with false. cbv iota.
    rewrite !filter_app.
    rewrite (filter_map_all is_package package_entry) by reflexivity.
    rewrite (filter_map_none is_package file_entry) by reflexivity.
    rewrite (filter_map_none is_package snippet_entry) by reflexivity.
    now rewrite !app_nil_r.
  - cbn [filter]. change (is_package (document_entry doc)) with false.
    cbv iota beta. cbn [negb]. rewrite !filter_app.
    rewrite (filter_map_none (fun e => negb (is_package e)) package_entry)
      by reflexivity.
    rewrite (filter_map_all (fun e => negb (is_package e)) file_entry)
      by reflexivity.
    rewrite (filter_map_all (fun e => negb (is_package e)) snippet_entry)
      by reflexivity.
    reflexivity.
Qed.

(** C6, as the code has it.  For a document whose element identifiers are
    pairwise distinct and differ from SPDXRef-DOCUMENT, the nodes are emitted
    document first, then packages, files and snippets, each group in source
    order, when no cap is given or the packages are no more than the cap N;
    when there are more than N packages the order is document, files,
    snippets, and then the first N packages.  The node statements follow the
    order of the emitted elements. *)
Theorem node_order (py_repr : string -> string) (doc : Document.t)
        (compact exclude_external_refs : bool) (n : Z) :
  NoDup (element_ids doc) ->
  (0 <= n)%Z ->
  let packages := map package_entry (Document.packages doc) in
  let files := map file_entry (Document.files doc) in
  let snippets := map snippet_entry (Document.snippets doc) in
  emitted_elements doc None
  = Ok (document_entry doc :: packages ++ files ++ snippets)%list
  /\ emitted_elements doc (Some n)
     = Ok (if (n <? Z.of_nat (List.length (Document.packages doc)))%Z
           then (document_entry doc :: files ++ snippets
                 ++ firstn (Z.to_nat n) packages)%list
           else (document_entry doc :: packages ++ files ++ snippets)%list)
  /\ (forall max_packages, exists elements nodes,
         emitted_elements doc max_packages = Ok elements
         /\ mapM (node_statements py_repr compact exclude_external_refs) elements
            = Ok nodes
         /\ Forall2 (fun element statements => exists label colours,
                       statements
                       = [node_line (sanitize_node_id (fst element)) label;
                          style_line (sanitize_node_id (fst element)) colours])
              elements nodes
         /\ generate_mermaid_lines py_repr doc compact max_packages
              exclude_external_refs
            = Ok ("graph LR" :: List.concat nodes
                  ++ map edge_statement (Document.relationships doc)
                  ++ legend_lines)%list).
Proof.
  intros Hnd Hn packages files snippets.
  pose proof (extract_distinct doc Hnd) as Hx.
  destruct (partition_distinct doc) as [Hp Ho].
  split; [|split].
  - unfold emitted_elements, limit_packages. now rewrite Hx.
  - unfold emitted_elements.
    rewrite (limit_packages_spec n _ (extract_typed doc) (extract_NoDup doc) Hn).
    rewrite Hx, Hp, Ho. unfold packages. rewrite length_map.
    destruct (n <? Z.of_nat (List.length (Document.packages doc)))%Z;
      [|reflexivity].
    cbn [app]. now rewrite <- app_assoc.
  - intros max_packages. apply generate_mermaid_lines_ok.
Qed.

(** Witness of [node_order]: the sample document under a cap of one. *)
Lemma node_order_witness :
  emitted_elements Sample.document (Some 1%Z)
  = Ok [document_entry Sample.document;
        file_entry (Sample.file "SPDXRef-file-1" "main.c");
        snippet_entry (Sample.snippet "SPDXRef-snippet-1");
        package_entry (Sample.package "SPDXRef-pkg-a" "a")].
Proof.
  refine (proj1 (proj2 (node_order Sample.repr Sample.document false false 1 _ _))).
  - unfold element_ids. simpl.
    repeat (constructor; [simpl; intuition discriminate|]). constructor.
  - lia.
Defined.

(** C6, as stated, fails: under a cap of one the sample document's file and
    snippet come before its package, where the specified order has the
    package second. *)
Lemma node_order_counterexample :
  exists elements,
    emitted_elements Sample.document (Some 1%Z) = Ok elements
    /\ Dict.keys elements
       = ["SPDXRef-DOCUMENT"; "SPDXRef-file-1"; "SPDXRef-snippet-1"; "SPDXRef-pkg-a"]
    /\ Dict.keys (specified_node_order Sample.document (Some 1%Z))
       = ["SPDXRef-DOCUMENT"; "SPDXRef-pkg-a"; "SPDXRef-file-1"; "SPDXRef-snippet-1"]
    /\ elements <> specified_node_order Sample.document (Some 1%Z).
Proof.
  eexists. split; [vm_compute; reflexivity|].
  split; [reflexivity|]. split; [reflexivity|].
  intros H. apply (f_equal Dict.keys) in H. vm_compute in H. discriminate.
Qed.

(** Witness of [limit_packages_keeps_first]: the sample document, N = 1. *)
Lemma limit_packages_keeps_first_witness :
  exists limited,
    limit_packages (Some 1%Z) (extract_elements_from_document Sample.document)
    = Ok limited
    /\ filter (fun e => negb (is_package e)) limited
       = filter (fun e => negb (is_package e))
           (extract_elements_from_document Sample.document)
    /\ filter is_package limited
       = firstn (Nat.min (Z.to_nat 1)
                   (List.length
                      (filter is_package
                         (extract_elements_from_document Sample.document))))
           (filter is_package (extract_elements_from_document Sample.document))
    /\ List.length (filter is_package limited)
       = Nat.min (Z.to_nat 1)
           (List.length
              (filter is_package (extract_elements_from_document Sample.document))).
Proof.
  apply (limit_packages_keeps_first Sample.document 1). lia.
Defined.

(** ** The document node *)

Lemma add_all_head {A : Type} (key : A -> string) (data : A -> dict PyVal)
      (xs : list A) (k : string) (v : dict PyVal) (rest : dict (dict PyVal)) :
  exists v' rest', add_all key data xs ((k, v) :: rest) = (k, v') :: rest'.
Proof.
  unfold add_all. revert v rest.
  induction xs as [|x xs IH]; intros v rest; simpl; [eauto|].
  destruct (String.eqb k (key x)); apply IH.
Qed.

(** The first extracted entry is stored under the fixed identifier. *)
Lemma extract_head (doc : Document.t) :
  exists data rest,
    extract_elements_from_document doc = ("SPDXRef-DOCUMENT", data) :: rest.
Proof.
  unfold extract_elements_from_document. simpl Dict.set.
  destruct (add_all_head Package.spdx_id pkg_data (Document.packages doc)
              "SPDXRef-DOCUMENT" (document_data doc) []) as (v1 & r1 & ->).
  destruct (add_all_head File.spdx_id file_data (Document.files doc)
              "SPDXRef-DOCUMENT" v1 r1) as (v2 & r2 & ->).
  apply add_all_head.
Qed.

(** The identifier [sanitize_node_id] gives for a prefixed name without
    hyphen or dot is the name. *)
Lemma sanitize_node_id_prefixed (name : string) :
  PyString.occurs "-" name = false -> PyString.occurs "." name = false ->
  sanitize_node_id ("SPDXRef-" ++ name) = name.
Proof.
  intros Hh Hd. rewrite sanitize_node_id_unfold.
  assert (PyString.replace "SPDXRef-" "" ("SPDXRef-" ++ name) = name) as ->.
  { unfold PyString.replace. cbn.
    change (PyString.replace_scan "SPDXRef-" "" 0 name)
      with (PyString.replace "SPDXRef-" "" name).
    assert (String.prefix "" name = true) as -> by now destruct name.
    now apply (replace_absent "-"%char). }
  rewrite (subst_char_absent "-") by assumption.
  now apply subst_char_absent.
Qed.

Lemma Forall_set_entry {V : Type} (P : string * V -> Prop) (k : string) (v : V)
      (d : dict V) :
  P (k, v) -> Forall P d -> Forall P (Dict.set k v d).
Proof.
  intros Hv. induction d as [|[k' v'] d IH]; simpl; intros H.
  - auto.
  - inversion H; subst.
    destruct (String.eqb_spec k' k) as [->|]; constructor; auto.
Qed.

Lemma add_all_Forall_entries {A : Type} (P : string * dict PyVal -> Prop)
      (key : A -> string) (data : A -> dict PyVal) (xs : list A)
      (elements : dict (dict PyVal)) :
  (forall x, In x xs -> P (key x, data x)) ->
  Forall P elements -> Forall P (add_all key data xs elements).
Proof.
  unfold add_all. revert elements.
  induction xs as [|x xs IH]; simpl; intros elements Hx He; [assumption|].
  apply IH; [auto|]. apply Forall_set_entry; auto.
Qed.

(** Every extracted entry is the entry of the document or of one of its
    packages, files and snippets. *)
Lemma extract_entries (doc : Document.t) :
  Forall (fun e => In e (document_entry doc
                         :: map package_entry (Document.packages doc)
                         ++ map file_entry (Document.files doc)
                         ++ map snippet_entry (Document.snippets doc))%list)
    (extract_elements_from_document doc).
Proof.
  unfold extract_elements_from_document.
  repeat apply add_all_Forall_entries.
  - intros x Hx. right. apply in_or_app. right. apply in_or_app. right.
    now apply (in_map snippet_entry).
  - intros x Hx. right. apply in_or_app. right. apply in_or_app. left.
    now apply (in_map file_entry).
  - intros x Hx. right. apply in_or_app. left. now apply (in_map package_entry).
  - simpl. constructor; [now left | constructor].
Qed.

(** The cap emits extracted entries only. *)
Lemma emitted_entries (doc : Document.t) (max_packages : option Z)
      (elements : dict (dict PyVal)) :
  emitted_elements doc max_packages = Ok elements ->
  Forall (fun e => In e (extract_elements_from_document doc)) elements.
Proof.
  unfold emitted_elements. destruct max_packages as [n|].
  - rewrite limit_packages_spec_any by (apply extract_typed || apply extract_NoDup).
    intros H. injection H as <-. apply Forall_forall. intros e He.
    destruct (n <? _)%Z; [|assumption].
    apply in_app_or in He as [He|He].
    + now apply filter_In in He.
    + assert (Hs : exists m, slice_to n (filter is_package
                                           (extract_elements_from_document doc))
                             = firstn m (filter is_package
                                           (extract_elements_from_document doc))).
      { unfold slice_to. destruct (0 <=? n)%Z; eauto. }
      destruct Hs as (m & Hs). rewrite Hs in He.
      apply In_firstn in He. now apply filter_In in He.
  - intros H. injection H as <-. apply Forall_forall. auto.
Qed.

(** The entry drawn as a document is the document's. *)
Lemma document_typed_entry (doc : Document.t) (e : string * dict PyVal) :
  In e (extract_elements_from_document doc) ->
  Dict.get "type" (snd e) = Some (PyStr "Document") ->
  e = document_entry doc.
Proof.
  intros He Ht.
  pose proof (extract_entries doc) as H. rewrite Forall_forall in H.
  apply H in He. clear H.
  destruct He as [<-|He]; [reflexivity|]. exfalso.
  apply in_app_or in He as [He|He];
    [|apply in_app_or in He as [He|He]];
    apply in_map_iff in He as (x & <- & _); discriminate.
Qed.

(** An extracted package entry is the entry of a package of the document. *)
Lemma package_typed_entry (doc : Document.t) (e : string * dict PyVal) :
  In e (extract_elements_from_document doc) ->
  is_package e = true ->
  exists package, In package (Document.packages doc) /\ e = package_entry package.
Proof.
  intros He Ht.
  pose proof (extract_entries doc) as H. rewrite Forall_forall in H.
  apply H in He. clear H.
  destruct He as [<-|He]; [discriminate|].
  apply in_app_or in He as [He|He].
  - apply in_map_iff in He as (x & <- & Hx). eauto.
  - exfalso. apply in_app_or in He as [He|He];
      apply in_map_iff in He as (x & <- & _); discriminate.
Qed.

Lemma Forall2_with {A B : Type} (P : A -> Prop) (R : A -> B -> Prop)
      (l : list A) (l' : list B) :
  Forall P l -> Forall2 R l l' -> Forall2 (fun x y => P x /\ R x y) l l'.
Proof.
  intros HP HR. induction HR; inversion HP; subst; constructor; auto.
Qed.

(** C10, as the code has it.  For every document and every setting: the
    extractor stores its first entry under the fixed identifier
    SPDXRef-DOCUMENT, the data of the document unless another element
    carries that identifier, and never reads the document's own identifier;
    every node that is drawn for an element of type Document is the node of
    the document's data and has the id DOCUMENT, with or without a package
    cap, and it is the first node of the diagram unless a package carries
    the fixed identifier itself; every relationship has its edge in the
    diagram, and an edge that names the document's own identifier, as source
    or as target, has there the sanitized own identifier: an id that differs
    from DOCUMENT whenever the own identifier sanitizes to something else. *)
Theorem document_node_id (py_repr : string -> string) (doc : Document.t)
        (compact : bool) (max_packages : option Z) (exclude_external_refs : bool) :
  let own_id := CreationInfo.spdx_id (Document.creation_info doc) in
  (exists data rest,
      extract_elements_from_document doc = ("SPDXRef-DOCUMENT", data) :: rest)
  /\ ((forall k, In k (map Package.spdx_id (Document.packages doc)
                       ++ map File.spdx_id (Document.files doc)
                       ++ map Snippet.spdx_id (Document.snippets doc))%list ->
                 k <> "SPDXRef-DOCUMENT") ->
      exists rest,
        extract_elements_from_document doc
        = ("SPDXRef-DOCUMENT", document_data doc) :: rest)
  /\ (forall other_id,
         extract_elements_from_document (with_spdx_id other_id doc)
         = extract_elements_from_document doc)
  /\ exists elements nodes lines,
      emitted_elements doc max_packages = Ok elements
      /\ mapM (node_statements py_repr compact exclude_external_refs) elements
         = Ok nodes
      /\ lines = ("graph LR" :: List.concat nodes
                  ++ map edge_statement (Document.relationships doc)
                  ++ legend_lines)%list
      /\ generate_mermaid_diagram py_repr doc compact max_packages
           exclude_external_refs
         = Ok (PyString.join newline lines)
      /\ Forall2 (fun element statements =>
                    Dict.get "type" (snd element) = Some (PyStr "Document") ->
                    element = ("SPDXRef-DOCUMENT", document_data doc)
                    /\ exists label colours,
                        statements = [node_line "DOCUMENT" label;
                                      style_line "DOCUMENT" colours])
           elements nodes
      /\ ((forall package, In package (Document.packages doc) ->
                           Package.spdx_id package <> "SPDXRef-DOCUMENT") ->
          exists label colours rest,
            lines = "graph LR" :: node_line "DOCUMENT" label
                    :: style_line "DOCUMENT" colours :: rest)
      /\ forall relationship,
          In relationship (Document.relationships doc) ->
          In (edge_statement relationship) lines
          /\ exists source_id target_id,
              edge_statement relationship
              = "    " ++ source_id ++ " -->|" ++ dquote ++ edge_label relationship
                ++ dquote ++ "| " ++ target_id
              /\ (Relationship.spdx_element_id relationship = own_id ->
                  source_id = sanitize_node_id own_id
                  /\ (sanitize_node_id own_id <> "DOCUMENT" ->
                      source_id <> "DOCUMENT"))
              /\ (Relationship.related_spdx_element_id relationship
                  = ElementId own_id ->
                  target_id = sanitize_node_id own_id
                  /\ (sanitize_node_id own_id <> "DOCUMENT" ->
                      target_id <> "DOCUMENT")).
Proof.
  intros own_id. split; [apply extract_head|]. split.
  { intros Hids. destruct (extract_head doc) as (data & rest & Hx).
    exists rest. rewrite Hx. do 2 f_equal.
    pose proof (extract_entries doc) as H. rewrite Hx in H.
    inversion H as [|e l [He|He] _]; subst; [now injection He as <-|].
    exfalso. apply (Hids "SPDXRef-DOCUMENT"); [|reflexivity].
    apply in_app_or in He as [He|He];
      [|apply in_app_or in He as [He|He]];
      apply in_map_iff in He as (x & Hxe & Hin); injection Hxe as Hk _.
    - apply in_or_app. left. apply in_map_iff. eauto.
    - apply in_or_app. right. apply in_or_app. left. apply in_map_iff. eauto.
    - apply in_or_app. right. apply in_or_app. right. apply in_map_iff. eauto. }
  split; [reflexivity|].
  destruct (generate_mermaid_lines_ok py_repr doc compact max_packages
              exclude_external_refs) as (elements & nodes & He & Hn & HQ & Hl).
  exists elements, nodes. eexists. split; [exact He|]. split; [exact Hn|].
  split; [reflexivity|].
  split; [unfold generate_mermaid_diagram; now rewrite Hl|].
  pose proof (emitted_entries doc max_packages elements He) as Hin.
  split; [|split].
  - eapply Forall2_impl; [|exact (Forall2_with _ _ _ _ Hin HQ)].
    intros e g [Hine (label & colours & ->)] Ht.
    rewrite (document_typed_entry doc e Hine Ht). split; [reflexivity|].
    exists label, colours. reflexivity.
  - intros Hids.
    destruct (extract_head doc) as (data & rest & Hx).
    assert (Hhead : is_package ("SPDXRef-DOCUMENT", data) = false).
    { destruct (is_package ("SPDXRef-DOCUMENT", data)) eqn:Hp; [|reflexivity].
      destruct (package_typed_entry doc ("SPDXRef-DOCUMENT", data))
        as (package & Hpk & Heq); [rewrite Hx; now left | exact Hp |].
      injection Heq as Hid _. exfalso. now apply (Hids package). }
    assert (Hfirst : exists rest', elements = ("SPDXRef-DOCUMENT", data) :: rest').
    { unfold emitted_elements in He. destruct max_packages as [n|].
      - rewrite limit_packages_spec_any in He
          by (apply extract_typed || apply extract_NoDup).
        injection He as <-. rewrite Hx.
        match goal with |- context [if ?c then _ else _] => destruct c end;
          [|eauto].
        cbn [filter]. rewrite Hhead. cbn [negb app]. eauto.
      - injection He as <-. eauto. }
    destruct Hfirst as (rest' & ->).
    inversion HQ as [|e st els sts (label & colours & ->) _]; subst.
    exists label, colours. eexists.
    cbn [List.concat app fst].
    change (sanitize_node_id "SPDXRef-DOCUMENT") with "DOCUMENT". reflexivity.
  - intros relationship Hr. split.
    + right. apply in_or_app. right. apply in_or_app. left. now apply in_map.
    + eexists. eexists. split; [reflexivity|]. split.
      * intros ->. split; [reflexivity | auto].
      * intros ->. split; [reflexivity | auto].
Qed.

(** Witness of [document_node_id]: a document that names itself SPDXRef-Doc1
    has the node DOCUMENT first, and its edge starts at Doc1. *)
Lemma document_node_id_witness :
  exists lines label colours rest source_id target_id,
    generate_mermaid_diagram Sample.repr Sample.renamed_document false None false
    = Ok (PyString.join newline lines)
    /\ lines = "graph LR" :: node_line "DOCUMENT" label
               :: style_line "DOCUMENT" colours :: rest
    /\ In ("    " ++ source_id ++ " -->|" ++ dquote ++ "DESCRIBES" ++ dquote
           ++ "| " ++ target_id) lines
    /\ source_id = sanitize_node_id "SPDXRef-Doc1"
    /\ source_id <> "DOCUMENT".
Proof.
  destruct (document_node_id Sample.repr Sample.renamed_document false None false)
    as (_ & _ & _ & elements & nodes & lines & _ & _ & _ & Hd & _ & Hfirst & Hedges).
  destruct Hfirst as (label & colours & rest & Hlines).
  { intros package [<-|[]]. discriminate. }
  destruct (Hedges (Sample.relationship "SPDXRef-Doc1" "DESCRIBES"
                      (ElementId "SPDXRef-pkg-a") None))
    as (Hin & source_id & target_id & Hedge & Hsource & _); [now left|].
  destruct (Hsource eq_refl) as [Hid Hne].
  exists lines, label, colours, rest, source_id, target_id.
  split; [exact Hd|]. split; [exact Hlines|].
  split.
  { change (edge_label (Sample.relationship "SPDXRef-Doc1" "DESCRIBES"
                          (ElementId "SPDXRef-pkg-a") None))
      with "DESCRIBES" in Hedge.
    now rewrite <- Hedge. }
  split; [exact Hid|].
  apply Hne. vm_compute. discriminate.
Defined.

(** C10, as stated, fails: a document that names itself DOCUMENT, which is
    not SPDXRef-DOCUMENT, has its edge start at the very id of the emitted
    document node. *)
Lemma document_node_id_counterexample :
  CreationInfo.spdx_id (Document.creation_info Sample.self_named_document)
  <> "SPDXRef-DOCUMENT"
  /\ exists lines,
      generate_mermaid_lines Sample.repr Sample.self_named_document false None false
      = Ok lines
      /\ String.prefix ("    DOCUMENT[" ++ dquote ++ "[Document]") (nth 1 lines "")
         = true
      /\ In ("    DOCUMENT -->|" ++ dquote ++ "DESCRIBES" ++ dquote ++ "| pkg_a") lines
      /\ map Relationship.spdx_element_id
           (Document.relationships Sample.self_named_document)
         = [CreationInfo.spdx_id (Document.creation_info Sample.self_named_document)].
Proof.
  split; [vm_compute; discriminate|].
  eexists. split; [vm_compute; reflexivity|].
  split; [reflexivity|]. split; [|reflexivity]. vm_compute. tauto.
Qed.

(** ** Quote escaping and truncation *)

Lemma escape_quotes_subst (text : string) :
  escape_quotes text = PyString.subst_char dquote_char "'" text.
Proof. apply replace_char. Qed.

(** The escaper leaves no double quote, keeps the length, and changes no
    other character. *)
Lemma escape_quotes_spec (text : string) :
  PyString.occurs dquote_char (escape_quotes text) = false
  /\ String.length (escape_quotes text) = String.length text
  /\ (PyString.occurs dquote_char text = false -> escape_quotes text = text)
  /\ forall n, String.get n (escape_quotes text)
               = option_map (fun c => if Ascii.eqb c dquote_char then "'"%char else c)
                   (String.get n text).
Proof.
  rewrite escape_quotes_subst. repeat split.
  - apply subst_char_removes. discriminate.
  - apply subst_char_length.
  - apply subst_char_absent.
  - induction text as [|c text IH]; intros n; [reflexivity|].
    destruct n as [|n]; simpl; [reflexivity | apply IH].
Qed.

Lemma escape_quotes_take (n : nat) (text : string) :
  escape_quotes (PyString.take n text) = PyString.take n (escape_quotes text).
Proof. rewrite !escape_quotes_subst. apply subst_char_take. Qed.

(** The two numbers of every cut in the formatter are a limit and the limit
    less three. *)
Lemma shorten_uniform (limit : nat) (text : string) :
  shorten limit (limit - 3) text = uniform_truncation limit text.
Proof. reflexivity. Qed.

Lemma uniform_truncation_long (limit : nat) (text : string) :
  3 <= limit -> limit < PyString.len text ->
  uniform_truncation limit text = PyString.take (limit - 3) text ++ "..."
  /\ PyString.len (uniform_truncation limit text) = limit.
Proof.
  intros H3 Hlong. unfold uniform_truncation, PyString.len in *.
  apply Nat.ltb_lt in Hlong as Hb. rewrite Hb. split; [reflexivity|].
  rewrite length_append, take_length. simpl. lia.
Qed.

Lemma uniform_truncation_short (limit : nat) (text : string) :
  PyString.len text <= limit -> uniform_truncation limit text = text.
Proof.
  intros Hshort. unfold uniform_truncation.
  now apply Nat.ltb_ge in Hshort as ->.
Qed.

(** Escaping after the cut gives what the cut after escaping gives. *)
Lemma escape_quotes_uniform (limit : nat) (text : string) :
  escape_quotes (uniform_truncation limit text)
  = uniform_truncation limit (escape_quotes text).
Proof.
  unfold uniform_truncation, PyString.len.
  destruct (escape_quotes_spec text) as (_ & -> & _).
  destruct (Nat.ltb limit (String.length text)); [|reflexivity].
  rewrite !escape_quotes_subst, subst_char_append, subst_char_take. reflexivity.
Qed.

(** C3, as the code has it.  Every shortened one-line field (summary and
    license note at 60, download location, comment, namespace and package
    file name at 50, copyright at 40) is rendered as its label followed by
    the quote-escaped value cut by the uniform rule: a value longer than the
    limit L keeps its first L-3 characters, gets three dots and has length
    L; a value of at most L characters is rendered as it is.  The joined
    creators (50) and the locator of an external reference (40) follow the
    same rule.  The checksum value does not: it is always its first twelve
    characters followed by three dots. *)
Theorem label_truncation (py_repr : string -> string) (element_data : dict PyVal)
        (key label : string) (limit : nat) (block : dict PyVal -> list string)
        (v : PyVal) :
  In (key, label, limit, block) (truncated_fields py_repr) ->
  present element_data key = Some v ->
  let text := escape_quotes (py_str py_repr v) in
  block element_data = [label ++ uniform_truncation limit text]
  /\ (limit < PyString.len text ->
      uniform_truncation limit text = PyString.take (limit - 3) text ++ "..."
      /\ PyString.len (uniform_truncation limit text) = limit)
  /\ (PyString.len text <= limit -> uniform_truncation limit text = text)
  /\ (forall creators joined,
         present element_data "creators" = Some creators ->
         join_creators creators = Ok joined ->
         creators_lines element_data
         = Ok ["Creators: " ++ uniform_truncation 50 (escape_quotes joined)])
  /\ (forall ref : dict string,
         external_ref_line ref
         = Dict.get_default "referenceType" "" ref ++ ": "
           ++ uniform_truncation 40
                (escape_quotes (Dict.get_default "referenceLocator" "" ref)))
  /\ (forall checksum : dict string,
         checksum_line checksum
         = Dict.get_default "algorithm" "" checksum ++ ": "
           ++ PyString.take 12 (Dict.get_default "checksumValue" "" checksum)
           ++ "...").
Proof.
  intros Hin Hv text.
  assert (H3 : 3 <= limit).
  { simpl in Hin.
    repeat (destruct Hin as [Hin|Hin]; [injection Hin as <- <- <- <-; lia|]).
    destruct Hin. }
  split; [|split; [|split; [|split; [|split]]]].
  - simpl in Hin.
    repeat (destruct Hin as [Hin|Hin];
            [injection Hin as <- <- <- <-;
             cbv beta delta [summary_lines license_note_lines download_lines
                             copyright_lines comment_lines namespace_lines
                             package_file_lines field_line];
             rewrite Hv; reflexivity|]).
    destruct Hin.
  - now apply uniform_truncation_long.
  - apply uniform_truncation_short.
  - intros creators joined Hc Hj. unfold creators_lines. rewrite Hc, Hj. cbn [bind].
    now rewrite <- escape_quotes_uniform.
  - intros ref. unfold external_ref_line. cbv zeta.
    now rewrite <- escape_quotes_uniform.
  - reflexivity.
Qed.

(** Witness of [label_truncation]: a summary of seventy-five characters. *)
Lemma label_truncation_witness :
  summary_lines Sample.repr [("summary", PyStr Sample.long_summary)]
  = ["Summary: " ++ uniform_truncation 60 (escape_quotes Sample.long_summary)]
  /\ PyString.len (uniform_truncation 60 (escape_quotes Sample.long_summary)) = 60.
Proof.
  pose proof (label_truncation Sample.repr [("summary", PyStr Sample.long_summary)]
                "summary" "Summary: " 60 (summary_lines Sample.repr)
                (PyStr Sample.long_summary)) as H.
  cbv zeta in H. destruct H as (Hblock & Hlong & _).
  - simpl. now left.
  - reflexivity.
  - split; [exact Hblock|]. apply Hlong. vm_compute. lia.
Defined.

(** C3, as stated, fails for the checksum value: the three characters abc
    are rendered with three dots appended, where the uniform rule, whatever
    the limit, either leaves them as they are or keeps none of them. *)
Lemma checksum_truncation_counterexample :
  checksum_line Sample.short_checksum = "SHA1: abc..."
  /\ ~ (exists limit,
          checksum_line Sample.short_checksum
          = "SHA1: " ++ uniform_truncation limit "abc").
Proof.
  split; [reflexivity|]. intros (limit & H).
  unfold uniform_truncation in H.
  destruct (Nat.ltb limit (PyString.len "abc")) eqn:E.
  - apply Nat.ltb_lt in E. simpl in E.
    assert (limit - 3 = 0) as Hz by lia. rewrite Hz in H. discriminate.
  - discriminate.
Qed.

(** ** Unescaped values *)

(** C4 fails on the code: the purpose in the type header, the verification
    code, the checksum value and the reference type reach the label without
    passing through [escape_quotes], so a double quote in one of them is in
    the label, and in the node statement of the diagram. *)
Theorem unescaped_quote_in_label (py_repr : string -> string) :
  format_node_label py_repr "SPDXRef-pkg-a"
    (pkg_data (Sample.package_with_code "SPDXRef-pkg-a" "a" Sample.quoted_code))
    "Package" false false
  = Ok (PyString.join newline
          ["[Package]"; "Name: a"; "Files Analyzed: True";
           "Verification: d6a7" ++ dquote ++ "70ba"])
  /\ format_node_label py_repr "x"
       [("primaryPackagePurpose", PyStr ("LIB" ++ dquote ++ "RARY"))]
       "Package" false false
     = Ok (PyString.join newline ["[Package - LIB" ++ dquote ++ "RARY]"; "ID: x"])
  /\ checksum_line [("algorithm", "SHA1"); ("checksumValue", "ab" ++ dquote ++ "cd")]
     = "SHA1: ab" ++ dquote ++ "cd..."
  /\ external_ref_line
       [("referenceType", "pu" ++ dquote ++ "rl"); ("referenceLocator", "x")]
     = "pu" ++ dquote ++ "rl: x"
  /\ exists lines,
      generate_mermaid_lines py_repr Sample.quoting_document false None false
      = Ok lines
      /\ nth 3 lines ""
         = node_line "pkg_a"
             (PyString.join newline
                ["[Package]"; "Name: a"; "Files Analyzed: True";
                 "Verification: d6a7" ++ dquote ++ "70ba"])
      /\ PyString.occurs dquote_char
           (PyString.join newline
              ["[Package]"; "Name: a"; "Files Analyzed: True";
               "Verification: d6a7" ++ dquote ++ "70ba"]) = true.
Proof.
  repeat split; try reflexivity.
  eexists. split; [vm_compute; reflexivity|]. split; reflexivity.
Qed.

(** ** Absent attributes *)

(** The placeholder and the empty value of a key are not true. *)
Lemma null_value_falsy (key : string) : truthy (null_value key) = false.
Proof.
  unfold null_value. destruct (String.eqb key "creators"); [reflexivity|].
  now destruct (String.eqb key "checksums" || String.eqb key "externalRefs").
Qed.

Lemma empty_value_falsy (key : string) : truthy (empty_value key) = false.
Proof. unfold empty_value. now destruct (String.eqb key "creators"). Qed.

(** Nothing is present under the key of an attribute the source does not
    hold or holds empty. *)
Lemma stored_as_not_present (key : string) (tested : bool) (held : Held)
      (element_data : dict PyVal) :
  stored_as key tested held element_data -> held <> Filled ->
  present element_data key = None.
Proof.
  unfold stored_as, present. destruct held; intros H Hne; try congruence;
    rewrite H.
  - now rewrite null_value_falsy.
  - destruct tested; now rewrite ?null_value_falsy, ?empty_value_falsy.
Qed.

Lemma package_stored (package : Package.t) (key : string) (tested : bool)
      (held : Held) :
  In (key, tested, held) (package_attributes package) ->
  stored_as key tested held (pkg_data package).
Proof.
  intros H. unfold package_attributes in H. simpl in H.
  repeat (destruct H as [H|H]; [injection H as <- <- <-|]); [..|destruct H];
    unfold stored_as, held_text, held_object, held_str, held_items, held_code,
      pkg_data.
  - text_cases (Package.version package).
  - str_cases (Package.download_location package).
  - object_cases (Package.supplier package).
  - object_cases (Package.originator package).
  - object_cases (Package.homepage package).
  - str_cases (Package.license_concluded package).
  - str_cases (Package.license_declared package).
  - text_cases (Package.license_comment package).
  - object_cases (Package.copyright_text package).
  - text_cases (Package.comment package).
  - text_cases (Package.summary package).
  - object_cases (Package.primary_package_purpose package).
  - items_cases (Package.checksums package).
  - destruct (Package.verification_code package) as [code|];
      [destruct (String.eqb (PackageVerificationCode.value code) "") eqn:?|];
      stored_value.
  - text_cases (Package.file_name package).
  - items_cases (Package.external_references package).
Qed.

Lemma file_stored (file : File.t) (key : string) (tested : bool) (held : Held) :
  In (key, tested, held) (file_attributes file) ->
  stored_as key tested held (file_data file).
Proof.
  intros H. unfold file_attributes in H. simpl in H.
  repeat (destruct H as [H|H]; [injection H as <- <- <-|]); [..|destruct H];
    unfold stored_as, held_text, held_object, held_str, held_items, file_data.
  - str_cases (File.license_concluded file).
  - object_cases (File.copyright_text file).
  - text_cases (File.comment file).
  - items_cases (File.checksums file).
Qed.

Lemma snippet_stored (snippet : Snippet.t) (key : string) (tested : bool)
      (held : Held) :
  In (key, tested, held) (snippet_attributes snippet) ->
  stored_as key tested held (snippet_data snippet).
Proof.
  intros H. unfold snippet_attributes in H. simpl in H.
  repeat (destruct H as [H|H]; [injection H as <- <- <-|]); [..|destruct H];
    unfold stored_as, held_text, held_object, held_str, snippet_data.
  - text_cases (Snippet.comment snippet).
  - str_cases (Snippet.license_concluded snippet).
  - object_cases (Snippet.copyright_text snippet).
Qed.

Lemma document_stored (doc : Document.t) (key : string) (tested : bool)
      (held : Held) :
  In (key, tested, held) (document_attributes doc) ->
  stored_as key tested held (document_data doc).
Proof.
  intros H. unfold document_attributes in H. cbv zeta in H. simpl in H.
  repeat (destruct H as [H|H]; [injection H as <- <- <-|]); [..|destruct H];
    unfold stored_as, held_text, held_str, held_items, document_data; cbv zeta.
  - text_cases (CreationInfo.spdx_version (Document.creation_info doc)).
  - text_cases (CreationInfo.document_namespace (Document.creation_info doc)).
  - str_cases (CreationInfo.created (Document.creation_info doc)).
  - items_cases (CreationInfo.creators (Document.creation_info doc)).
  - text_cases (CreationInfo.data_license (Document.creation_info doc)).
Qed.

(** A block renders nothing for a key that is missing or holds a value that
    is not true. *)
Lemma field_blocks_absent (py_repr : string -> string) (element_data : dict PyVal)
      (key : string) (block : dict PyVal -> list string) :
  In (key, block) (field_blocks py_repr) ->
  present element_data key = None ->
  block element_data = [].
Proof.
  intros Hin Hv. simpl in Hin.
  repeat (destruct Hin as [Hin|Hin];
          [injection Hin as <- <-;
           cbv beta delta [summary_lines version_lines license_lines
                           license_note_lines download_lines supplier_lines
                           originator_lines verification_lines checksum_lines
                           copyright_lines comment_lines homepage_lines
                           created_lines namespace_lines data_license_lines
                           license_declared_lines package_file_lines field_line];
           rewrite Hv; reflexivity|]).
  destruct Hin.
Qed.

(** A block other than the checksums renders one line for a value that is
    present. *)
Lemma field_blocks_present (py_repr : string -> string) (element_data : dict PyVal)
      (key : string) (block : dict PyVal -> list string) (v : PyVal) :
  In (key, block) (field_blocks py_repr) ->
  key <> "checksums" ->
  present element_data key = Some v ->
  exists line, block element_data = [line].
Proof.
  intros Hin Hne Hv. simpl in Hin.
  repeat (destruct Hin as [Hin|Hin];
          [injection Hin as <- <-; try congruence;
           cbv beta delta [summary_lines version_lines license_lines
                           license_note_lines download_lines supplier_lines
                           originator_lines verification_lines
                           copyright_lines comment_lines homepage_lines
                           created_lines namespace_lines data_license_lines
                           license_declared_lines package_file_lines field_line];
           rewrite Hv; eexists; reflexivity|]).
  destruct Hin.
Qed.

(** The label is its blocks, in the order of the source. *)
Lemma format_node_lines_blocks (py_repr : string -> string) (element_id : string)
      (element_data : dict PyVal) (element_type : string)
      (compact exclude_external_refs : bool) (creators refs : list string) :
  creators_lines element_data = Ok creators ->
  external_ref_lines element_data compact = Ok refs ->
  format_node_lines py_repr element_id element_data element_type
    compact exclude_external_refs
  = Ok (header_line py_repr element_data element_type
        :: name_line py_repr element_id element_data
        :: summary_lines py_repr element_data
        ++ version_lines py_repr element_data
        ++ license_lines py_repr element_data
        ++ license_note_lines py_repr element_data
        ++ (if compact then []
            else download_lines py_repr element_data
                 ++ supplier_lines py_repr element_data
                 ++ originator_lines py_repr element_data
                 ++ files_analyzed_lines py_repr element_data
                 ++ verification_lines py_repr element_data
                 ++ checksum_lines element_data
                 ++ copyright_lines py_repr element_data
                 ++ comment_lines py_repr element_data
                 ++ homepage_lines py_repr element_data)
        ++ (if String.eqb element_type "Document" && negb compact
            then created_lines py_repr element_data ++ creators
                 ++ namespace_lines py_repr element_data
                 ++ data_license_lines py_repr element_data
            else [])
        ++ (if String.eqb element_type "Package"
            then (if compact then []
                  else license_declared_lines py_repr element_data
                       ++ package_file_lines py_repr element_data)
                 ++ (if exclude_external_refs then [] else refs)
            else []))%list.
Proof.
  intros Hc Hr. unfold format_node_lines, document_lines, package_lines,
    optional_lines.
  rewrite Hc, Hr.
  destruct (String.eqb element_type "Document"), (String.eqb element_type "Package"),
    compact, exclude_external_refs; cbn [negb andb bind app];
    rewrite ?app_nil_r, <- ?app_assoc; reflexivity.
Qed.




(** ** Timestamp pre-patch *)

Lemma match_classes_spec (q : ascii) (pattern : list CharClass) :
  forall s group rest,
    match_classes pattern s = Some (group, rest) ->
    s = group ++ rest
    /\ String.length group = List.length pattern
    /\ (forall t, match_classes pattern (group ++ t) = Some (group, t))
    /\ (Forall (fun k => class_matches k q = false) pattern ->
        PyString.occurs q group = false).
Proof.
  induction pattern as [|k pattern IH]; intros s group rest H; simpl in H.
  - injection H as <- <-. repeat split; reflexivity.
  - destruct s as [|c s]; [discriminate|].
    destruct (class_matches k c) eqn:Hc; [|discriminate].
    destruct (match_classes pattern s) as [[g r]|] eqn:Hm; [|discriminate].
    injection H as <- <-.
    destruct (IH s g r Hm) as (-> & Hlen & Hext & Hq).
    repeat split.
    + simpl. now rewrite Hlen.
    + intros t. simpl. now rewrite Hc, Hext.
    + intros Hall. apply Forall_cons_iff in Hall as [Hk Hall].
      simpl. rewrite (Hq Hall), orb_false_r.
      destruct (Ascii.eqb_spec c q) as [->|]; [congruence | reflexivity].
Qed.

Lemma timestamp_group_no_quote :
  Forall (fun k => class_matches k dquote_char = false) timestamp_group.
Proof. repeat constructor. Qed.

(** What a match at the start of a string says about the string. *)
Lemma timestamp_match_shape (s group rest : string) :
  timestamp_match s = Some (group, rest) ->
  s = dquote ++ group ++ dquote ++ rest
  /\ String.length group = 19
  /\ PyString.occurs dquote_char group = false
  /\ (forall t, match_classes timestamp_group (group ++ t) = Some (group, t))
  /\ String.prefix "Z" rest = false.
Proof.
  unfold timestamp_match. destruct s as [|q s1]; [discriminate|].
  destruct (Ascii.eqb_spec q dquote_char) as [->|]; [|discriminate].
  destruct (match_classes timestamp_group s1) as [[g [|q' r]]|] eqn:Hm;
    try discriminate.
  destruct (Ascii.eqb_spec q' dquote_char) as [->|]; [|discriminate].
  destruct (String.prefix "Z" r) eqn:Hz; [discriminate|].
  intros H. injection H as <- <-.
  destruct (match_classes_spec dquote_char _ _ _ _ Hm) as (-> & Hlen & Hext & Hq).
  repeat split; auto using timestamp_group_no_quote.
Qed.

(** A quote, a group, a quote and no [Z]: the pattern matches. *)
Lemma timestamp_match_intro (group rest : string) :
  (forall t, match_classes timestamp_group (group ++ t) = Some (group, t)) ->
  String.prefix "Z" rest = false ->
  timestamp_match (dquote ++ group ++ dquote ++ rest) = Some (group, rest).
Proof.
  intros Hg Hz. unfold timestamp_match. cbn [dquote append].
  rewrite Ascii.eqb_refl, Hg, Ascii.eqb_refl, Hz. reflexivity.
Qed.

(** The pattern matches only at a quote. *)
Lemma timestamp_match_quote (c : ascii) (s : string) :
  c <> dquote_char -> timestamp_match (String c s) = None.
Proof.
  intros Hc. unfold timestamp_match.
  now destruct (Ascii.eqb_spec c dquote_char).
Qed.

Lemma timestamp_sub_nomatch (c : ascii) (s : string) :
  timestamp_match (String c s) = None ->
  timestamp_sub (String c s) = String c (timestamp_sub s).
Proof. intros H. unfold timestamp_sub. cbn [timestamp_sub_scan]. now rewrite H. Qed.

(** Text without a quote is copied. *)
Lemma timestamp_sub_copy (a b : string) :
  PyString.occurs dquote_char a = false ->
  timestamp_sub (a ++ b) = a ++ timestamp_sub b.
Proof.
  induction a as [|c a IH]; intros Ha; [reflexivity|].
  simpl in Ha. apply orb_false_iff in Ha as [Hc Ha].
  cbn [append]. rewrite timestamp_sub_nomatch.
  - now rewrite IH.
  - apply timestamp_match_quote. now apply Ascii.eqb_neq.
Qed.

Lemma timestamp_sub_scan_skip (a b : string) :
  timestamp_sub_scan (String.length a) (a ++ b) = timestamp_sub_scan 0 b.
Proof. induction a as [|c a IH]; [reflexivity | exact IH]. Qed.

(** A match is rewritten with the [Z] before its closing quote, and the
    scan goes on behind it. *)
Lemma timestamp_sub_match (s group rest : string) :
  timestamp_match s = Some (group, rest) ->
  timestamp_sub s = dquote ++ group ++ "Z" ++ dquote ++ timestamp_sub rest.
Proof.
  intros H. destruct (timestamp_match_shape s group rest H) as (Hs & Hlen & _).
  unfold timestamp_sub. destruct s as [|q s1]; [discriminate|].
  cbn [timestamp_sub_scan]. rewrite H.
  injection Hs as -> ->.
  replace 20 with (String.length (group ++ dquote))
    by (rewrite length_append, Hlen; reflexivity).
  change (group ++ String dquote_char rest) with (group ++ (dquote ++ rest)).
  rewrite <- (append_assoc group dquote rest), timestamp_sub_scan_skip.
  reflexivity.
Qed.

(** Where the output starts with text free of quotes, so does the input. *)
Lemma timestamp_sub_copied (a : string) :
  forall x y,
    PyString.occurs dquote_char a = false ->
    timestamp_sub x = a ++ y ->
    exists x', x = a ++ x' /\ timestamp_sub x' = y.
Proof.
  induction a as [|c a IH]; intros x y Ha H; [now exists x|].
  simpl in Ha. apply orb_false_iff in Ha as [Hc Ha].
  apply Ascii.eqb_neq in Hc.
  destruct x as [|d x]; [discriminate|].
  destruct (timestamp_match (String d x)) as [[g r]|] eqn:Hm.
  - rewrite (timestamp_sub_match _ _ _ Hm) in H. cbn [dquote append] in H.
    injection H as H _. exfalso. apply Hc. symmetry. exact H.
  - rewrite (timestamp_sub_nomatch _ _ Hm) in H. injection H as <- H.
    destruct (IH x y Ha H) as (x' & -> & Hx'). now exists x'.
Qed.

Lemma prefix_Z (s : string) :
  String.prefix "Z" s = true -> exists s', s = String "Z" s'.
Proof.
  destruct s as [|c s]; cbn [String.prefix]; [discriminate|].
  destruct (ascii_dec "Z" c) as [<-|]; cbv iota; [eauto | discriminate].
Qed.

Lemma prefix_Z_head (s : string) : String.prefix "Z" (String "Z" s) = true.
Proof.
  cbn [String.prefix]. destruct (ascii_dec "Z" "Z"); [now destruct s | congruence].
Qed.

Lemma match_classes_first (k : CharClass) (pattern : list CharClass)
      (s group rest : string) :
  match_classes (k :: pattern) s = Some (group, rest) ->
  exists c group', group = String c group' /\ class_matches k c = true.
Proof.
  simpl. destruct s as [|c s]; [discriminate|].
  destruct (class_matches k c) eqn:Hc; [|discriminate].
  destruct (match_classes pattern s) as [[m r]|]; [|discriminate].
  intros H. injection H as <- <-. eauto.
Qed.

(** A group starts with a digit, and a digit is not [Z]. *)
Lemma group_first_digit (group t : string) :
  match_classes timestamp_group (group ++ t) = Some (group, t) ->
  exists e group', group = String e group' /\ is_digit e = true.
Proof. unfold timestamp_group. apply match_classes_first. Qed.

Lemma digit_not_Z (e : ascii) (s : string) :
  is_digit e = true -> String.prefix "Z" (String e s) = false.
Proof.
  intros He. cbn [String.prefix].
  destruct (ascii_dec "Z" e) as [<-|]; [discriminate He | reflexivity].
Qed.

(** A match in the output that starts at a character of the input, with the
    output of the rest behind it, is a match in the input. *)
Lemma timestamp_match_sub (c : ascii) (x group out_rest : string) :
  timestamp_match (String c (timestamp_sub x)) = Some (group, out_rest) ->
  exists rest, timestamp_match (String c x) = Some (group, rest).
Proof.
  intros H.
  destruct (timestamp_match_shape _ _ _ H) as (Hs & Hlen & Hq & Hg & Hz).
  cbn [dquote append] in Hs. injection Hs as -> Hs.
  destruct (timestamp_sub_copied group x _ Hq Hs) as (x' & -> & Hx').
  destruct x' as [|d x1]; [discriminate|].
  destruct (timestamp_match (String d x1)) as [[g2 r2]|] eqn:Hm.
  - destruct (timestamp_match_shape _ _ _ Hm) as (Hd & Hlen2 & _ & Hg2 & _).
    cbn [dquote append] in Hd. injection Hd as -> ->.
    exists (g2 ++ dquote ++ r2).
    apply (timestamp_match_intro group (g2 ++ dquote ++ r2) Hg).
    destruct (group_first_digit g2 "" (Hg2 "")) as (e & g' & -> & He).
    now apply digit_not_Z.
  - rewrite (timestamp_sub_nomatch _ _ Hm) in Hx'. injection Hx' as -> Hx'.
    exists x1.
    apply (timestamp_match_intro group x1 Hg).
    destruct (String.prefix "Z" x1) eqn:Hzx; [|reflexivity].
    apply prefix_Z in Hzx as (x2 & ->).
    rewrite timestamp_sub_nomatch in Hx'
      by (apply timestamp_match_quote; discriminate).
    subst out_rest. rewrite prefix_Z_head in Hz. discriminate.
Qed.

Lemma occurs_append (c : ascii) (a b : string) :
  PyString.occurs c (a ++ b) = PyString.occurs c a || PyString.occurs c b.
Proof. induction a as [|d a IH]; simpl; [reflexivity | now rewrite IH, orb_assoc]. Qed.

Lemma append_length_inj (a a' b b' : string) :
  String.length a = String.length a' -> a ++ b = a' ++ b' -> a = a' /\ b = b'.
Proof.
  revert a'. induction a as [|c a IH]; intros [|c' a'] Hlen H; try discriminate.
  - now split.
  - simpl in Hlen, H. injection H as -> H. injection Hlen as Hlen.
    destruct (IH a' Hlen H) as [-> ->]. now split.
Qed.

Lemma timestamp_search_nomatch (c : ascii) (s : string) :
  timestamp_match (String c s) = None ->
  timestamp_search (String c s) = timestamp_search s.
Proof. intros H. cbn [timestamp_search]. now rewrite H. Qed.

(** No match starts in text without a quote. *)
Lemma timestamp_search_skip (a b : string) :
  PyString.occurs dquote_char a = false ->
  timestamp_search (a ++ b) = timestamp_search b.
Proof.
  induction a as [|c a IH]; intros Ha; [reflexivity|].
  simpl in Ha. apply orb_false_iff in Ha as [Hc Ha]. cbn [append].
  rewrite timestamp_search_nomatch; [now apply IH|].
  apply timestamp_match_quote. now apply Ascii.eqb_neq.
Qed.

Lemma no_shared_quote_append (a b : string) :
  no_shared_quote (a ++ b) = true -> no_shared_quote b = true.
Proof.
  induction a as [|c a IH]; [trivial|].
  cbn [append no_shared_quote]. intros H. apply andb_true_iff in H as [_ H]. auto.
Qed.

(** Where no two occurrences share a quote, the rewritten text holds no
    occurrence of the pattern. *)
Lemma timestamp_sub_complete (n : nat) :
  forall s, String.length s <= n -> no_shared_quote s = true ->
            timestamp_search (timestamp_sub s) = false.
Proof.
  induction n as [|n IH]; intros s Hlen Hns.
  - destruct s; [reflexivity | simpl in Hlen; lia].
  - destruct s as [|c s]; [reflexivity|].
    destruct (timestamp_match (String c s)) as [[g rest]|] eqn:Hm.
    + destruct (timestamp_match_shape _ _ _ Hm) as (Hs & Hg & Hq & _ & _).
      rewrite (timestamp_sub_match _ _ _ Hm).
      assert (Hrest : timestamp_search (timestamp_sub rest) = false).
      { apply IH.
        - rewrite Hs in Hlen. cbn [dquote append String.length] in Hlen.
          rewrite !length_append in Hlen. simpl in Hlen. lia.
        - rewrite Hs in Hns.
          apply (no_shared_quote_append (dquote ++ g ++ dquote)).
          now rewrite !append_assoc. }
      assert (Hclose : timestamp_match (String dquote_char (timestamp_sub rest)) = None).
      { destruct (timestamp_match (String dquote_char (timestamp_sub rest)))
          as [[g' r']|] eqn:Hm'; [|reflexivity].
        destruct (timestamp_match_sub _ _ _ _ Hm') as (r0 & Hr0).
        cbn [no_shared_quote] in Hns. rewrite Hm, Hr0 in Hns. discriminate. }
      assert (Hopen : timestamp_match
                        (dquote ++ g ++ "Z" ++ dquote ++ timestamp_sub rest) = None).
      { destruct (timestamp_match (dquote ++ g ++ "Z" ++ dquote ++ timestamp_sub rest))
          as [[g' r']|] eqn:Hm'; [|reflexivity].
        destruct (timestamp_match_shape _ _ _ Hm') as (Hs' & Hg' & _).
        cbn [dquote append] in Hs'. injection Hs' as Hs'.
        apply append_length_inj in Hs' as [_ Hs']; [discriminate | congruence]. }
      cbn [dquote append] in Hopen |- *.
      rewrite (timestamp_search_nomatch _ _ Hopen).
      change (g ++ String "Z" (String dquote_char (timestamp_sub rest)))
        with (g ++ "Z" ++ String dquote_char (timestamp_sub rest)).
      rewrite <- append_assoc, timestamp_search_skip
        by (rewrite occurs_append, Hq; reflexivity).
      now rewrite (timestamp_search_nomatch _ _ Hclose).
    + rewrite (timestamp_sub_nomatch _ _ Hm).
      assert (Hhead : timestamp_match (String c (timestamp_sub s)) = None).
      { destruct (timestamp_match (String c (timestamp_sub s)))
          as [[g' r']|] eqn:Hm'; [|reflexivity].
        destruct (timestamp_match_sub _ _ _ _ Hm') as (r0 & Hr0). congruence. }
      rewrite (timestamp_search_nomatch _ _ Hhead). apply IH.
      * simpl in Hlen. lia.
      * cbn [no_shared_quote] in Hns. now apply andb_true_iff in Hns as [_ Hns].
Qed.

Lemma get_app_l {V : Type} (k : string) (v : V) (d d' : dict V) :
  Dict.get k d = Some v -> Dict.get k (d ++ d')%list = Some v.
Proof.
  induction d as [|[k' v'] d IH]; simpl; [discriminate|].
  now destruct (String.eqb k' k).
Qed.

Lemma get_app_new {V : Type} (k : string) (v : V) (d : dict V) :
  Dict.get k d = None -> Dict.get k (d ++ [(k, v)])%list = Some v.
Proof.
  induction d as [|[k' v'] d IH]; simpl.
  - now rewrite String.eqb_refl.
  - now destruct (String.eqb k' k).
Qed.

(** A JSON file in which the pattern occurs is rewritten into a new file,
    when the file can be read and the new one written. *)
Lemma preprocess_patches (temporary_name : FileSystem -> string) (faults : Faults)
      (file_path content : string) (w : World) :
  Dict.get (temporary_name (fs w)) (fs w) = None ->
  lower (path_suffix file_path) = ".json" ->
  Dict.get file_path (fs w) = Some content ->
  read_fault faults file_path = None ->
  timestamp_search content = true ->
  write_fault faults (temporary_name (fs w)) (timestamp_sub content) = None ->
  let tmp_path := temporary_name (fs w) in
  let patched := {| fs := (fs w ++ [(tmp_path, timestamp_sub content)])%list;
                    printed := printed w |} in
  preprocess_spdx_file temporary_name faults file_path w = (tmp_path, patched)
  /\ tmp_path <> file_path
  /\ Dict.get file_path (fs patched) = Some content
  /\ Dict.get tmp_path (fs patched) = Some (timestamp_sub content).
Proof.
  intros Hfresh Hs Hget Hread Hsearch Hwrite tmp_path patched.
  subst tmp_path patched.
  unfold preprocess_spdx_file, read_text, write_text. apply String.eqb_eq in Hs.
  rewrite Hs, Hget, Hread, Hsearch. cbn [negb]. rewrite Hwrite. unfold store.
  apply get_None_keys in Hfresh as Hnew.
  rewrite (set_new _ _ _ Hnew). cbn [fs].
  split; [reflexivity|]. split; [|split].
  - intros E. rewrite E in Hfresh. congruence.
  - now apply get_app_l.
  - now apply get_app_new.
Qed.

(** C7.  The patch step leaves every input whose suffix is not .json alone,
    and every JSON input in which the pattern (a quoted timestamp, no Z
    behind the closing quote) does not occur, as when the timestamps carry
    their Z: it returns the path it was given and changes no file, and the
    world is as it was when the input can be read.  For a JSON input in
    which the pattern occurs it returns a new
    path, when the input can be read and the new file written, writes there
    the text with every match of the left-to-right scan rewritten with a Z
    before the closing quote, and leaves the original file as it was; where
    the timestamps are strings of their own, no two sharing a quote, no
    timestamp without Z is left in the new text. *)
Theorem preprocess_spdx_file_spec (temporary_name : FileSystem -> string)
        (faults : Faults) (file_path : string) (w : World) :
  Dict.get (temporary_name (fs w)) (fs w) = None ->
  let result := preprocess_spdx_file temporary_name faults file_path w in
  (lower (path_suffix file_path) <> ".json" -> result = (file_path, w))
  /\ (forall content,
         lower (path_suffix file_path) = ".json" ->
         Dict.get file_path (fs w) = Some content ->
         timestamp_search content = false ->
         fst result = file_path
         /\ fs (snd result) = fs w
         /\ (read_fault faults file_path = None -> result = (file_path, w)))
  /\ (forall content,
         lower (path_suffix file_path) = ".json" ->
         Dict.get file_path (fs w) = Some content ->
         read_fault faults file_path = None ->
         timestamp_search content = true ->
         write_fault faults (temporary_name (fs w)) (timestamp_sub content) = None ->
         let tmp_path := temporary_name (fs w) in
         result = (tmp_path,
                   {| fs := (fs w ++ [(tmp_path, timestamp_sub content)])%list;
                      printed := printed w |})
         /\ tmp_path <> file_path
         /\ Dict.get file_path (fs (snd result)) = Some content
         /\ Dict.get tmp_path (fs (snd result)) = Some (timestamp_sub content)
         /\ (no_shared_quote content = true ->
             timestamp_search (timestamp_sub content) = false))
  /\ (forall s group rest,
         timestamp_match s = Some (group, rest) ->
         s = dquote ++ group ++ dquote ++ rest
         /\ timestamp_sub s
            = dquote ++ group ++ "Z" ++ dquote ++ timestamp_sub rest)
  /\ (forall c s,
         timestamp_match (String c s) = None ->
         timestamp_sub (String c s) = String c (timestamp_sub s))
  /\ timestamp_sub (dquote ++ "2025-11-27T15:17:19" ++ dquote)
     = dquote ++ "2025-11-27T15:17:19Z" ++ dquote
  /\ timestamp_search (dquote ++ "2025-11-27T15:17:19Z" ++ dquote) = false.
Proof.
  intros Hfresh result. subst result. unfold preprocess_spdx_file, read_text.
  split; [|split; [|split; [|split; [|split; [|split]]]]].
  - intros Hs. apply String.eqb_neq in Hs. now rewrite Hs.
  - intros content Hs Hget Hsearch. apply String.eqb_eq in Hs.
    rewrite Hs, Hget. cbn [negb].
    destruct (read_fault faults file_path) as [e|]; [|rewrite Hsearch];
      cbn [negb fst snd print fs]; repeat split; congruence.
  - intros content Hs Hget Hread Hsearch Hwrite.
    destruct (preprocess_patches temporary_name faults file_path content w
                Hfresh Hs Hget Hread Hsearch Hwrite) as (Hr & Hne & Ho & Ht).
    fold (read_text faults file_path w).
    fold (preprocess_spdx_file temporary_name faults file_path w).
    rewrite Hr. cbn [snd].
    repeat split; try assumption.
    apply (timestamp_sub_complete (String.length content)). lia.
  - intros s group rest H. split.
    + now destruct (timestamp_match_shape _ _ _ H).
    + now apply timestamp_sub_match.
  - apply timestamp_sub_nomatch.
  - reflexivity.
  - reflexivity.
Qed.

(** Witness of [preprocess_spdx_file_spec]: a JSON file with one timestamp
    that lacks the Z is rewritten into a new file, and no timestamp without
    Z is left there. *)
Lemma preprocess_spdx_file_spec_witness :
  preprocess_spdx_file Sample.temporary_name Sample.no_faults "sbom.json"
    (Sample.world Sample.unpatched_json)
  = ("/tmp/spdx_preprocessed_x.json",
     {| fs := [("sbom.json", Sample.unpatched_json);
               ("/tmp/spdx_preprocessed_x.json", timestamp_sub Sample.unpatched_json)];
        printed := [] |})
  /\ timestamp_sub Sample.unpatched_json = Sample.patched_json
  /\ timestamp_search (timestamp_sub Sample.unpatched_json) = false.
Proof.
  pose proof (preprocess_spdx_file_spec Sample.temporary_name Sample.no_faults
                "sbom.json" (Sample.world Sample.unpatched_json)) as H.
  cbv zeta in H. destruct H as (_ & _ & H & _); [reflexivity|].
  destruct (H Sample.unpatched_json) as (Hr & _ & _ & _ & Hc); try reflexivity.
  split; [exact Hr|]. split; [reflexivity|]. apply Hc. reflexivity.
Defined.

(** Outside JSON, where two quoted timestamps share the quote between them,
    the scan matches the first only: the shared quote is used up. *)
Remark timestamp_sub_shared_quote :
  no_shared_quote Sample.shared_quote_text = false
  /\ timestamp_sub Sample.shared_quote_text
     = dquote ++ Sample.timestamp ++ "Z" ++ dquote ++ Sample.timestamp ++ dquote.
Proof. split; reflexivity. Qed.

(** ** Command-line flow *)

(** C8 fails on the code: when the patch step has written a temporary file
    and the parser raises, [main] exits with status 1 without removing the
    temporary file; the removal stands behind the parse, on the path of
    success only.  The original file is as it was. *)
Theorem main_keeps_temporary_on_parse_failure
        (py_repr : string -> string) (temporary_name : FileSystem -> string)
        (faults : Faults) (parse_file : string -> string -> result Document.t)
        (args : Args) (w : World) (content : string) (e : PyExn) :
  lower (path_suffix (spdx_file args)) = ".json" ->
  Dict.get (spdx_file args) (fs w) = Some content ->
  read_fault faults (spdx_file args) = None ->
  timestamp_search content = true ->
  Dict.get (temporary_name (fs w)) (fs w) = None ->
  write_fault faults (temporary_name (fs w)) (timestamp_sub content) = None ->
  parse_file (temporary_name (fs w)) (timestamp_sub content) = Raise e ->
  let (status, w') := main py_repr temporary_name faults parse_file args w in
  status = 1
  /\ Dict.get (temporary_name (fs w)) (fs w') = Some (timestamp_sub content)
  /\ Dict.get (spdx_file args) (fs w') = Some content.
Proof.
  intros Hs Hget Hread Hsearch Hfresh Hwrite Hparse.
  destruct (preprocess_patches temporary_name faults (spdx_file args) content w
              Hfresh Hs Hget Hread Hsearch Hwrite) as (Hr & Hne & Ho & Ht).
  unfold main, Dict.mem. rewrite Hget. cbn [negb].
  rewrite Hr. cbn [fs] in Ho, Ht |- *.
  rewrite Ht, Hparse. unfold report, print. cbn [fs]. auto.
Qed.

(** Witness of [main_keeps_temporary_on_parse_failure]: a JSON file that is
    patched and then refused by the parser. *)
Lemma main_keeps_temporary_on_parse_failure_witness :
  let (status, w') :=
    main Sample.repr Sample.temporary_name Sample.no_faults Sample.rejecting_parser
      Sample.args (Sample.world Sample.unpatched_json) in
  status = 1
  /\ Dict.get "/tmp/spdx_preprocessed_x.json" (fs w') = Some Sample.patched_json
  /\ Dict.get "sbom.json" (fs w') = Some Sample.unpatched_json.
Proof.
  exact (main_keeps_temporary_on_parse_failure Sample.repr Sample.temporary_name
           Sample.no_faults Sample.rejecting_parser Sample.args
           (Sample.world Sample.unpatched_json)
           Sample.unpatched_json ParseError
           eq_refl eq_refl eq_refl eq_refl eq_refl eq_refl eq_refl).
Defined.

Lemma unlink_new (file_path text : string) (fs : FileSystem) :
  ~ In file_path (Dict.keys fs) ->
  unlink file_path (fs ++ [(file_path, text)])%list = fs.
Proof.
  induction fs as [|[p t] d IH]; simpl; intros Hnew.
  - now rewrite String.eqb_refl.
  - destruct (String.eqb_spec p file_path) as [E|E]; [tauto|].
    f_equal. apply IH. tauto.
Qed.

(* ================================================================== *)
(** * Further properties *)

(** ** Escaper and sanitizer *)

(** X1. [escape_quotes] leaves no double quote, keeps the length, maps every
    character to itself except the double quote, which becomes a single
    quote; a second pass changes nothing, and a text is returned unchanged
    exactly when it holds no double quote. *)
Theorem escape_quotes_replaces_every_quote (text : string) :
  PyString.occurs dquote_char (escape_quotes text) = false
  /\ String.length (escape_quotes text) = String.length text
  /\ (forall n, String.get n (escape_quotes text)
                = option_map (fun c => if Ascii.eqb c dquote_char then "'"%char else c)
                    (String.get n text))
  /\ escape_quotes (escape_quotes text) = escape_quotes text
  /\ (escape_quotes text = text <-> PyString.occurs dquote_char text = false).
Proof.
  destruct (escape_quotes_spec text) as (Hq & Hl & Hid & Hget).
  repeat split; auto.
  - destruct (escape_quotes_spec (escape_quotes text)) as (_ & _ & H & _). auto.
  - intros H. now rewrite <- H.
Qed.

Lemma replace_scan_shrinks (old : string) (s : string) :
  forall skip,
    String.length (PyString.replace_scan old "" skip s) <= String.length s.
Proof.
  induction s as [|c s IH]; intros skip; [reflexivity|].
  cbn [PyString.replace_scan]. destruct skip as [|k].
  - destruct (String.prefix old (String c s)); cbn [append String.length].
    + specialize (IH (String.length old - 1)). lia.
    + specialize (IH 0). lia.
  - cbn [String.length]. specialize (IH k). lia.
Qed.

(** X2. The sanitizer returns an identifier unchanged exactly when it holds
    neither a hyphen nor a dot, and never returns a longer text than it was
    given. *)
Theorem sanitize_node_id_fixed_points (s : string) :
  (sanitize_node_id s = s
   <-> PyString.occurs "-" s = false /\ PyString.occurs "." s = false)
  /\ String.length (sanitize_node_id s) <= String.length s.
Proof.
  split; [split|].
  - intros H. split.
    + rewrite <- H. apply sanitize_node_id_no_hyphen.
    + rewrite <- H. apply sanitize_node_id_no_dot.
  - intros [Hh Hd]. rewrite sanitize_node_id_unfold.
    rewrite (replace_absent "-"%char) by (reflexivity || assumption).
    rewrite (subst_char_absent "-") by assumption.
    now apply subst_char_absent.
  - rewrite sanitize_node_id_unfold, !subst_char_length.
    unfold PyString.replace. apply replace_scan_shrinks.
Qed.

(** X3. An identifier made of the prefix SPDXRef- and a name without hyphen
    or dot is sanitized to the name. *)
Theorem sanitize_node_id_strips_prefix (name : string) :
  PyString.occurs "-" name = false -> PyString.occurs "." name = false ->
  sanitize_node_id ("SPDXRef-" ++ name) = name.
Proof. apply sanitize_node_id_prefixed. Qed.

(** Witness of [sanitize_node_id_strips_prefix]. *)
Lemma sanitize_node_id_strips_prefix_witness :
  sanitize_node_id ("SPDXRef-" ++ "Package") = "Package".
Proof.
  apply (sanitize_node_id_strips_prefix "Package"); reflexivity.
Defined.

(** ** Extractor: what is stored under a key *)

Lemma get_set_same {V : Type} (k : string) (v : V) (d : dict V) :
  Dict.get k (Dict.set k v d) = Some v.
Proof.
  induction d as [|[k' v'] d IH]; simpl.
  - now rewrite String.eqb_refl.
  - destruct (String.eqb k' k) eqn:E; simpl; now rewrite E.
Qed.

Lemma get_set_other {V : Type} (k k' : string) (v : V) (d : dict V) :
  k' <> k -> Dict.get k (Dict.set k' v d) = Dict.get k d.
Proof.
  intros Hne. induction d as [|[k0 v0] d IH]; simpl.
  - now apply String.eqb_neq in Hne as ->.
  - destruct (String.eqb_spec k0 k') as [->|]; simpl.
    + now apply String.eqb_neq in Hne as ->.
    + destruct (String.eqb k0 k); auto.
Qed.

Lemma find_app {A : Type} (f : A -> bool) (l l' : list A) :
  find f (l ++ l')%list
  = match find f l with Some x => Some x | None => find f l' end.
Proof.
  induction l as [|x l IH]; simpl; [reflexivity|]. now destruct (f x).
Qed.

(** After the loop the last element stored under a key is found there; a
    key of no element keeps what it had. *)
Lemma add_all_get {A : Type} (key : A -> string) (data : A -> dict PyVal)
      (k : string) (xs : list A) :
  forall elements,
    Dict.get k (add_all key data xs elements)
    = match last_with key k xs with
      | Some x => Some (data x)
      | None => Dict.get k elements
      end.
Proof.
  unfold add_all, last_with.
  induction xs as [|x xs IH]; intros elements; [reflexivity|].
  cbn [fold_left rev]. rewrite IH, find_app. cbn [find].
  destruct (find _ (rev xs)); [reflexivity|].
  destruct (String.eqb_spec (key x) k) as [<-|Hne].
  - apply get_set_same.
  - now apply get_set_other.
Qed.

(** X4. What the extractor stores under an identifier: the data of the last
    snippet with that identifier; if there is none, of the last file; if
    none, of the last package; if none, the document's data under
    SPDXRef-DOCUMENT; and nothing under any other key. *)
Theorem extract_lookup (doc : Document.t) (k : string) :
  Dict.get k (extract_elements_from_document doc)
  = match last_with Snippet.spdx_id k (Document.snippets doc) with
    | Some snippet => Some (snippet_data snippet)
    | None =>
        match last_with File.spdx_id k (Document.files doc) with
        | Some file => Some (file_data file)
        | None =>
            match last_with Package.spdx_id k (Document.packages doc) with
            | Some package => Some (pkg_data package)
            | None =>
                if String.eqb "SPDXRef-DOCUMENT" k
                then Some (document_data doc) else None
            end
        end
    end.
Proof.
  unfold extract_elements_from_document. rewrite !add_all_get. reflexivity.
Qed.

Lemma keys_set_In {V : Type} (k k' : string) (v : V) (d : dict V) :
  In k (Dict.keys (Dict.set k' v d)) <-> In k (Dict.keys d) \/ k = k'.
Proof.
  rewrite keys_set. unfold Dict.mem.
  destruct (Dict.get k' d) eqn:E.
  - split; [tauto|]. intros [H| ->]; [assumption|].
    destruct (in_dec string_dec k' (Dict.keys d)) as [Hin|Hnot]; [assumption|].
    apply get_None_keys in Hnot. congruence.
  - rewrite in_app_iff. simpl. intuition.
Qed.

Lemma add_all_keys {A : Type} (key : A -> string) (data : A -> dict PyVal)
      (k : string) (xs : list A) :
  forall elements,
    In k (Dict.keys (add_all key data xs elements))
    <-> In k (Dict.keys elements) \/ In k (map key xs).
Proof.
  unfold add_all. induction xs as [|x xs IH]; intros elements; simpl; [tauto|].
  rewrite IH, keys_set_In. intuition.
Qed.

(** X5. The keys of the extracted dictionary are pairwise distinct and are
    exactly SPDXRef-DOCUMENT and the identifiers of the packages, files and
    snippets; so there are at most as many elements as identifiers, and every
    element has one of the four types and a dictionary the formatter
    accepts. *)
Theorem extract_keys (doc : Document.t) :
  let elements := extract_elements_from_document doc in
  NoDup (Dict.keys elements)
  /\ (forall k, In k (Dict.keys elements) <-> In k (element_ids doc))
  /\ List.length elements <= List.length (element_ids doc)
  /\ Forall (fun e => typed (snd e) = true /\ label_safe (snd e) = true) elements.
Proof.
  cbv zeta.
  assert (Hk : forall k, In k (Dict.keys (extract_elements_from_document doc))
                         <-> In k (element_ids doc)).
  { intros k. unfold extract_elements_from_document, element_ids.
    rewrite !add_all_keys. simpl. rewrite !in_app_iff. intuition. }
  split; [apply extract_NoDup|]. split; [exact Hk|]. split.
  - replace (List.length (extract_elements_from_document doc))
      with (List.length (Dict.keys (extract_elements_from_document doc)))
      by apply length_map.
    apply NoDup_incl_length; [apply extract_NoDup|].
    intros k. apply Hk.
  - apply extract_well_shaped.
Qed.

(** ** Label formatter: outcomes and modes *)

Lemma prefix_append (a b : string) : String.prefix a (a ++ b) = true.
Proof.
  induction a as [|c a IH]; [now destruct b|].
  cbn [append String.prefix]. now destruct (ascii_dec c c).
Qed.

Section FormatterFacts.
Variable py_repr : string -> string.

Lemma creators_lines_raises (element_data : dict PyVal) (e : PyExn) :
  creators_lines element_data = Raise e ->
  e = TypeError /\ label_safe element_data = false.
Proof.
  unfold creators_lines, label_safe, present.
  destruct (Dict.get "creators" element_data) as [[|[|]|s|l|[|x l]]|];
    simpl; try discriminate.
  - intros H. injection H as <-. now split.
  - destruct (String.eqb s ""); discriminate.
  - destruct l; discriminate.
  - intros H. injection H as <-. now split.
Qed.

Lemma external_ref_lines_raises (element_data : dict PyVal) (compact : bool)
      (e : PyExn) :
  external_ref_lines element_data compact = Raise e ->
  e = TypeError /\ label_safe element_data = false.
Proof.
  unfold external_ref_lines, label_safe, present.
  destruct (Dict.get "externalRefs" element_data) as [[|[|]|s|l|l]|];
    simpl; try discriminate.
  - intros H. injection H as <-. split; [reflexivity | apply andb_false_r].
  - destruct (String.eqb s ""); discriminate.
  - destruct l; discriminate.
  - destruct l; discriminate.
Qed.

Lemma header_line_prefix (element_data : dict PyVal) (element_type x : string) :
  String.prefix ("[" ++ element_type)
    (header_line py_repr element_data element_type ++ x) = true.
Proof.
  unfold header_line. destruct (present element_data "primaryPackagePurpose").
  - rewrite (append_assoc "[" _ x), (append_assoc element_type _ x).
    rewrite <- (append_assoc "[" element_type _). apply prefix_append.
  - rewrite (append_assoc "[" _ x), (append_assoc element_type _ x).
    rewrite <- (append_assoc "[" element_type _). apply prefix_append.
Qed.


Lemma external_ref_lines_compact (element_data : dict PyVal) (full : list string) :
  external_ref_lines element_data false = Ok full ->
  exists brief,
    external_ref_lines element_data true = Ok brief
    /\ incl brief full /\ List.length brief <= List.length full.
Proof.
  unfold external_ref_lines.
  destruct (present element_data "externalRefs") as [[|b|s|l|l]|];
    try discriminate; intros H; injection H as <-.
  all: try (exists []; repeat split; [apply incl_nil_l | simpl; lia]).
  exists (map external_ref_line (firstn 1 l)). split; [reflexivity|].
  destruct l as [|a [|b l]]; simpl; split;
    auto using incl_refl, incl_nil_l; try lia.
  intros x [<-|[]]. now left.
Qed.

(** X7. Compact mode only leaves lines out: whenever the full label is
    returned, the compact label is returned too, each of its lines is a line
    of the full label, and it has no more lines. *)
Theorem compact_label_is_part_of_full (element_id : string)
        (element_data : dict PyVal) (element_type : string)
        (exclude_external_refs : bool) (full : list string) :
  format_node_lines py_repr element_id element_data element_type
    false exclude_external_refs = Ok full ->
  exists brief,
    format_node_lines py_repr element_id element_data element_type
      true exclude_external_refs = Ok brief
    /\ incl brief full
    /\ List.length brief <= List.length full.
Proof.
  unfold format_node_lines, document_lines, package_lines.
  rewrite andb_false_r, andb_true_r. cbn [negb bind].
  assert (Hrefs : forall rl,
             (if negb exclude_external_refs
              then external_ref_lines element_data false else Ok []) = Ok rl ->
             exists brief,
               (if negb exclude_external_refs
                then external_ref_lines element_data true else Ok []) = Ok brief
               /\ incl brief rl /\ List.length brief <= List.length rl).
  { intros rl. destruct (negb exclude_external_refs).
    - apply external_ref_lines_compact.
    - intros H. injection H as <-. exists []. auto using incl_refl. }
  destruct (String.eqb element_type "Document");
    [destruct (creators_lines element_data) as [cl|]; [|discriminate]|];
    cbn [bind].
  all: destruct (String.eqb element_type "Package"); cbn [bind].
  all: try (destruct (if negb exclude_external_refs
                      then external_ref_lines element_data false else Ok [])
              as [rl|] eqn:Er; [|discriminate];
            destruct (Hrefs rl eq_refl) as (brief & -> & Hincl & Hlen);
            cbn [bind]).
  all: intros H; injection H as <-; eexists; (split; [reflexivity|]); split.
  all: try (cbn [app List.length]; rewrite !length_app; cbn [List.length]; lia).
  all: intros x Hx; rewrite ?in_app_iff in *; cbn [In] in *;
    rewrite ?in_app_iff in *; intuition.
Qed.

(** X8. The flag that excludes external references changes nothing for an
    element that is no package or that has no external reference. *)
Theorem exclude_flag_only_for_references (element_id : string)
        (element_data : dict PyVal) (element_type : string) (compact : bool) :
  String.eqb element_type "Package" = false
  \/ present element_data "externalRefs" = None ->
  format_node_lines py_repr element_id element_data element_type compact true
  = format_node_lines py_repr element_id element_data element_type compact false.
Proof.
  unfold format_node_lines, package_lines, external_ref_lines.
  intros [Ht|Hr]; [now rewrite Ht | now rewrite Hr].
Qed.

(** *** Labels without a double quote *)

Lemma quote_free_append (a b : string) :
  quote_free a -> quote_free b -> quote_free (a ++ b).
Proof. unfold quote_free. intros Ha Hb. now rewrite occurs_append, Ha, Hb. Qed.

Lemma quote_free_take (n : nat) (s : string) :
  quote_free s -> quote_free (PyString.take n s).
Proof.
  unfold quote_free. revert s. induction n as [|n IH]; intros [|c s]; simpl;
    try reflexivity.
  intros H. apply orb_false_iff in H as [Hc H]. now rewrite Hc, IH.
Qed.

Lemma quote_free_escape (s : string) : quote_free (escape_quotes s).
Proof. apply escape_quotes_spec. Qed.

Lemma quote_free_shorten (limit keep : nat) (s : string) :
  quote_free s -> quote_free (shorten limit keep s).
Proof.
  intros H. unfold shorten. destruct (Nat.ltb limit (PyString.len s)); [|assumption].
  apply quote_free_append; [now apply quote_free_take | reflexivity].
Qed.

Lemma quote_free_join (lines : list string) :
  Forall quote_free lines -> quote_free (PyString.join newline lines).
Proof.
  unfold PyString.join. induction 1 as [|l lines Hl Hls IH]; [reflexivity|].
  cbn [String.concat]. destruct lines as [|l' lines]; [assumption|].
  apply quote_free_append; [assumption|].
  apply quote_free_append; [reflexivity | exact IH].
Qed.

Lemma field_line_quote_free (element_data : dict PyVal) (key label : string)
      (render : PyVal -> string) :
  quote_free label -> (forall v, quote_free (render v)) ->
  Forall quote_free (field_line element_data key label render).
Proof.
  intros Hl Hr. unfold field_line. destruct (present element_data key);
    repeat constructor. now apply quote_free_append.
Qed.

(** Close the goals about lines whose value is escaped. *)
Ltac escaped_lines :=
  apply field_line_quote_free;
  [reflexivity
  |intros; try apply quote_free_shorten; apply quote_free_escape].

(** X9. A label holds no double quote when the element type holds none and
    none of the values that the formatter does not escape holds one: every
    other value, the element id included, goes through [escape_quotes]. *)
Theorem label_without_quotes (element_id : string) (element_data : dict PyVal)
        (element_type : string) (compact exclude_external_refs : bool)
        (label : string) :
  quote_free element_type ->
  Forall quote_free (unescaped_values py_repr element_data) ->
  format_node_label py_repr element_id element_data element_type
    compact exclude_external_refs = Ok label ->
  quote_free label.
Proof.
  intros Ht Hu. unfold unescaped_values in Hu.
  apply Forall_app in Hu as [Hpurpose Hu]. apply Forall_app in Hu as [Hfiles Hu].
  apply Forall_app in Hu as [Hcode Hu]. apply Forall_app in Hu as [Hsums Hrefs].
  assert (Hhead : quote_free (header_line py_repr element_data element_type)).
  { unfold header_line.
    destruct (present element_data "primaryPackagePurpose").
    - apply Forall_inv in Hpurpose.
      repeat (apply quote_free_append; try assumption; try reflexivity).
    - repeat (apply quote_free_append; try assumption; try reflexivity). }
  assert (Hname : quote_free (name_line py_repr element_id element_data)).
  { unfold name_line. destruct (present element_data "name");
      (apply quote_free_append; [reflexivity | apply quote_free_escape]). }
  assert (Hopt : Forall quote_free (optional_lines py_repr element_data)).
  { unfold optional_lines. repeat (apply Forall_app; split).
    - unfold download_lines. escaped_lines.
    - unfold supplier_lines. escaped_lines.
    - unfold originator_lines. escaped_lines.
    - unfold files_analyzed_lines.
      destruct (Dict.get "filesAnalyzed" element_data); repeat constructor.
      apply Forall_inv in Hfiles. now apply quote_free_append.
    - unfold verification_lines, field_line.
      destruct (present element_data "verificationCode"); repeat constructor.
      apply Forall_inv in Hcode. now apply quote_free_append.
    - unfold checksum_lines.
      destruct (present element_data "checksums") as [[| | | |cs]|];
        try constructor.
      apply Forall_forall. intros line Hline.
      apply in_map_iff in Hline as (c & <- & Hc).
      rewrite Forall_forall in Hsums.
      assert (Ha : quote_free (Dict.get_default "algorithm" "" c)).
      { apply Hsums. apply in_flat_map. exists c. split; [assumption|]. now left. }
      assert (Hv : quote_free (PyString.take 12 (Dict.get_default "checksumValue" "" c))).
      { apply Hsums. apply in_flat_map. exists c. split; [assumption|].
        right. now left. }
      unfold checksum_line. cbv zeta.
      repeat (apply quote_free_append; try assumption; try reflexivity).
    - unfold copyright_lines. escaped_lines.
    - unfold comment_lines. escaped_lines.
    - unfold homepage_lines. escaped_lines. }
  assert (Hdoc : forall lines, document_lines py_repr element_data = Ok lines ->
                               Forall quote_free lines).
  { unfold document_lines, creators_lines. intros lines.
    destruct (present element_data "creators") as [creators|].
    - destruct (join_creators creators) as [joined|]; [|discriminate].
      cbn [bind]. intros H. injection H as <-.
      apply Forall_app; split; [unfold created_lines; escaped_lines|].
      apply Forall_cons.
      { change (quote_free ("Creators: " ++ escape_quotes (shorten 50 47 joined))).
        apply quote_free_append; [reflexivity | apply quote_free_escape]. }
      apply Forall_app; split;
        [unfold namespace_lines | unfold data_license_lines]; escaped_lines.
    - cbn [bind]. intros H. injection H as <-.
      repeat (apply Forall_app; split); try constructor.
      + unfold created_lines. escaped_lines.
      + unfold namespace_lines. escaped_lines.
      + unfold data_license_lines. escaped_lines. }
  assert (Hext : forall lines, external_ref_lines element_data compact = Ok lines ->
                               Forall quote_free lines).
  { unfold external_ref_lines. intros lines.
    destruct (present element_data "externalRefs") as [[|b|s|l|l]|];
      try discriminate; intros H; injection H as <-; try constructor.
    apply Forall_forall. intros line Hline.
    apply in_map_iff in Hline as (ref & <- & Href).
    rewrite Forall_forall in Hrefs.
    assert (Hty : quote_free (Dict.get_default "referenceType" "" ref)).
    { apply Hrefs. apply in_map.
      destruct compact; [|assumption].
      destruct l as [|a [|b l]]; simpl in *; tauto. }
    unfold external_ref_line. cbv zeta.
    apply quote_free_append; [assumption|].
    apply quote_free_append; [reflexivity | apply quote_free_escape]. }
  assert (Hpkg : forall lines,
             package_lines py_repr element_data compact exclude_external_refs
             = Ok lines -> Forall quote_free lines).
  { unfold package_lines. intros lines.
    destruct (negb exclude_external_refs).
    - destruct (external_ref_lines element_data compact) as [rl|] eqn:Er;
        [|discriminate]. cbn [bind]. intros H. injection H as <-.
      repeat (apply Forall_app; split); auto.
      + destruct (negb compact); [|constructor].
        unfold license_declared_lines. escaped_lines.
      + destruct (negb compact); [|constructor].
        unfold package_file_lines. escaped_lines.
    - cbn [bind]. intros H. injection H as <-.
      repeat (apply Forall_app; split); try constructor.
      + destruct (negb compact); [|constructor].
        unfold license_declared_lines. escaped_lines.
      + destruct (negb compact); [|constructor].
        unfold package_file_lines. escaped_lines. }
  unfold format_node_label.
  destruct (format_node_lines py_repr element_id element_data element_type
              compact exclude_external_refs) as [lines|] eqn:El; [|discriminate].
  cbn [bind]. intros H. injection H as <-. apply quote_free_join.
  unfold format_node_lines in El.
  destruct (if String.eqb element_type "Document" && negb compact
            then document_lines py_repr element_data else Ok [])
    as [dl|] eqn:Ed; [|discriminate]. cbn [bind] in El.
  destruct (if String.eqb element_type "Package"
            then package_lines py_repr element_data compact exclude_external_refs
            else Ok []) as [pl|] eqn:Ep; [|discriminate]. cbn [bind] in El.
  injection El as <-. cbn [app].
  apply Forall_cons; [assumption|]. apply Forall_cons; [assumption|].
  repeat (apply Forall_app; split).
  - unfold summary_lines. escaped_lines.
  - unfold version_lines. escaped_lines.
  - unfold license_lines. escaped_lines.
  - unfold license_note_lines. escaped_lines.
  - destruct (negb compact); [assumption | constructor].
  - destruct (String.eqb element_type "Document" && negb compact);
      [now apply Hdoc | injection Ed as <-; constructor].
  - destruct (String.eqb element_type "Package");
      [now apply Hpkg | injection Ep as <-; constructor].
Qed.

End FormatterFacts.

(** Witness of [compact_label_is_part_of_full]: the sample document's data. *)
Lemma compact_label_is_part_of_full_witness :
  exists brief,
    format_node_lines Sample.repr "SPDXRef-DOCUMENT"
      (document_data Sample.document) "Document" true false = Ok brief
    /\ incl brief
         ["[Document]"; "Name: sample"; "Version: SPDX-2.3";
          "Created: 2025-11-27 15:17:19"; "Creators: Tool: sample";
          "Namespace: https://example.org/sample"; "Data License: CC0-1.0"]
    /\ List.length brief <= 7.
Proof.
  apply (compact_label_is_part_of_full Sample.repr "SPDXRef-DOCUMENT"
           (document_data Sample.document) "Document" false).
  reflexivity.
Defined.

(** Witness of [exclude_flag_only_for_references]: a file. *)
Lemma exclude_flag_only_for_references_witness :
  format_node_lines Sample.repr "SPDXRef-file-1"
    (file_data (Sample.file "SPDXRef-file-1" "main.c")) "File" false true
  = format_node_lines Sample.repr "SPDXRef-file-1"
      (file_data (Sample.file "SPDXRef-file-1" "main.c")) "File" false false.
Proof.
  apply (exclude_flag_only_for_references Sample.repr). left. reflexivity.
Defined.

(** Witness of [label_without_quotes]: a package whose name holds quotes. *)
Lemma label_without_quotes_witness :
  quote_free
    (PyString.join newline
       ["[Package]"; "Name: the 'a' package"; "Files Analyzed: None"]).
Proof.
  apply (label_without_quotes Sample.repr "SPDXRef-pkg-a"
           (pkg_data (Sample.package "SPDXRef-pkg-a"
                        ("the " ++ dquote ++ "a" ++ dquote ++ " package")))
           "Package" false false).
  - reflexivity.
  - repeat constructor.
  - reflexivity.
Defined.

(** ** Diagram emitter: shape of the output *)

Lemma concat_pairs_length {A B : Type} (Q : A -> list B -> Prop)
      (xs : list A) (groups : list (list B)) :
  (forall x g, Q x g -> List.length g = 2) ->
  Forall2 Q xs groups ->
  List.length (List.concat groups) = 2 * List.length xs.
Proof.
  intros HQ. induction 1 as [|x g xs groups Hg _ IH]; [reflexivity|].
  cbn [List.concat List.length]. rewrite length_app, IH, (HQ x g Hg). lia.
Qed.

Lemma sanitize_node_id_clean {A : Type} `{Str A} (spdx_id : A) :
  PyString.occurs "-" (sanitize_node_id spdx_id) = false
  /\ PyString.occurs "." (sanitize_node_id spdx_id) = false.
Proof.
  change (sanitize_node_id spdx_id) with (sanitize_node_id (str spdx_id)).
  split; [apply sanitize_node_id_no_hyphen | apply sanitize_node_id_no_dot].
Qed.

(** X10. For every document and every setting the emitter returns a
    diagram: its first line is the header, its last four lines are the
    legend, and in between stand two statements for every emitted element and
    one for every relationship, so the lines number 5 + 2 * elements +
    relationships; the joined text starts with the header. *)
Theorem generate_mermaid_diagram_shape (py_repr : string -> string)
        (doc : Document.t) (compact : bool) (max_packages : option Z)
        (exclude_external_refs : bool) :
  exists elements lines diagram,
    emitted_elements doc max_packages = Ok elements
    /\ generate_mermaid_lines py_repr doc compact max_packages exclude_external_refs
       = Ok lines
    /\ generate_mermaid_diagram py_repr doc compact max_packages
         exclude_external_refs = Ok diagram
    /\ diagram = PyString.join newline lines
    /\ List.length lines
       = 5 + 2 * List.length elements
         + List.length (Document.relationships doc)
    /\ hd "" lines = "graph LR"
    /\ skipn (List.length lines - 4) lines = legend_lines
    /\ String.prefix "graph LR" diagram = true.
Proof.
  destruct (generate_mermaid_lines_ok py_repr doc compact max_packages
              exclude_external_refs) as (elements & nodes & He & Hn & HQ & Hl).
  exists elements. eexists. eexists.
  split; [exact He|]. split; [exact Hl|].
  unfold generate_mermaid_diagram. rewrite Hl. cbn [bind].
  split; [reflexivity|]. split; [reflexivity|].
  assert (Hlen : List.length (List.concat nodes) = 2 * List.length elements).
  { eapply concat_pairs_length; [|exact HQ].
    intros x g (label & colours & ->). reflexivity. }
  split; [|split; [|split]].
  - cbn [List.length]. rewrite !length_app, length_map, Hlen. simpl. lia.
  - reflexivity.
  - set (body := ("graph LR" :: List.concat nodes
                  ++ map edge_statement (Document.relationships doc))%list).
    replace ("graph LR" :: List.concat nodes
             ++ map edge_statement (Document.relationships doc)
             ++ legend_lines)%list with (body ++ legend_lines)%list
      by (unfold body; now rewrite app_comm_cons, app_assoc).
    rewrite length_app. change (List.length legend_lines) with 4.
    replace (List.length body + 4 - 4) with (List.length body) by lia.
    rewrite skipn_app, skipn_all, Nat.sub_diag. reflexivity.
  - cbn [PyString.join String.concat].
    destruct (List.concat nodes ++ map edge_statement (Document.relationships doc)
              ++ legend_lines)%list; [reflexivity|].
    apply (prefix_append "graph LR").
Qed.

Lemma Forall2_map_self {A B : Type} (f : A -> B) (R : A -> B -> Prop) (l : list A) :
  (forall x, R x (f x)) -> Forall2 R l (map f l).
Proof. intros H. induction l as [|x l IH]; simpl; constructor; auto. Qed.

(** X11. Every node id and every edge endpoint of the diagram is a sanitized
    identifier.  The diagram that is returned is the header, the statements
    of the nodes, the edges and the legend, joined by newlines; the two
    statements of an element stand under one id, the sanitized id of the
    element, without hyphen or dot; and every edge, one per relationship,
    runs between the sanitized ids of its ends, without hyphen or dot, the
    no-assertion and none markers included. *)
Theorem diagram_identifiers_are_sanitized (py_repr : string -> string)
        (doc : Document.t) (compact : bool) (max_packages : option Z)
        (exclude_external_refs : bool) :
  exists elements nodes edges,
    emitted_elements doc max_packages = Ok elements
    /\ generate_mermaid_lines py_repr doc compact max_packages exclude_external_refs
       = Ok ("graph LR" :: List.concat nodes ++ edges ++ legend_lines)%list
    /\ generate_mermaid_diagram py_repr doc compact max_packages
         exclude_external_refs
       = Ok (PyString.join newline
               ("graph LR" :: List.concat nodes ++ edges ++ legend_lines)%list)
    /\ Forall2 (fun element statements => exists node_id label colours,
                  statements = [node_line node_id label; style_line node_id colours]
                  /\ node_id = sanitize_node_id (fst element)
                  /\ PyString.occurs "-" node_id = false
                  /\ PyString.occurs "." node_id = false)
         elements nodes
    /\ Forall2 (fun relationship edge => exists source_id target_id,
                  edge = "    " ++ source_id ++ " -->|" ++ dquote
                         ++ edge_label relationship ++ dquote ++ "| " ++ target_id
                  /\ source_id
                     = sanitize_node_id (Relationship.spdx_element_id relationship)
                  /\ target_id
                     = sanitize_node_id
                         (Relationship.related_spdx_element_id relationship)
                  /\ PyString.occurs "-" source_id = false
                  /\ PyString.occurs "." source_id = false
                  /\ PyString.occurs "-" target_id = false
                  /\ PyString.occurs "." target_id = false)
         (Document.relationships doc) edges.
Proof.
  destruct (generate_mermaid_lines_ok py_repr doc compact max_packages
              exclude_external_refs) as (elements & nodes & He & Hn & HQ & Hl).
  exists elements, nodes, (map edge_statement (Document.relationships doc)).
  split; [exact He|]. split; [exact Hl|].
  split; [unfold generate_mermaid_diagram; now rewrite Hl|]. split.
  - eapply Forall2_impl; [|exact HQ].
    intros e g (label & colours & ->).
    destruct (sanitize_node_id_clean (fst e)) as [Hh Hd].
    exists (sanitize_node_id (fst e)), label, colours. auto.
  - apply Forall2_map_self. intros relationship.
    destruct (sanitize_node_id_clean (Relationship.spdx_element_id relationship))
      as [Hh Hd].
    destruct (sanitize_node_id_clean
                (Relationship.related_spdx_element_id relationship)) as [Hh' Hd'].
    eexists. eexists. split; [reflexivity|]. auto 10.
Qed.

(** ** Package cap: bounds that do not cut, and negative bounds *)

(** X12. A bound that the number of packages does not exceed leaves the
    extracted dictionary exactly as it is, order included; so does the
    absence of a bound. *)
Theorem limit_packages_within_bound (doc : Document.t) (n : Z) :
  let elements := extract_elements_from_document doc in
  (Z.of_nat (List.length (filter is_package elements)) <= n)%Z ->
  limit_packages (Some n) elements = Ok elements
  /\ limit_packages None elements = Ok elements.
Proof.
  intros elements Hn. split; [|reflexivity].
  rewrite (limit_packages_spec_any n elements (extract_typed doc) (extract_NoDup doc)).
  now apply Z.ltb_ge in Hn as ->.
Qed.

(** Witness of [limit_packages_within_bound]: two packages under a bound of
    two. *)
Lemma limit_packages_within_bound_witness :
  limit_packages (Some 2%Z) (extract_elements_from_document Sample.document)
  = Ok (extract_elements_from_document Sample.document)
  /\ limit_packages None (extract_elements_from_document Sample.document)
     = Ok (extract_elements_from_document Sample.document).
Proof.
  apply (limit_packages_within_bound Sample.document 2). vm_compute. discriminate.
Defined.

(** X13. A negative bound is not refused: it counts from the end.  With a
    bound of -k the elements that are no packages come first, followed by all
    packages but the last k (none when there are at most k). *)
Theorem limit_packages_negative_bound (doc : Document.t) (n : Z) :
  (n < 0)%Z ->
  let elements := extract_elements_from_document doc in
  let total := List.length (filter is_package elements) in
  limit_packages (Some n) elements
  = Ok (filter (fun e => negb (is_package e)) elements
        ++ firstn (total - Z.to_nat (- n)) (filter is_package elements))%list.
Proof.
  intros Hn elements total.
  rewrite (limit_packages_spec_any n elements (extract_typed doc) (extract_NoDup doc)).
  fold total.
  assert ((n <? Z.of_nat total)%Z = true) as -> by (apply Z.ltb_lt; lia).
  unfold slice_to. assert ((0 <=? n)%Z = false) as -> by (apply Z.leb_gt; lia).
  fold total. do 2 f_equal. f_equal. lia.
Qed.

(** Witness of [limit_packages_negative_bound]: a bound of -1 drops the
    second of two packages. *)
Lemma limit_packages_negative_bound_witness :
  limit_packages (Some (-1)%Z) (extract_elements_from_document Sample.document)
  = Ok [document_entry Sample.document;
        file_entry (Sample.file "SPDXRef-file-1" "main.c");
        snippet_entry (Sample.snippet "SPDXRef-snippet-1");
        package_entry (Sample.package "SPDXRef-pkg-a" "a")].
Proof.
  apply (limit_packages_negative_bound Sample.document (-1)). lia.
Defined.

(** ** Node colours *)

(** X14. A package node takes the colours of a source package exactly when
    its purpose is a true value whose text holds SOURCE; every other package,
    APPLICATION or not, with or without a purpose, takes the default
    colours. *)
Theorem package_node_colours (py_repr : string -> string)
        (compact exclude_external_refs : bool) (package : Package.t) :
  exists label,
    node_statements py_repr compact exclude_external_refs (package_entry package)
    = Ok [node_line (sanitize_node_id (Package.spdx_id package)) label;
          style_line (sanitize_node_id (Package.spdx_id package))
            match Package.primary_package_purpose package with
            | Some purpose =>
                if truth purpose && PyString.contains "SOURCE" (text purpose)
                then source_colours else default_colours
            | None => default_colours
            end].
Proof.
  destruct (format_node_label_ok py_repr (Package.spdx_id package) (pkg_data package)
              "Package" compact exclude_external_refs
              (proj2 (pkg_data_shape package))) as (label & Hl).
  exists label. unfold node_statements, package_entry.
  change (type_of (pkg_data package)) with (Ok (A:=PyVal) (PyStr "Package")).
  cbn [bind]. unfold str, Str_PyVal. cbn [py_str]. rewrite Hl. cbn [bind].
  change (eq_str (PyStr "Package") "Document") with false.
  change (eq_str (PyStr "Package") "Package") with true. cbv iota.
  do 3 f_equal. unfold package_colours.
  change (Dict.get "primaryPackagePurpose" (pkg_data package))
    with (Some (str_if_truthy (Package.primary_package_purpose package))).
  unfold str_if_truthy.
  destruct (Package.primary_package_purpose package) as [[[] t]|]; cbn;
    try reflexivity.
  destruct t as [|c t]; [reflexivity|]. cbn [String.eqb negb andb].
  destruct (PyString.contains "SOURCE" (String c t)); [reflexivity|].
  now destruct (PyString.contains "APPLICATION" (String c t)).
Qed.

(** ** Timestamp pre-patch: the guard and the rewrite *)

Lemma timestamp_search_false (c : ascii) (s : string) :
  timestamp_search (String c s) = false ->
  timestamp_match (String c s) = None /\ timestamp_search s = false.
Proof.
  cbn [timestamp_search]. destruct (timestamp_match (String c s)); [discriminate|].
  now split.
Qed.

Lemma timestamp_sub_unchanged (s : string) :
  timestamp_search s = false -> timestamp_sub s = s.
Proof.
  induction s as [|c s IH]; intros H; [reflexivity|].
  apply timestamp_search_false in H as [Hm Hs].
  rewrite (timestamp_sub_nomatch _ _ Hm). now rewrite IH.
Qed.

Lemma timestamp_sub_grows (n : nat) :
  forall s, String.length s <= n ->
            String.length s <= String.length (timestamp_sub s)
            /\ (timestamp_search s = true ->
                String.length s < String.length (timestamp_sub s)).
Proof.
  induction n as [|n IH]; intros s Hlen.
  - destruct s; [split; [reflexivity | discriminate] | simpl in Hlen; lia].
  - destruct s as [|c s]; [split; [reflexivity | discriminate]|].
    destruct (timestamp_match (String c s)) as [[g rest]|] eqn:Hm.
    + destruct (timestamp_match_shape _ _ _ Hm) as (Hs & Hg & _).
      rewrite (timestamp_sub_match _ _ _ Hm). rewrite Hs in Hlen |- *.
      cbn [dquote append String.length] in Hlen |- *.
      rewrite !length_append in Hlen |- *. cbn [String.length] in Hlen |- *.
      rewrite !length_append. cbn [String.length].
      destruct (IH rest) as [Hr _]; [lia|]. split; [lia | intros _; lia].
    + rewrite (timestamp_sub_nomatch _ _ Hm). cbn [String.length].
      rewrite (timestamp_search_nomatch _ _ Hm). simpl in Hlen.
      destruct (IH s) as [Hr Hr']; [lia|]. split; [lia|].
      intros H. specialize (Hr' H). lia.
Qed.

(** X15. The guard agrees with the rewrite: the rewrite returns the text
    unchanged exactly when the search finds no match, so skipping the rewrite
    after a failed search loses nothing; and the rewrite only inserts, the
    text never gets shorter. *)
Theorem timestamp_sub_changes_iff_found (content : string) :
  (timestamp_sub content = content <-> timestamp_search content = false)
  /\ String.length content <= String.length (timestamp_sub content).
Proof.
  destruct (timestamp_sub_grows (String.length content) content (le_n _))
    as [Hle Hlt].
  split; [split|exact Hle].
  - intros H. destruct (timestamp_search content) eqn:E; [|reflexivity].
    specialize (Hlt eq_refl). rewrite H in Hlt. lia.
  - apply timestamp_sub_unchanged.
Qed.

(** X16. A timestamp that has its Z is never matched: neither the rewritten
    form of a match, with the Z before the closing quote, nor a quoted
    timestamp with a Z right behind the closing quote; so the rewrite leaves
    a rewritten timestamp as it is. *)
Theorem timestamp_with_Z_is_skipped (s group rest tail : string) :
  timestamp_match s = Some (group, rest) ->
  timestamp_match (dquote ++ group ++ "Z" ++ dquote ++ tail) = None
  /\ timestamp_match (dquote ++ group ++ dquote ++ "Z" ++ tail) = None
  /\ timestamp_sub (dquote ++ group ++ "Z" ++ dquote)
     = dquote ++ group ++ "Z" ++ dquote.
Proof.
  intros H. destruct (timestamp_match_shape _ _ _ H) as (_ & Hg & Hq & _ & _).
  assert (H1 : forall t, timestamp_match (dquote ++ group ++ "Z" ++ dquote ++ t) = None).
  { intros t.
    destruct (timestamp_match (dquote ++ group ++ "Z" ++ dquote ++ t))
      as [[g' r']|] eqn:Hm; [|reflexivity].
    destruct (timestamp_match_shape _ _ _ Hm) as (Hs' & Hg' & _).
    cbn [dquote append] in Hs'. injection Hs' as Hs'.
    apply append_length_inj in Hs' as [_ Hs']; [discriminate | congruence]. }
  split; [apply H1|]. split.
  - destruct (timestamp_match (dquote ++ group ++ dquote ++ "Z" ++ tail))
      as [[g' r']|] eqn:Hm; [|reflexivity].
    destruct (timestamp_match_shape _ _ _ Hm) as (Hs' & Hg' & _ & _ & Hz).
    cbn [dquote append] in Hs'. injection Hs' as Hs'.
    apply append_length_inj in Hs' as [_ Hs']; [|congruence].
    injection Hs' as <-. rewrite prefix_Z_head in Hz. discriminate.
  - apply timestamp_sub_unchanged.
    specialize (H1 "").
    change (dquote ++ group ++ "Z" ++ dquote ++ "")
      with (String dquote_char (group ++ "Z" ++ dquote)) in H1.
    change (dquote ++ group ++ "Z" ++ dquote)
      with (String dquote_char (group ++ "Z" ++ dquote)).
    rewrite (timestamp_search_nomatch _ _ H1).
    rewrite timestamp_search_skip by exact Hq.
    reflexivity.
Qed.

(** Witness of [timestamp_with_Z_is_skipped]: the sample timestamp. *)
Lemma timestamp_with_Z_is_skipped_witness :
  timestamp_match (dquote ++ Sample.timestamp ++ "Z" ++ dquote ++ "}") = None
  /\ timestamp_match (dquote ++ Sample.timestamp ++ dquote ++ "Z" ++ "}") = None
  /\ timestamp_sub (dquote ++ Sample.timestamp ++ "Z" ++ dquote)
     = dquote ++ Sample.timestamp ++ "Z" ++ dquote.
Proof.
  apply (timestamp_with_Z_is_skipped (dquote ++ Sample.timestamp ++ dquote)
           Sample.timestamp "" "}").
  reflexivity.
Defined.

(** ** Patch step and command-line flow *)

Lemma get_unlink_other (q file_path : string) (fs : FileSystem) :
  q <> file_path -> Dict.get q (unlink file_path fs) = Dict.get q fs.
Proof.
  intros Hne. induction fs as [|[p t] d IH]; [reflexivity|].
  cbn [unlink]. destruct (String.eqb_spec p file_path) as [->|Hp].
  - cbn [Dict.get]. apply not_eq_sym in Hne.
    now apply String.eqb_neq in Hne as ->.
  - cbn [Dict.get]. now rewrite IH.
Qed.

Lemma mem_get {V : Type} (k : string) (d : dict V) :
  Dict.mem k d = true <-> exists v, Dict.get k d = Some v.
Proof.
  unfold Dict.mem. destruct (Dict.get k d) as [v|].
  - split; [eauto | reflexivity].
  - split; [discriminate | intros [v H]; discriminate].
Qed.

Lemma mem_set_other {V : Type} (k k' : string) (v : V) (d : dict V) :
  k' <> k -> Dict.mem k (Dict.set k' v d) = Dict.mem k d.
Proof. intros H. unfold Dict.mem. now rewrite get_set_other. Qed.

Lemma mem_set_same {V : Type} (k : string) (v : V) (d : dict V) :
  Dict.mem k (Dict.set k v d) = true.
Proof. unfold Dict.mem. now rewrite get_set_same. Qed.

Section MainFacts.

Variable py_repr : string -> string.
Variable temporary_name : FileSystem -> string.
Variable faults : Faults.
Variable parse_file : string -> string -> result Document.t.

Lemma read_text_ok (file_path content : string) (w : World) :
  read_text faults file_path w = Ok content
  <-> Dict.get file_path (fs w) = Some content
      /\ read_fault faults file_path = None.
Proof.
  unfold read_text. destruct (Dict.get file_path (fs w)) as [c|].
  - destruct (read_fault faults file_path).
    + split; [discriminate | intros [_ H]; discriminate].
    + split; [intros H; injection H as <-; auto | intros [H _]; congruence].
  - split; [discriminate | intros [H _]; discriminate].
Qed.

(** The four ways out of the patch step: nothing to do; a fault while
    reading; a new file; a fault while writing it. *)
Lemma preprocess_cases (file_path : string) (w : World) :
  preprocess_spdx_file temporary_name faults file_path w = (file_path, w)
  \/ (exists e,
         lower (path_suffix file_path) = ".json"
         /\ read_text faults file_path w = Raise e
         /\ preprocess_spdx_file temporary_name faults file_path w
            = (file_path, print (Warning e) w))
  \/ (exists content,
         read_text faults file_path w = Ok content
         /\ timestamp_search content = true
         /\ write_fault faults (temporary_name (fs w)) (timestamp_sub content) = None
         /\ preprocess_spdx_file temporary_name faults file_path w
            = (temporary_name (fs w),
               store (temporary_name (fs w)) (timestamp_sub content) w))
  \/ (exists content e left,
         read_text faults file_path w = Ok content
         /\ timestamp_search content = true
         /\ write_fault faults (temporary_name (fs w)) (timestamp_sub content)
            = Some (e, left)
         /\ preprocess_spdx_file temporary_name faults file_path w
            = (file_path,
               print (Warning e)
                 match left with
                 | Some part => store (temporary_name (fs w)) part w
                 | None => w
                 end)).
Proof.
  unfold preprocess_spdx_file.
  destruct (String.eqb_spec (lower (path_suffix file_path)) ".json") as [Hs|Hs];
    cbn [negb]; [|now left].
  destruct (read_text faults file_path w) as [content|e] eqn:Hread.
  - destruct (timestamp_search content) eqn:Hsearch; cbn [negb]; [|now left].
    unfold write_text.
    destruct (write_fault faults (temporary_name (fs w)) (timestamp_sub content))
      as [[e [part|]]|] eqn:Hw.
    + right. right. right. exists content, e, (Some part). auto.
    + right. right. right. exists content, e, None. auto.
    + right. right. left. exists content. auto.
  - right. left. exists e. auto.
Qed.

(** With a new name for the temporary file, the patch step keeps what is
    there, and touches no path but the temporary one. *)
Lemma preprocess_keeps (file_path : string) (w : World) (q : string) :
  q <> temporary_name (fs w) ->
  Dict.get q (fs (snd (preprocess_spdx_file temporary_name faults file_path w)))
  = Dict.get q (fs w).
Proof.
  intros Hq.
  destruct (preprocess_cases file_path w)
    as [->|[(e & _ & _ & ->)|[(content & _ & _ & _ & ->)
                             |(content & e & [part|] & _ & _ & _ & ->)]]];
    cbn [snd print store fs]; try reflexivity;
    apply get_set_other; now apply not_eq_sym.
Qed.

Lemma fresh_other (w : World) (q text : string) :
  Dict.get (temporary_name (fs w)) (fs w) = None ->
  Dict.get q (fs w) = Some text -> q <> temporary_name (fs w).
Proof. intros Hfresh Hq E. rewrite E in Hq. congruence. Qed.

(** What the patch step leaves: the files that were there, and at most one
    warning. *)
Lemma preprocess_effects (file_path : string) (w : World) :
  Dict.get (temporary_name (fs w)) (fs w) = None ->
  (forall q text,
      Dict.get q (fs w) = Some text ->
      Dict.get q (fs (snd (preprocess_spdx_file temporary_name faults file_path w)))
      = Some text)
  /\ (forall q,
         q <> temporary_name (fs w) ->
         Dict.get q (fs (snd (preprocess_spdx_file temporary_name faults file_path w)))
         = Dict.get q (fs w))
  /\ exists warnings,
      printed (snd (preprocess_spdx_file temporary_name faults file_path w))
      = (printed w ++ warnings)%list
      /\ (warnings = [] \/ exists e, warnings = [Warning e]).
Proof.
  intros Hfresh. split; [|split].
  - intros q text Hq. rewrite preprocess_keeps; [exact Hq|].
    now apply (fresh_other w q text).
  - intros q Hq. now apply preprocess_keeps.
  - destruct (preprocess_cases file_path w)
      as [->|[(e & _ & _ & ->)|[(content & _ & _ & _ & ->)
                               |(content & e & left & _ & _ & _ & ->)]]];
      cbn [snd print store printed].
    + exists []. rewrite app_nil_r. auto.
    + exists [Warning e]. eauto.
    + exists []. rewrite app_nil_r. auto.
    + exists [Warning e]. split; [now destruct left | eauto].
Qed.

(** X17. With a new name for the temporary file, the patch step changes no
    file that is there and touches no path but the temporary one.  It returns
    the given path or the temporary one, and the path it returns is there
    exactly when the given one is.  It returns the temporary path only for a
    given file that it could read, after it has written there the rewritten
    text, which differs from the given file's; then it prints nothing.  It
    prints at most one warning, and only when it returns the given path. *)
Theorem preprocess_spdx_file_keeps_files (file_path : string) (w : World) :
  Dict.get (temporary_name (fs w)) (fs w) = None ->
  let result := preprocess_spdx_file temporary_name faults file_path w in
  (forall q text,
      Dict.get q (fs w) = Some text -> Dict.get q (fs (snd result)) = Some text)
  /\ (forall q, q <> temporary_name (fs w) ->
                Dict.get q (fs (snd result)) = Dict.get q (fs w))
  /\ (fst result = file_path \/ fst result = temporary_name (fs w))
  /\ Dict.mem (fst result) (fs (snd result)) = Dict.mem file_path (fs w)
  /\ (fst result <> file_path ->
      printed (snd result) = printed w
      /\ exists content,
          Dict.get file_path (fs w) = Some content
          /\ read_fault faults file_path = None
          /\ Dict.get (fst result) (fs (snd result)) = Some (timestamp_sub content)
          /\ timestamp_sub content <> content)
  /\ exists warnings,
      printed (snd result) = (printed w ++ warnings)%list
      /\ (warnings = []
          \/ exists e, warnings = [Warning e] /\ fst result = file_path).
Proof.
  intros Hfresh result. subst result.
  split; [|split].
  - intros q text Hq. rewrite preprocess_keeps; [exact Hq|].
    now apply (fresh_other w q text).
  - intros q Hq. now apply preprocess_keeps.
  - destruct (preprocess_cases file_path w)
      as [->|[(e & _ & _ & ->)|[(content & Hread & Hsearch & _ & ->)
                               |(content & e & left & Hread & _ & _ & ->)]]];
      cbn [fst snd print store fs printed].
    + split; [now left|]. split; [reflexivity|]. split; [congruence|].
      exists []. rewrite app_nil_r. auto.
    + split; [now left|]. split; [reflexivity|]. split; [congruence|].
      exists [Warning e]. split; [reflexivity|]. right. eauto.
    + apply read_text_ok in Hread as [Hget Hfault].
      split; [now right|]. split.
      { rewrite mem_set_same. symmetry. apply mem_get. eauto. }
      split.
      * intros _. split; [reflexivity|]. exists content.
        repeat split; try assumption; [apply get_set_same|].
        destruct (timestamp_sub_grows (String.length content) content (le_n _))
          as [_ Hlt].
        intros E. specialize (Hlt Hsearch). rewrite E in Hlt. lia.
      * exists []. rewrite app_nil_r. auto.
    + apply read_text_ok in Hread as [Hget Hfault].
      split; [now left|]. split.
      { destruct left as [part|]; cbn [store fs]; [|reflexivity].
        apply mem_set_other. apply not_eq_sym.
        now apply (fresh_other w file_path content). }
      split; [congruence|].
      exists [Warning e]. split; [now destruct left|]. right. eauto.
Qed.

(** Generation raises on no parsed document. *)
Lemma generate_mermaid_diagram_ok (doc : Document.t) (compact : bool)
      (max_packages : option Z) (exclude_external_refs : bool) :
  exists mermaid,
    generate_mermaid_diagram py_repr doc compact max_packages exclude_external_refs
    = Ok mermaid.
Proof.
  destruct (generate_mermaid_lines_ok py_repr doc compact max_packages
              exclude_external_refs) as (els & nodes & _ & _ & _ & Hl).
  unfold generate_mermaid_diagram. rewrite Hl. cbn [bind]. eauto.
Qed.

(** The file the patch step returns is there when the given one is. *)
Lemma processed_file_exists (file_path : string) (w : World) :
  Dict.mem file_path (fs w) = true ->
  exists content,
    Dict.get (fst (preprocess_spdx_file temporary_name faults file_path w))
      (fs (snd (preprocess_spdx_file temporary_name faults file_path w)))
    = Some content.
Proof.
  intros Hmem. apply mem_get in Hmem as [text Hget].
  destruct (preprocess_cases file_path w)
    as [->|[(e & _ & _ & ->)|[(content & _ & _ & _ & ->)
                             |(content & e & left & Hread & _ & _ & ->)]]];
    cbn [fst snd print store fs]; eauto.
  - rewrite get_set_same. eauto.
  - destruct left as [part|]; cbn [store fs]; [|eauto].
    destruct (String.eqb_spec (temporary_name (fs w)) file_path) as [->|Hne].
    + rewrite get_set_same. eauto.
    + rewrite get_set_other by exact Hne. eauto.
Qed.

(** The world in which the diagram is handed out: the temporary file, if
    there is one, removed unless [unlink] raises. *)
Lemma main_unfold (args : Args) (w : World) :
  Dict.mem (spdx_file args) (fs w) = true ->
  let pre := preprocess_spdx_file temporary_name faults (spdx_file args) w in
  exists content,
    Dict.get (fst pre) (fs (snd pre)) = Some content
    /\ match parse_file (fst pre) content with
       | Raise e =>
           main py_repr temporary_name faults parse_file args w
           = report e (snd pre)
       | Ok doc =>
           exists mermaid,
             generate_mermaid_diagram py_repr doc (compact args)
               (max_packages args) (exclude_external_refs args) = Ok mermaid
             /\ main py_repr temporary_name faults parse_file args w
                = write_output faults (output args) mermaid
                    (if negb (String.eqb (fst pre) (spdx_file args))
                     then try_unlink faults (fst pre) (snd pre)
                     else snd pre)
       end.
Proof.
  intros Hmem pre.
  destruct (processed_file_exists (spdx_file args) w Hmem) as [content Hc].
  fold pre in Hc. exists content. split; [exact Hc|].
  unfold main. rewrite Hmem. cbn [negb].
  fold pre. destruct pre as [p w1]. cbn [fst snd] in Hc |- *. rewrite Hc.
  destruct (parse_file p content) as [doc|e]; [|reflexivity].
  destruct (generate_mermaid_diagram_ok doc (compact args) (max_packages args)
              (exclude_external_refs args)) as [mermaid Hm].
  exists mermaid. split; [exact Hm|]. rewrite Hm. reflexivity.
Qed.

(** The output step ends with status 0 exactly when nothing raises in it. *)
Lemma write_output_status (out : option string) (mermaid : string) (w : World) :
  (fst (write_output faults out mermaid w) = 0
   <-> match out with
       | Some out =>
           write_fault faults out mermaid = None
           /\ print_fault faults ("Diagram written to " ++ out) = None
       | None => print_fault faults mermaid = None
       end)
  /\ (fst (write_output faults out mermaid w) = 0
      \/ fst (write_output faults out mermaid w) = 1).
Proof.
  unfold write_output, write_text, print_stdout, report.
  destruct out as [out|].
  - destruct (write_fault faults out mermaid) as [[e [part|]]|];
      cbn [fst]; try (split; [split; [discriminate | intros [H _]; discriminate]
                             | now right]).
    destruct (print_fault faults ("Diagram written to " ++ out)) as [[e [part|]]|];
      cbn [fst];
      try (split; [split; [discriminate | intros [_ H]; discriminate]
                  | now right]).
    split; [split; auto | now left].
  - destruct (print_fault faults mermaid) as [[e [part|]]|]; cbn [fst];
      try (split; [split; discriminate | now right]).
    split; [split; auto | now left].
Qed.


(** Without a fault in the patch step and in the removal, the world in which
    the diagram is handed out is the world before the run. *)
Lemma temporary_file_removed (file_path : string) (w : World) :
  Dict.get (temporary_name (fs w)) (fs w) = None ->
  Dict.mem file_path (fs w) = true ->
  read_fault faults file_path = None ->
  (forall text, write_fault faults (temporary_name (fs w)) text = None) ->
  unlink_fault faults (temporary_name (fs w)) = None ->
  (if negb (String.eqb
              (fst (preprocess_spdx_file temporary_name faults file_path w))
              file_path)
   then try_unlink faults
          (fst (preprocess_spdx_file temporary_name faults file_path w))
          (snd (preprocess_spdx_file temporary_name faults file_path w))
   else snd (preprocess_spdx_file temporary_name faults file_path w)) = w.
Proof.
  intros Hfresh Hmem Hread Hwrite Hunlink.
  apply mem_get in Hmem as [text Hget].
  destruct (preprocess_cases file_path w)
    as [->|[(e & _ & Hr & _)|[(c & _ & _ & _ & ->)
                             |(c & e & l & _ & _ & Hw & _)]]].
  - cbn [fst snd]. now rewrite String.eqb_refl.
  - unfold read_text in Hr. rewrite Hget, Hread in Hr. discriminate.
  - cbn [fst snd].
    assert (Hne : temporary_name (fs w) <> file_path).
    { intros E. rewrite E in Hfresh. congruence. }
    apply String.eqb_neq in Hne. rewrite Hne. cbn [negb].
    unfold try_unlink. rewrite Hunlink. unfold store. cbn [fs printed].
    apply get_None_keys in Hfresh as Hnew.
    rewrite (set_new _ _ _ Hnew), (unlink_new _ _ _ Hnew).
    now destruct w.
  - rewrite Hwrite in Hw. discriminate.
Qed.


(** X20. What a run leaves when the input is not there or the parser raises,
    if the temporary file gets a new name.  Without the input, status 1, the
    files as they were, and one line on standard error.  When the parser
    raises, status 1; every file that was there has its text and no path but
    the temporary one has changed, so nothing is written to the output path;
    after at most one warning of the patch step, the message and the trace
    of the exception the parser raised are printed, and nothing goes to
    standard output. *)
Theorem main_failure_effects (args : Args) (w : World) :
  Dict.get (temporary_name (fs w)) (fs w) = None ->
  let pre := preprocess_spdx_file temporary_name faults (spdx_file args) w in
  let run := main py_repr temporary_name faults parse_file args w in
  (Dict.mem (spdx_file args) (fs w) = false ->
   run = (1, print (Stderr ("Error: File not found: " ++ spdx_file args)) w))
  /\ (forall content e,
         Dict.mem (spdx_file args) (fs w) = true ->
         Dict.get (fst pre) (fs (snd pre)) = Some content ->
         parse_file (fst pre) content = Raise e ->
         fst run = 1
         /\ (forall q text, Dict.get q (fs w) = Some text ->
                            Dict.get q (fs (snd run)) = Some text)
         /\ (forall q, q <> temporary_name (fs w) ->
                       Dict.get q (fs (snd run)) = Dict.get q (fs w))
         /\ exists warnings,
             printed (snd run)
             = (printed w ++ warnings ++ [Error e; Traceback e])%list
             /\ (warnings = [] \/ exists e', warnings = [Warning e'])
             /\ existsb to_stdout (warnings ++ [Error e; Traceback e]) = false).
Proof.
  intros Hfresh pre run. subst run. split.
  - intros Hmem. unfold main. now rewrite Hmem.
  - intros content e Hmem Hc Hp.
    destruct (main_unfold args w Hmem) as (content' & Hc' & Hmain).
    fold pre in Hc', Hmain. rewrite Hc in Hc'. injection Hc' as <-.
    rewrite Hp in Hmain. rewrite Hmain. unfold report. cbn [fst snd print fs printed].
    destruct (preprocess_effects (spdx_file args) w Hfresh)
      as (Hkeep & Hother & Hwarn).
    fold pre in Hkeep, Hother, Hwarn.
    split; [reflexivity|]. split; [exact Hkeep|]. split; [exact Hother|].
    destruct Hwarn as (warnings & Hprinted & Hshape).
    exists warnings. rewrite Hprinted, <- !app_assoc. split; [reflexivity|].
    split; [exact Hshape|].
    destruct Hshape as [->|(e' & ->)]; reflexivity.
Qed.

(** X21. A fault in the patch step is not fatal.  When the patch step cannot
    read the JSON input, or cannot create the temporary file for its
    rewritten text, [main] prints the warning and goes on with the given
    file: if the parser accepts that file and standard output takes the
    diagram, the diagram is printed after the warning, the files are as they
    were, and the status is 0. *)
Theorem patch_fault_is_not_fatal (args : Args) (w : World) (content : string)
        (e : PyExn) (doc : Document.t) :
  lower (path_suffix (spdx_file args)) = ".json" ->
  Dict.get (spdx_file args) (fs w) = Some content ->
  read_fault faults (spdx_file args) = Some e
  \/ (read_fault faults (spdx_file args) = None
      /\ timestamp_search content = true
      /\ write_fault faults (temporary_name (fs w)) (timestamp_sub content)
         = Some (e, None)) ->
  parse_file (spdx_file args) content = Ok doc ->
  output args = None ->
  (forall text, print_fault faults text = None) ->
  exists mermaid,
    generate_mermaid_diagram py_repr doc (compact args) (max_packages args)
      (exclude_external_refs args) = Ok mermaid
    /\ main py_repr temporary_name faults parse_file args w
       = (0, print (Stdout mermaid) (print (Warning e) w)).
Proof.
  intros Hs Hget Hfault Hparse Hout Hprint.
  assert (Hpre : preprocess_spdx_file temporary_name faults (spdx_file args) w
                 = (spdx_file args, print (Warning e) w)).
  { unfold preprocess_spdx_file, read_text. apply String.eqb_eq in Hs.
    rewrite Hs, Hget. cbn [negb].
    destruct Hfault as [->|(-> & -> & Hw)]; [reflexivity|].
    cbn [negb]. unfold write_text. now rewrite Hw. }
  destruct (generate_mermaid_diagram_ok doc (compact args) (max_packages args)
              (exclude_external_refs args)) as [mermaid Hm].
  exists mermaid. split; [exact Hm|].
  unfold main, Dict.mem. rewrite Hget. cbn [negb]. rewrite Hpre.
  cbn [print fs]. rewrite Hget, Hparse, String.eqb_refl. cbn [negb].
  rewrite Hm, Hout. unfold write_output, print_stdout. now rewrite Hprint.
Qed.

(** X22. A diagram that cannot be written is reported.  When the output
    path cannot be opened for writing, a run in which the parser accepts the
    processed file ends with status 1 all the same, with the message and the
    trace of the exception the write raised; where the patch step and the
    removal of the temporary file meet no fault, the files are as they were
    before the run and nothing else is printed. *)
Theorem failed_write_is_reported (args : Args) (w : World) (out content : string)
        (e : PyExn) (doc : Document.t) :
  Dict.get (temporary_name (fs w)) (fs w) = None ->
  Dict.mem (spdx_file args) (fs w) = true ->
  read_fault faults (spdx_file args) = None ->
  (forall text, write_fault faults (temporary_name (fs w)) text = None) ->
  unlink_fault faults (temporary_name (fs w)) = None ->
  output args = Some out ->
  (forall text, write_fault faults out text = Some (e, None)) ->
  Dict.get (fst (preprocess_spdx_file temporary_name faults (spdx_file args) w))
    (fs (snd (preprocess_spdx_file temporary_name faults (spdx_file args) w)))
  = Some content ->
  parse_file (fst (preprocess_spdx_file temporary_name faults (spdx_file args) w))
    content = Ok doc ->
  main py_repr temporary_name faults parse_file args w
  = (1, print (Traceback e) (print (Error e) w)).
Proof.
  intros Hfresh Hmem Hread Hwrite Hunlink Hout Hfail Hc Hp.
  destruct (main_unfold args w Hmem) as (content' & Hc' & Hmain).
  cbv zeta in Hc', Hmain. rewrite Hc in Hc'. injection Hc' as <-.
  rewrite Hp in Hmain. destruct Hmain as (mermaid & _ & ->).
  rewrite (temporary_file_removed (spdx_file args) w Hfresh Hmem Hread Hwrite
             Hunlink).
  rewrite Hout. unfold write_output, write_text. now rewrite Hfail.
Qed.

End MainFacts.

(** Witness of [preprocess_spdx_file_keeps_files]: the sample file with a
    timestamp to patch. *)
Lemma preprocess_spdx_file_keeps_files_witness :
  let w := Sample.world Sample.unpatched_json in
  let result :=
    preprocess_spdx_file Sample.temporary_name Sample.no_faults "sbom.json" w in
  (forall q text,
      Dict.get q (fs w) = Some text -> Dict.get q (fs (snd result)) = Some text)
  /\ fst result = "/tmp/spdx_preprocessed_x.json"
  /\ printed (snd result) = [].
Proof.
  destruct (preprocess_spdx_file_keeps_files Sample.temporary_name Sample.no_faults
              "sbom.json" (Sample.world Sample.unpatched_json) eq_refl)
    as (Hkeep & _).
  split; [exact Hkeep|]. split; reflexivity.
Defined.


(** Witness of [main_failure_effects]: the parser refuses the patched sample
    file. *)
Lemma main_failure_effects_witness :
  let w := Sample.world Sample.unpatched_json in
  let run := main Sample.repr Sample.temporary_name Sample.no_faults
               Sample.rejecting_parser Sample.args w in
  fst run = 1
  /\ Dict.get "sbom.json" (fs (snd run)) = Some Sample.unpatched_json
  /\ printed (snd run) = [Error ParseError; Traceback ParseError].
Proof.
  destruct (main_failure_effects Sample.repr Sample.temporary_name Sample.no_faults
              Sample.rejecting_parser Sample.args
              (Sample.world Sample.unpatched_json) eq_refl) as (_ & H).
  destruct (H Sample.patched_json ParseError eq_refl eq_refl eq_refl)
    as (Hstatus & Hkeep & _).
  split; [exact Hstatus|]. split; [now apply Hkeep | reflexivity].
Defined.

(** Witness of [patch_fault_is_not_fatal]: the bytes of the sample file do
    not decode, and the parser reads the document all the same. *)
Lemma patch_fault_is_not_fatal_witness :
  exists mermaid,
    generate_mermaid_diagram Sample.repr Sample.document false None false
    = Ok mermaid
    /\ main Sample.repr Sample.temporary_name Sample.undecodable
         Sample.accepting_parser Sample.args (Sample.world Sample.unpatched_json)
       = (0, print (Stdout mermaid)
               (print (Warning UnicodeDecodeError)
                  (Sample.world Sample.unpatched_json))).
Proof.
  exact (patch_fault_is_not_fatal Sample.repr Sample.temporary_name
           Sample.undecodable Sample.accepting_parser Sample.args
           (Sample.world Sample.unpatched_json) Sample.unpatched_json
           UnicodeDecodeError Sample.document
           eq_refl eq_refl (or_introl eq_refl) eq_refl eq_refl (fun _ => eq_refl)).
Defined.

(** Witness of [failed_write_is_reported]: the diagram is to go to a path
    that cannot be opened. *)
Lemma failed_write_is_reported_witness :
  main Sample.repr Sample.temporary_name Sample.read_only Sample.accepting_parser
    {| spdx_file := "sbom.json"; output := Some "out/diagram.md"; compact := false;
       max_packages := None; exclude_external_refs := false |}
    (Sample.world Sample.unpatched_json)
  = (1, print (Traceback OSError)
          (print (Error OSError) (Sample.world Sample.unpatched_json))).
Proof.
  exact (failed_write_is_reported Sample.repr Sample.temporary_name
           Sample.read_only Sample.accepting_parser
           {| spdx_file := "sbom.json"; output := Some "out/diagram.md";
              compact := false; max_packages := None;
              exclude_external_refs := false |}
           (Sample.world Sample.unpatched_json) "out/diagram.md"
           Sample.patched_json OSError Sample.document
           eq_refl eq_refl eq_refl (fun _ => eq_refl) eq_refl eq_refl
           (fun _ => eq_refl) eq_refl eq_refl).
Defined.
